(** * Market Sales Analytics Hub: a shallow embedding of [src/main.py]

    The Streamlit script is embedded component by component:

    - [Pandas]: the fragment of pandas the script uses (typed columns,
      boolean-mask selection, [isin], [select_dtypes], descriptive
      statistics, [value_counts], [mode]);
    - [DuckDB]: the four aggregate queries of the KPI block, run through a
      connection that holds {e references} to registered frames;
    - [Random]: [random.choice] and [random.shuffle] over an explicit
      generator state;
    - the script itself: column classification, role selection and the
      filter engine (lines 31-81), the KPI block (87-96) with its cards
      (98-109), the dynamic report loop (131-218), the KPI table of the
      PDF report (270-283), the storyteller (305-365), the what-if tab
      (368-422) and the trivia tab with its generator (425-491).

    Modelling conventions.

    - Numbers are exact rationals ([Qc]); a missing value (NaN, NaT, NULL)
      is [None].  Rounding errors of floating point are not modelled.
    - A Python exception is a value of [exn] carried by the [res] monad;
      statements that also read or write script variables and objects
      live in the state monad [M] over [World].
    - Frames are objects in a heap: [df.copy()] allocates, [df[c] = s]
      updates in place, a DuckDB registration holds an address.
    - What plotly and Streamlit do inside a [try] block is a parameter
      [materialize], which may succeed or raise any exception text.
    - The user's input is explicit: the option picked in a select box, the
      button clicked, the dates and values entered.
    - Column names are the non-empty strings [pd.read_csv] produces, so the
      truth value of a column selection ([if sales_column:]) is whether it
      is [Some].
    - Among values with equal counts, [value_counts] keeps the order of
      first appearance and [nlargest] the first ones. *)

From Stdlib Require Import QArith Qcanon Qround.
From stdpp Require Import base list strings gmap numbers sorting pretty.

#[local] Set Warnings "-clear-no-such-hyp".

(** ** Python exceptions and the result monad *)

Inductive exn :=
| KeyError (key : string)
| IndexError
| ZeroDivisionError
| AttributeError (msg : string)
| TypeError (msg : string)
| CatalogError (table : string)
| BinderError (msg : string)
| RuntimeError (msg : string).

Inductive res (A : Type) :=
| Ok (a : A)
| Raise (e : exn).
Arguments Ok {A} a.
Arguments Raise {A} e.

#[export] Instance res_ret : MRet res := fun _ a => Ok a.
#[export] Instance res_bind : MBind res := fun _ _ f m =>
  match m with
  | Ok a => f a
  | Raise e => Raise e
  end.

(** [str(e)] *)
Definition exn_str (e : exn) : string :=
  match e with
  | KeyError key => "'" +:+ key +:+ "'"
  | IndexError => "list index out of range"
  | ZeroDivisionError => "integer modulo by zero"
  | AttributeError msg | TypeError msg | BinderError msg | RuntimeError msg => msg
  | CatalogError table => "Table with name " +:+ table +:+ " does not exist!"
  end.

(** [l[j]] for a non-negative index. *)
Definition getitem {A} (l : list A) (j : nat) : res A :=
  match l !! j with
  | Some x => Ok x
  | None => Raise IndexError
  end.

(** [a % b] on non-negative integers. *)
Definition py_mod (a b : nat) : res nat :=
  match b with
  | O => Raise ZeroDivisionError
  | S _ => Ok (a `mod` b)
  end.

(** ** The pandas fragment *)

Module Pandas.

(** A column with its dtype.  [pd.read_csv] yields number columns
    (int64/float64) and object columns; [pd.to_datetime] yields
    datetime64 columns, kept as nanoseconds since the epoch. *)
Inductive Series :=
| NumCol (values : list (option Qc))
| ObjCol (values : list (option string))
| DateCol (values : list (option Z)).

Record DataFrame := mkDataFrame {
  index : list nat;
  data : list (string * Series)
}.

Definition columns (df : DataFrame) : list string := (data df).*1.

Definition is_number (s : Series) : bool :=
  match s with NumCol _ => true | _ => false end.

Definition is_datetime (s : Series) : bool :=
  match s with DateCol _ => true | _ => false end.

(** [df.select_dtypes(include=['number']).columns.tolist()] *)
Definition select_number (df : DataFrame) : list string :=
  (filter (λ c, is_number c.2 = true) (data df)).*1.

(** [df.select_dtypes(exclude=['number']).columns.tolist()] *)
Definition select_not_number (df : DataFrame) : list string :=
  (filter (λ c, is_number c.2 = false) (data df)).*1.

(** [df.select_dtypes(include=['datetime64[ns]']).columns.tolist()] *)
Definition select_datetime (df : DataFrame) : list string :=
  (filter (λ c, is_datetime c.2 = true) (data df)).*1.

(** [df[col]] *)
Fixpoint lookup_col (col : string) (d : list (string * Series)) : option Series :=
  match d with
  | [] => None
  | (c, s) :: d' => if decide (c = col) then Some s else lookup_col col d'
  end.

Definition get (df : DataFrame) (col : string) : res Series :=
  match lookup_col col (data df) with
  | Some s => Ok s
  | None => Raise (KeyError col)
  end.

(** [df[col] = s]: replaces the column in place, or appends a new one. *)
Fixpoint assign_col (col : string) (s : Series) (d : list (string * Series))
  : list (string * Series) :=
  match d with
  | [] => [(col, s)]
  | (c, s0) :: d' =>
      if decide (c = col) then (c, s) :: d' else (c, s0) :: assign_col col s d'
  end.

Definition set (df : DataFrame) (col : string) (s : Series) : DataFrame :=
  {| index := index df; data := assign_col col s (data df) |}.

(** Boolean-mask selection, [xs[mask]]. *)
Fixpoint select {A} (mask : list bool) (xs : list A) : list A :=
  match mask, xs with
  | b :: mask', x :: xs' => if b then x :: select mask' xs' else select mask' xs'
  | _, _ => []
  end.

Definition select_series (mask : list bool) (s : Series) : Series :=
  match s with
  | NumCol v => NumCol (select mask v)
  | ObjCol v => ObjCol (select mask v)
  | DateCol v => DateCol (select mask v)
  end.

(** [df[mask]]: the rows whose mask entry is [True], with their labels. *)
Definition loc_mask (df : DataFrame) (mask : list bool) : DataFrame :=
  {| index := select mask (index df);
     data := prod_map id (select_series mask) <$> data df |}.

(** [len(df)] *)
Definition len (df : DataFrame) : nat := length (index df).

(** A Python scalar taken out of a column ([NaN] and [NaT] are [SNaN]). *)
Inductive scalar :=
| SNum (q : Qc)
| SStr (s : string)
| STime (t : Z)
| SNaN.

#[global] Instance scalar_eq_dec : EqDecision scalar.
Proof. solve_decision. Defined.

(** [s.tolist()] *)
Definition values (s : Series) : list scalar :=
  match s with
  | NumCol v => from_option SNum SNaN <$> v
  | ObjCol v => from_option SStr SNaN <$> v
  | DateCol v => from_option STime SNaN <$> v
  end.

(** [len(s)] and [s.empty] *)
Definition size (s : Series) : nat := length (values s).
Definition empty (s : Series) : bool := bool_decide (size s = 0%nat).

(** [s.dropna().tolist()] *)
Definition dropna (s : Series) : list scalar :=
  filter (λ x, x ≠ SNaN) (values s).

(** [s.isin(values)]: the boolean mask of the entries found in the list
    ([NaN] is found when the list holds [NaN]). *)
Definition isin (s : Series) (allowed : list scalar) : list bool :=
  (λ x, bool_decide (x ∈ allowed)) <$> values s.

(** Nanoseconds in a day; [s.dt.date] drops the time of day. *)
Definition ns_per_day : Z := 86400 * 1000000000.

Definition dt_date (s : Series) : res (list (option Z)) :=
  match s with
  | DateCol v => Ok (fmap (M:=option) (λ t, t `div` ns_per_day)%Z <$> v)
  | _ => Raise (AttributeError "Can only use .dt accessor with datetimelike values")
  end.

(** [dates >= d] and [dates <= d]: a missing date compares [False]. *)
Definition ge_date (dates : list (option Z)) (d : Z) : list bool :=
  (λ o, from_option (λ x, bool_decide (d ≤ x)%Z) false o) <$> dates.
Definition le_date (dates : list (option Z)) (d : Z) : list bool :=
  (λ o, from_option (λ x, bool_decide (x ≤ d)%Z) false o) <$> dates.

(** [m1 & m2] *)
Definition mask_and (m1 m2 : list bool) : list bool := zip_with andb m1 m2.

(** [pd.to_numeric(s, errors='coerce')].  A number column is returned as
    it is; an object column is parsed entry by entry with pandas' number
    parser, an entry that does not parse becoming NaN; a datetime column
    is viewed as its int64 nanoseconds, NaT being the smallest int64. *)
Definition iNaT : Z := - 2 ^ 63.

Definition to_numeric (parse_number : string → option Qc) (s : Series)
  : list (option Qc) :=
  match s with
  | NumCol v => v
  | ObjCol v => (λ o, o ≫= parse_number) <$> v
  | DateCol v => (λ o, Some (Q2Qc (inject_Z (default iNaT o)))) <$> v
  end.

(** [.fillna(0)] *)
Definition fillna0 (v : list (option Qc)) : list (option Qc) :=
  (λ o, Some (default 0%Qc o)) <$> v.

(** [s * factor] for a float factor. *)
Definition mul_scalar (s : Series) (factor : Qc) : res Series :=
  match s with
  | NumCol v => Ok (NumCol (fmap (M:=option) (λ x, x * factor)%Qc <$> v))
  | ObjCol _ => Raise (TypeError "can't multiply sequence by non-int of type 'float'")
  | DateCol _ => Raise (TypeError "cannot perform __mul__ with this index type: DatetimeArray")
  end.

(** [pd.to_datetime(s, errors='coerce')]: an object column is parsed entry
    by entry with pandas' date parser, an entry that does not parse
    becoming NaT; a datetime column is returned as it is; the numbers of a
    number column are read as nanoseconds since the epoch. *)
Definition to_datetime (parse_datetime : string → option Z) (s : Series) : Series :=
  match s with
  | ObjCol v => DateCol ((λ o, o ≫= parse_datetime) <$> v)
  | DateCol v => DateCol v
  | NumCol v => DateCol (fmap (M:=option) (λ q : Qc, Qfloor q) <$> v)
  end.

(** The order of scalars of one kind (numbers, strings by code point,
    timestamps); a column holds one kind only. *)
Definition scalar_leb (a b : scalar) : bool :=
  match a, b with
  | SNum x, SNum y => bool_decide (x ≤ y)%Qc
  | SStr x, SStr y => String.leb x y
  | STime x, STime y => bool_decide (x ≤ y)%Z
  | SNaN, _ => false
  | _, SNaN => true
  | SNum _, _ => true
  | _, SNum _ => false
  | SStr _, _ => true
  | _, SStr _ => false
  end.

(** [s.min()] and [s.max()] (missing entries skipped; NaN when none is left). *)
Definition least (l : list scalar) : option scalar :=
  foldr (λ x acc, match acc with
                  | None => Some x
                  | Some y => Some (if scalar_leb x y then x else y)
                  end) None l.
Definition greatest (l : list scalar) : option scalar :=
  foldr (λ x acc, match acc with
                  | None => Some x
                  | Some y => Some (if scalar_leb y x then x else y)
                  end) None l.

(** [df.head()] *)
Definition take_series (n : nat) (s : Series) : Series :=
  match s with
  | NumCol v => NumCol (take n v)
  | ObjCol v => ObjCol (take n v)
  | DateCol v => DateCol (take n v)
  end.
Definition head (df : DataFrame) : DataFrame :=
  {| index := take 5 (index df);
     data := prod_map id (take_series 5) <$> data df |}.

(** Insertion sort, stable: equal keys keep their order. *)
Fixpoint insert_sorted {A} (le : A → A → bool) (x : A) (l : list A) : list A :=
  match l with
  | [] => [x]
  | y :: l' => if le x y then x :: y :: l' else y :: insert_sorted le x l'
  end.
Definition sort_by {A} (le : A → A → bool) (l : list A) : list A :=
  foldr (insert_sorted le) [] l.

(** The numbers of a column for a reduction, missing entries skipped. *)
Definition numbers (s : Series) : res (list Qc) :=
  match s with
  | NumCol v => Ok (omap id v)
  | _ => Raise (TypeError "could not convert to numeric")
  end.

Definition Qc_leb (a b : Qc) : bool := bool_decide (a ≤ b)%Qc.

(** [s.mean()], [s.median()], [s.min()], [s.max()]; [None] is NaN. *)
Definition mean (s : Series) : res (option Qc) :=
  v ← numbers s;
  Ok (if bool_decide (v = []) then None
      else Some (foldr Qcplus 0 v / Q2Qc (inject_Z (Z.of_nat (length v))))%Qc).

Definition median (s : Series) : res (option Qc) :=
  v ← numbers s;
  let sorted := sort_by Qc_leb v in
  let n := length sorted in
  Ok (if Nat.odd n then sorted !! (n / 2)%nat
      else match sorted !! (n / 2 - 1)%nat, sorted !! (n / 2)%nat with
           | Some a, Some b => Some ((a + b) / Q2Qc 2)%Qc
           | _, _ => None
           end).

Definition min (s : Series) : res (option Qc) :=
  v ← numbers s;
  Ok (foldr (λ x acc, Some (from_option (λ y, if Qc_leb x y then x else y) x acc)) None v).

Definition max (s : Series) : res (option Qc) :=
  v ← numbers s;
  Ok (foldr (λ x acc, Some (from_option (λ y, if Qc_leb y x then x else y) x acc)) None v).

(** The distinct entries in order of first appearance. *)
Definition unique (l : list scalar) : list scalar := reverse (remove_dups (reverse l)).

Definition count (x : scalar) (l : list scalar) : nat := length (filter (λ y, y = x) l).

(** [s.value_counts()]: the distinct present entries with their counts,
    most frequent first; entries with equal counts stay in order of first
    appearance. *)
Definition value_counts (s : Series) : list (scalar * nat) :=
  let present := dropna s in
  sort_by (λ a b, bool_decide (b.2 ≤ a.2)%nat)
    ((λ x, (x, count x present)) <$> unique present).

(** [counts.nlargest(n)], keeping the first ones among equal counts. *)
Definition nlargest (n : nat) (counts : list (scalar * nat)) : list (scalar * nat) :=
  take n counts.

(** [s.mode()]: the most frequent present entries, sorted. *)
Definition mode (s : Series) : list scalar :=
  let present := dropna s in
  let top := max_list ((λ x, count x present) <$> present) in
  sort_by scalar_leb (filter (λ x, count x present = top) (unique present)).

End Pandas.
Import Pandas(Series(..), DataFrame(..), index, data, scalar(..), scalar_eq_dec,
  is_number, is_datetime, select_number, select_not_number, select_datetime,
  lookup_col, assign_col, get, select_series, loc_mask, dropna, isin,
  ns_per_day, dt_date, ge_date, le_date, mask_and, to_numeric, fillna0,
  mul_scalar, to_datetime, scalar_leb, least, greatest, take_series,
  insert_sorted, sort_by, numbers, Qc_leb, mean, median, value_counts,
  nlargest).

(** ** Streamlit widgets *)

(** [st.selectbox(label, options)]: the option the user picked, the first
    one when nothing (valid) was picked. *)
Definition selectbox {A} (options : list A) (choice : nat) : res A :=
  match options !! choice with
  | Some x => Ok x
  | None => getitem options 0
  end.

(** ** Lines 31-81: column classification, role selection, filters *)

(** What the user entered in the widgets above the tabs. *)
Record Inputs := mkInputs {
  date_choice : nat;
  category_choice : nat;
  sales_choice : nat;
  date1 : Z;
  date2 : Z;
  selected_values : string → list scalar
}.

(** The script's variables once line 81 is reached. *)
Record Loaded := mkLoaded {
  ld_numeric_columns : list string;
  ld_categorical_columns : list string;
  ld_date_columns : list string;
  ld_date_column : option string;
  ld_category_column : option string;
  ld_sales_column : option string;
  ld_filters : list (string * list scalar);
  ld_filtered_df : DataFrame
}.

Section Loading.

(** The parsers behind [pd.to_numeric] and [pd.to_datetime]. *)
Variable parse_number : string → option Qc.
Variable parse_datetime : string → option Z.

(** Lines 40-50.  [pd.to_datetime] with [errors='coerce'] does not raise
    on a column of the frame, so the [except] branch is not entered. *)
Definition select_date_column (df : DataFrame) (categorical date_cols : list string)
    (choice : nat) : res (DataFrame * list string * option string) :=
  date_column_selection ← selectbox (None :: (Some <$> (categorical ++ date_cols))) choice;
  match date_column_selection with
  | Some c =>
      if bool_decide (c ∈ categorical) && bool_decide (c ∉ date_cols) then
        s ← get df c;
        Ok (Pandas.set df c (to_datetime parse_datetime s), date_cols ++ [c], Some c)
      else Ok (df, date_cols, Some c)
  | None => Ok (df, date_cols, None)
  end.

(** Lines 55-56. *)
Definition coerce_sales (sales : option string) (df : DataFrame) : res DataFrame :=
  match sales with
  | Some c =>
      s ← get df c;
      Ok (Pandas.set df c (NumCol (fillna0 (to_numeric parse_number s))))
  | None => Ok df
  end.

(** Lines 59-67. *)
Definition date_range_filter (date : option string) (d1 d2 : Z) (df : DataFrame)
  : res DataFrame :=
  match date with
  | Some c =>
      s1 ← get df c; dates1 ← dt_date s1;
      s2 ← get df c; dates2 ← dt_date s2;
      Ok (loc_mask df (mask_and (ge_date dates1 d1) (le_date dates2 d2)))
  | None => Ok df
  end.

(** Lines 71-76: the [filters] dictionary, as its items in insertion order. *)
Definition sidebar_filters (categorical : list string) (picked : string → list scalar)
  : list (string * list scalar) :=
  filter (λ f, f.2 ≠ []) ((λ col, (col, picked col)) <$> categorical).

(** Lines 79-81: [for col, values in filters.items()]. *)
Fixpoint data_filtering (fs : list (string * list scalar)) (filtered_df : DataFrame)
  : res DataFrame :=
  match fs with
  | [] => Ok filtered_df
  | (col, allowed) :: fs' =>
      s ← get filtered_df col;
      data_filtering fs' (loc_mask filtered_df (isin s allowed))
  end.

(** Lines 31-81 in one piece. *)
Definition load (df : DataFrame) (ui : Inputs) : res Loaded :=
  let numeric := select_number df in
  let categorical := select_not_number df in
  let date_cols := select_datetime df in
  '(df, date_cols, date) ← select_date_column df categorical date_cols (date_choice ui);
  category ← selectbox (None :: (Some <$> categorical)) (category_choice ui);
  sales ← selectbox (None :: (Some <$> numeric)) (sales_choice ui);
  df ← coerce_sales sales df;
  df ← date_range_filter date (date1 ui) (date2 ui) df;
  let fs := sidebar_filters categorical (selected_values ui) in
  filtered_df ← data_filtering fs df;
  Ok (mkLoaded numeric categorical date_cols date category sales fs filtered_df).

End Loading.

(** A filter set (spec §3): an inclusive date range, applied when a date
    column is selected, and the per-column inclusion lists. *)
Record FilterSet := mkFilterSet {
  fs_start : Z;
  fs_end : Z;
  fs_allowed : list (string * list scalar)
}.

Definition apply_filter_set (date : option string) (F : FilterSet) (df : DataFrame)
  : res DataFrame :=
  df' ← date_range_filter date (fs_start F) (fs_end F) df;
  data_filtering (fs_allowed F) df'.

(** The row labels left in a frame, as a set. *)
Definition index_set (df : DataFrame) : gset nat := list_to_set (index df).

(** The value of a computation, if it did not raise. *)
Definition value_of {A} (r : res A) : option A :=
  match r with
  | Ok a => Some a
  | Raise _ => None
  end.

(** The filter engine statement by statement: each statement computes a
    boolean mask on the current frame and keeps the rows it marks. *)
Inductive FilterStep :=
| DateStep (c : string) (d1 d2 : Z)
| IsinStep (c : string) (allowed : list scalar).

Definition step_mask (st : FilterStep) (df : DataFrame) : res (list bool) :=
  match st with
  | DateStep c d1 d2 =>
      s1 ← get df c; dates1 ← dt_date s1;
      s2 ← get df c; dates2 ← dt_date s2;
      Ok (mask_and (ge_date dates1 d1) (le_date dates2 d2))
  | IsinStep c allowed => s ← get df c; Ok (isin s allowed)
  end.

Definition run_step (st : FilterStep) (df : DataFrame) : res DataFrame :=
  m ← step_mask st df; Ok (loc_mask df m).

Fixpoint run_steps (sts : list FilterStep) (df : DataFrame) : res DataFrame :=
  match sts with
  | [] => Ok df
  | st :: sts' => df' ← run_step st df; run_steps sts' df'
  end.

Definition steps_of (date : option string) (F : FilterSet) : list FilterStep :=
  match date with
  | Some c => [DateStep c (fs_start F) (fs_end F)]
  | None => []
  end ++ ((λ f, IsinStep f.1 f.2) <$> fs_allowed F).

(** The row labels one categorical filter keeps when it is applied alone. *)
Definition rows_kept (f : string * list scalar) (df : DataFrame) : gset nat :=
  match data_filtering [f] df with
  | Ok out => index_set out
  | Raise _ => ∅
  end.

(** ** DuckDB: connections and the aggregates of the KPI block *)

(** Python objects live in a heap; a variable and a DuckDB registration
    both hold the address of a frame, not a copy of it. *)
Abbreviation loc := nat (only parsing).
Abbreviation heap_t := (gmap nat DataFrame) (only parsing).
Abbreviation connection := (gmap string nat) (only parsing).

Module DuckDB.

(** [con.register(name, df)] *)
Definition register (con : connection) (name : string) (df : loc) : connection :=
  <[name := df]> con.

(** The relation a table name stands for when a query runs. *)
Definition scan (h : heap_t) (con : connection) (name : string) : res DataFrame :=
  match con !! name with
  | Some l =>
      match h !! l with
      | Some df => Ok df
      | None => Raise (CatalogError name)
      end
  | None => Raise (CatalogError name)
  end.

Definition column (t : DataFrame) (col : string) : res Series :=
  match lookup_col col (data t) with
  | Some s => Ok s
  | None => Raise (BinderError ("Referenced column " +:+ col +:+ " not found"))
  end.

(** [SELECT SUM("col") FROM t]: NULL (here [None]) when no row has a
    value; NaN entries of a frame are scanned as NULL and skipped. *)
Definition sum (t : DataFrame) (col : string) : res (option Qc) :=
  s ← column t col;
  match s with
  | NumCol v =>
      let present := omap id v in
      Ok (if bool_decide (present = []) then None
          else Some (foldr Qcplus 0%Qc present))
  | _ => Raise (BinderError "No function matches the given name and argument types 'sum'")
  end.

(** [SELECT COUNT( * ) FROM t] *)
Definition count_star (t : DataFrame) : nat := length (index t).

(** [SELECT COUNT(DISTINCT "col") FROM t] *)
Definition count_distinct (t : DataFrame) (col : string) : res nat :=
  s ← column t col;
  Ok (length (remove_dups (dropna s))).

(** [SELECT MIN("col"), MAX("col") FROM t] *)
Definition min_max (t : DataFrame) (col : string) : res (option scalar * option scalar) :=
  s ← column t col;
  Ok (least (dropna s), greatest (dropna s)).

End DuckDB.

(** ** Lines 87-96 and 394-404: the KPI block *)

(** The [kpi_data] dictionary: a key is present or not; the keys are
    inserted in this order. *)
Record KpiData := mkKpiData {
  total_sales : option Qc;
  total_transactions : nat;
  unique_categories : option nat;
  date_range : option (option scalar * option scalar)
}.

(** [x or 0] on a fetched number. *)
Definition or_zero (x : option Qc) : Qc := default 0%Qc x.

(** The four queries, as they are written at lines 90-96 against
    [(con, 'sales_data')] and again at lines 398-404 against
    [(temp_con, 'modified_data')]. *)
Definition kpi_queries (h : heap_t) (con : connection) (table : string)
    (sales category date : option string) : res KpiData :=
  ts ← match sales with
       | Some c => t ← DuckDB.scan h con table; x ← DuckDB.sum t c; Ok (Some (or_zero x))
       | None => Ok None
       end;
  tt ← (t ← DuckDB.scan h con table; Ok (DuckDB.count_star t));
  uc ← match category with
       | Some c => t ← DuckDB.scan h con table; n ← DuckDB.count_distinct t c; Ok (Some n)
       | None => Ok None
       end;
  dr ← match date with
       | Some c => t ← DuckDB.scan h con table; r ← DuckDB.min_max t c; Ok (Some r)
       | None => Ok None
       end;
  Ok (mkKpiData ts tt uc dr).

(** The entries of a number column of a frame (none for another column). *)
Definition measure_entries (df : DataFrame) (c : string) : list (option Qc) :=
  match lookup_col c (data df) with
  | Some (NumCol v) => v
  | _ => []
  end.

(** A role selection fits a view when the sales column is one of its
    number columns and the other selected columns exist. *)
Definition names_number (df : DataFrame) (role : option string) : bool :=
  match role with
  | Some c => match lookup_col c (data df) with Some (NumCol _) => true | _ => false end
  | None => true
  end.
Definition names_column (df : DataFrame) (role : option string) : bool :=
  match role with
  | Some c => bool_decide (is_Some (lookup_col c (data df)))
  | None => true
  end.

(** The category column is picked among the columns that are not numbers. *)
Definition names_category (df : DataFrame) (role : option string) : bool :=
  match role with
  | Some c => match lookup_col c (data df) with
              | Some s => negb (is_number s)
              | None => false
              end
  | None => true
  end.

(** A property of columns that row selection keeps. *)
Definition mask_stable (P : Series → Prop) : Prop :=
  ∀ m s, P s → P (select_series m s).

(** A number column without missing entries. *)
Definition all_present (s : Series) : Prop :=
  match s with
  | NumCol v => Forall is_Some v
  | _ => False
  end.

(** A view without rows. *)
Definition no_rows (df : DataFrame) : bool :=
  bool_decide (index df = []) && forallb (λ c, Pandas.empty c.2) (data df).

(** ** The state of a script run *)

(** [st.session_state]: each key is absent ([None]) or holds a value. *)
Record Session := mkSession {
  story_step : option nat;
  trivia_score : option nat;
  current_question : option (option string);
  correct_answer : option (option scalar);
  options : option (list scalar);
  question_asked : option bool
}.

Definition empty_session : Session := mkSession None None None None None None.

(** The figures the script asks plotly express for, with their arguments.
    [px_bar_grouped_mean] is [px.bar] on
    [df.groupby(x)[y].mean().reset_index()], and [px_line_sorted] is
    [px.line] on [df.sort_values(by=x)]. *)
Inductive Figure :=
| px_scatter (x y : string) (color : option string) (title : string)
| px_pie (names : string) (title : string)
| px_bar_grouped_mean (x y : string) (title : string) (color : option string)
| px_histogram (x : string) (title : string)
| px_box (x y : string) (title : string) (color : string)
| px_line_sorted (x y : string) (title : string).

(** What a KPI card shows: [f"${value:,.2f}"], a count, a date range or "N/A". *)
Inductive Metric :=
| Dollars (value : Qc)
| Count (value : nat)
| Range (first last : scalar)
| NotAvailable.

(** The Streamlit elements the modelled tabs write. *)
Inductive Widget :=
| Subheader (text : string)
| Dataframe (df : DataFrame)
| MetricCard (col : nat) (label : string) (value : Metric)
| PlotlyChart (fig : Figure)
| StError (msg : string)
| StWarning (msg : string)
| StInfo (msg : string)
| StSuccess (msg : string).

(** The variables that outlive the what-if handler, the heap they point
    into, and the page written so far. *)
Record World := mkWorld {
  heap : heap_t;
  filtered_df : loc;
  con : connection;
  kpi_data : KpiData;
  session_state : Session;
  page : list Widget
}.

Definition with_heap (h : heap_t) (w : World) : World :=
  mkWorld h (filtered_df w) (con w) (kpi_data w) (session_state w) (page w).
Definition with_page (p : list Widget) (w : World) : World :=
  mkWorld (heap w) (filtered_df w) (con w) (kpi_data w) (session_state w) p.

(** Statements that read and write the world and may raise. *)
Definition M (A : Type) : Type := World → res A * World.

#[export] Instance M_ret : MRet M := λ _ a w, (Ok a, w).
#[export] Instance M_bind : MBind M := λ _ _ f m w,
  match m w with
  | (Ok a, w') => f a w'
  | (Raise e, w') => (Raise e, w')
  end.

Definition act {A} (f : World → res A * World) : M A := f.

Definition lift {A} (r : res A) : M A := λ w, (r, w).

Definition try_except {A} (body : M A) (handler : exn → M A) : M A := λ w,
  match body w with
  | (Ok a, w') => (Ok a, w')
  | (Raise e, w') => handler e w'
  end.

Definition st_write (x : Widget) : M unit := λ w, (Ok (), with_page (page w ++ [x]) w).

Definition deref (l : loc) : M DataFrame := λ w,
  match heap w !! l with
  | Some df => (Ok df, w)
  | None => (Raise (RuntimeError "dangling reference"), w)
  end.

(** [df.copy()]: a new object with the same contents. *)
Definition df_copy (l : loc) : M loc :=
  df ← deref l;
  act (λ w, let l' := fresh (dom (heap w)) in
            (Ok l', with_heap (<[l' := df]> (heap w)) w)).

(** [df[col]] *)
Definition df_getitem (l : loc) (col : string) : M Series :=
  df ← deref l; lift (get df col).

(** [df[col] = s]: the object at [l] is updated in place. *)
Definition df_setitem (l : loc) (col : string) (s : Series) : M unit :=
  df ← deref l;
  act (λ w, (Ok (), with_heap (<[l := Pandas.set df col s]> (heap w)) w)).

(** Lines 83-96: connect, register the filtered frame, fill [kpi_data]. *)
Definition run_kpis (h : heap_t) (fdf : loc) (sales category date : option string)
    (session : Session) : res World :=
  let con := DuckDB.register ∅ "sales_data" fdf in
  kpis ← kpi_queries h con "sales_data" sales category date;
  Ok (mkWorld h fdf con kpis session []).

(** The frame of a handler: the variables that outlive it are unchanged,
    and so is every object that existed before it ran. *)
Definition same_roots (w w' : World) : Prop :=
  filtered_df w' = filtered_df w ∧ con w' = con w
  ∧ kpi_data w' = kpi_data w ∧ session_state w' = session_state w.

Definition old_objects_kept (w w' : World) : Prop :=
  ∀ l, l ∈ dom (heap w) → heap w' !! l = heap w !! l.

(** An object is reachable when a variable or a registration holds its
    address. *)
Definition reachable (w : World) (l : nat) : Prop :=
  filtered_df w = l ∨ ∃ name, con w !! name = Some l.

(** ** Tab 6: what-if analysis (lines 368-422) *)

(** [len(kpi_data)] and [list(updated_kpi_data.items())] *)
Definition kpi_items (k : KpiData) : list (string * Metric) :=
  from_option (λ v, [("total_sales", Dollars v)]) [] (total_sales k)
  ++ [("total_transactions", Count (total_transactions k))]
  ++ from_option (λ n, [("unique_categories", Count n)]) [] (unique_categories k)
  ++ from_option (λ r, [("date_range",
                         match r with
                         | (Some a, Some b) => Range a b
                         | _ => NotAvailable
                         end)]) [] (date_range k).

Definition whatif_label (key : string) : string :=
  if decide (key = "total_sales") then "Total Sales (What-If)"
  else if decide (key = "total_transactions") then "Total Transactions (What-If)"
  else if decide (key = "unique_categories") then "Unique Categories (What-If)"
  else "Date Range (What-If)".

(** Lines 406-418. *)
Fixpoint show_metrics (n_cols : nat) (i : nat) (items : list (string * Metric)) : M unit :=
  match items with
  | [] => mret ()
  | (key, value) :: rest =>
      c ← lift (py_mod i n_cols);
      st_write (MetricCard c (whatif_label key) value);;
      show_metrics n_cols (S i) rest
  end.

Section WhatIf.

Variables sales_column category_column date_column : option string.

(** The body of the [try:] block, lines 381-419.  Its value is the
    [updated_kpi_data] dictionary. *)
Definition what_if_try (selected_whatif_column : string) (percentage_change : Qc)
  : M KpiData :=
  fdf ← act (λ w, (Ok (filtered_df w), w));
  modified_whatif_df ← df_copy fdf;
  let change_factor := (1 + percentage_change / Q2Qc 100)%Qc in
  col ← df_getitem modified_whatif_df selected_whatif_column;
  scaled ← lift (mul_scalar col change_factor);
  df_setitem modified_whatif_df selected_whatif_column scaled;;
  st_write (Subheader "Original Data (Sample):");;
  original ← deref fdf;
  st_write (Dataframe (Pandas.head original));;
  st_write (Subheader "Modified Data (Sample):");;
  modified ← deref modified_whatif_df;
  st_write (Dataframe (Pandas.head modified));;
  st_write (Subheader "Updated KPIs:");;
  n_cols ← act (λ w, (Ok (length (kpi_items (kpi_data w))), w));
  let temp_con := DuckDB.register ∅ "modified_data" modified_whatif_df in
  updated_kpi_data ←
    act (λ w, (kpi_queries (heap w) temp_con "modified_data"
                 sales_column category_column date_column, w));
  show_metrics n_cols 0 (kpi_items updated_kpi_data);;
  mret updated_kpi_data.

(** The tab: the guard on [numeric_columns], the select box, the number
    input, the button and the [try/except].  The test
    [if selected_whatif_column:] holds, a column name being non-empty. *)
Definition what_if_tab (numeric_columns : list string) (choice : nat)
    (percentage_change : Qc) (apply_clicked : bool) : M (option KpiData) :=
  if bool_decide (numeric_columns = []) then
    st_write (StWarning "No numerical columns available for What-If analysis.");;
    mret None
  else
    selected_whatif_column ← lift (selectbox numeric_columns choice);
    if apply_clicked then
      try_except
        (updated ← what_if_try selected_whatif_column percentage_change;
         mret (Some updated))
        (λ e, st_write (StError ("An error occurred during What-If analysis: " +:+ exn_str e));;
              mret None)
    else mret None.

End WhatIf.

(** ** Tab 5: the storyteller (lines 305-365) *)

(** A step dictionary holds its arguments under ["column"] or ["columns"]. *)
Inductive StepArgs :=
| Column (c : string)
| Columns (c1 c2 : string).

Record StoryStep := mkStoryStep {
  question : string;
  visualization_function : list string → res Figure;
  step_args : StepArgs
}.

Definition arity_error : exn :=
  TypeError "<lambda>() takes a different number of positional arguments".

(** The four lambdas of lines 316, 322, 328 and 334. *)
Definition histogram_step (args : list string) : res Figure :=
  match args with
  | [col] => Ok (px_histogram col ("Distribution of " +:+ col))
  | _ => Raise arity_error
  end.
Definition bar_step (args : list string) : res Figure :=
  match args with
  | [cat_col; sales_col] =>
      Ok (px_bar_grouped_mean cat_col sales_col
            ("Average " +:+ sales_col +:+ " by " +:+ cat_col) None)
  | _ => Raise arity_error
  end.
Definition line_step (args : list string) : res Figure :=
  match args with
  | [date_col; sales_col] =>
      Ok (px_line_sorted date_col sales_col (sales_col +:+ " Over Time"))
  | _ => Raise arity_error
  end.
Definition pie_step (args : list string) : res Figure :=
  match args with
  | [col] => Ok (px_pie col ("Distribution of " +:+ col))
  | _ => Raise arity_error
  end.

(** Lines 312-336. *)
Definition story_steps (sales_column category_column date_column : option string)
  : list StoryStep :=
  match sales_column with
  | Some s =>
      [mkStoryStep ("What is the distribution of " +:+ s +:+ "?") histogram_step (Column s)]
  | None => []
  end
  ++ match category_column, sales_column with
     | Some c, Some s =>
         [mkStoryStep ("What is the average " +:+ s +:+ " by " +:+ c +:+ "?")
            bar_step (Columns c s)]
     | _, _ => []
     end
  ++ match date_column, sales_column with
     | Some d, Some s =>
         [mkStoryStep ("How has " +:+ s +:+ " trended over time?") line_step (Columns d s)]
     | _, _ => []
     end
  ++ match category_column with
     | Some c =>
         [mkStoryStep ("What is the distribution of " +:+ c +:+ "?") pie_step (Column c)]
     | None => []
     end.

Definition with_session (s : Session) (w : World) : World :=
  mkWorld (heap w) (filtered_df w) (con w) (kpi_data w) s (page w).

Definition set_story_step (n : nat) (s : Session) : Session :=
  mkSession (Some n) (trivia_score s) (current_question s) (correct_answer s)
    (options s) (question_asked s).

(** [st.button(label)] is true in the run that a click on that button
    started. *)
Definition button (clicked : option string) (label : string) : bool :=
  bool_decide (clicked = Some label).

Section Storyteller.

Variable materialize : Figure → DataFrame → option string.
Variables sales_column category_column date_column : option string.

(** Lines 348-356: build the figure and plot it, reporting any exception. *)
Definition show_step (step_data : StoryStep) : M unit :=
  try_except
    (df ← act (λ w, deref (filtered_df w) w);
     fig ← lift (visualization_function step_data
                   match step_args step_data with
                   | Column c => [c]
                   | Columns c1 c2 => [c1; c2]
                   end);
     match materialize fig df with
     | None => st_write (PlotlyChart fig)
     | Some e => lift (Raise (RuntimeError e))
     end)
    (λ e, st_write (StError ("Error generating visualization: " +:+ exn_str e))).

(** One run of the tab; the result tells whether [st.rerun()] was called. *)
Definition storyteller (clicked : option string) : M bool :=
  act (λ w, (Ok (),
             match story_step (session_state w) with
             | None => with_session (set_story_step 0 (session_state w)) w
             | Some _ => w
             end));;
  let steps := story_steps sales_column category_column date_column in
  if bool_decide (steps = []) then
    st_write (StInfo "No suitable columns selected for the data story.");;
    mret false
  else
    current_step ← act (λ w, (Ok (default 0%nat (story_step (session_state w))), w));
    if bool_decide (current_step < length steps)%nat then
      step_data ← lift (getitem steps current_step);
      st_write (Subheader ("Step " +:+ pretty (current_step + 1)%nat +:+ ": "
                           +:+ question step_data));;
      show_step step_data;;
      if button clicked "Next" then
        act (λ w, (Ok (),
                   with_session (set_story_step (current_step + 1) (session_state w)) w));;
        mret true
      else mret false
    else
      st_write (StSuccess "End of the data story!");;
      if button clicked "Restart Story" then
        act (λ w, (Ok (), with_session (set_story_step 0 (session_state w)) w));;
        mret true
      else mret false.

(** A click starts a run of the script on a new page; the rerun it may
    ask for starts another new page and sees no button pressed. *)
Definition story_interaction (clicked : option string) : M bool :=
  act (λ w, (Ok (), with_page [] w));;
  rerun ← storyteller clicked;
  if (rerun : bool) then
    act (λ w, (Ok (), with_page [] w));;
    storyteller None
  else mret false.

End Storyteller.

(** The cursor kept in the session, 0 when the key is still absent. *)
Definition cursor (w : World) : nat := default 0%nat (story_step (session_state w)).

(** The world after a click in the storyteller tab (and the rerun it
    triggers), and after a sequence of clicks. *)
Definition after_click (materialize : Figure → DataFrame → option string)
    (sales_column category_column date_column : option string)
    (clicked : option string) (w : World) : World :=
  (story_interaction materialize sales_column category_column date_column clicked w).2.

Definition after_clicks (materialize : Figure → DataFrame → option string)
    (sales_column category_column date_column : option string)
    (clicks : list (option string)) (w : World) : World :=
  foldl (λ w clicked,
           after_click materialize sales_column category_column date_column clicked w)
    w clicks.

(** The cursor one run of the tab leaves, from the cursor it found, for a
    story of [n] steps. *)
Definition next_cursor (clicked : option string) (cur n : nat) : nat :=
  if bool_decide (n = 0%nat) then cur
  else if bool_decide (cur < n)%nat
       then (if button clicked "Next" then cur + 1 else cur)%nat
       else (if button clicked "Restart Story" then 0 else cur)%nat.

(** ** Python's [random] module *)

Module Random.

(** The generator state: the raw draws still to come (0 once exhausted). *)
Definition randbelow (n : nat) (g : list nat) : nat * list nat :=
  match g with
  | [] => (0%nat, [])
  | r :: g' => ((r `mod` n)%nat, g')
  end.

(** [random.choice(seq)] *)
Definition choice {A} (seq : list A) (g : list nat) : res (A * list nat) :=
  if bool_decide (length seq = 0%nat) then Raise IndexError
  else
    let '(j, g') := randbelow (length seq) g in
    x ← getitem seq j;
    Ok (x, g').

(** [x[i], x[j] = x[j], x[i]] *)
Definition swap {A} (i j : nat) (x : list A) : list A :=
  match x !! i, x !! j with
  | Some a, Some b => <[j := a]> (<[i := b]> x)
  | _, _ => x
  end.

(** [random.shuffle(x)]:
    [for i in reversed(range(1, len(x))): j = randbelow(i + 1); swap]. *)
Fixpoint shuffle_from {A} (i : nat) (x : list A) (g : list nat) : list A * list nat :=
  match i with
  | O => (x, g)
  | S i' =>
      let '(j, g') := randbelow (i + 1) g in
      shuffle_from i' (swap i j x) g'
  end.

Definition shuffle {A} (x : list A) (g : list nat) : list A * list nat :=
  shuffle_from (length x - 1) x g.

End Random.

(** ** Tab 7: the trivia question generator (lines 440-463) *)

(** [f"{x:.2f}"]: two decimals, ties rounded to even, ["nan"] for NaN. *)
Definition two_digits (k : Z) : string :=
  if bool_decide (k < 10)%Z then "0" +:+ pretty k else pretty k.

Definition format_2f (x : option Qc) : string :=
  match x with
  | None => "nan"
  | Some q =>
      let n := Qnum (this q) in
      let d := Z.pos (Qden (this q)) in
      let a := (Z.abs n * 100)%Z in
      let fl := (a `div` d)%Z in
      let r2 := (2 * (a `mod` d))%Z in
      let h := if bool_decide (r2 < d)%Z then fl
               else if bool_decide (d < r2)%Z then (fl + 1)%Z
               else if Z.even fl then fl else (fl + 1)%Z in
      (if bool_decide (n < 0)%Z then "-" else "")
      +:+ pretty (h `div` 100)%Z +:+ "." +:+ two_digits (h `mod` 100)%Z
  end.

(** [l[-1] = x] *)
Definition set_last {A} (l : list A) (x : A) : res (list A) :=
  match l with
  | [] => Raise IndexError
  | _ => Ok (<[(length l - 1)%nat := x]> l)
  end.

(** [s.mode()[0]] *)
Definition mode_0 (s : Series) : res scalar :=
  match Pandas.mode s with
  | x :: _ => Ok x
  | [] => Raise (KeyError "0")
  end.

Definition not_applicable : scalar := SStr "N/A".

(** [generate_trivia_question(df, num_cols, cat_cols)], with the state of
    the random generator passed in and out.  The value is [None] for the
    triple [(None, None, None)]. *)
Definition generate_trivia_question (df : DataFrame) (num_cols cat_cols : list string)
    (g : list nat) : res (option (string * scalar * list scalar) * list nat) :=
  if bool_decide (num_cols = []) && bool_decide (cat_cols = []) then Ok (None, g)
  else
    '(question_type, g) ← Random.choice ["average"; "value_counts"] g;
    if bool_decide (question_type = "average") && bool_decide (num_cols ≠ []) then
      '(col, g) ← Random.choice num_cols g;
      s ← get df col;
      correct_answer ← mean s;
      let question := "What is the average value of '" +:+ col +:+ "'?" in
      s1 ← get df col; med ← median s1;
      s2 ← get df col; lo ← Pandas.min s2;
      s3 ← get df col; hi ← Pandas.max s3;
      let options := [format_2f correct_answer; format_2f med; format_2f lo; format_2f hi] in
      let '(options, g) := Random.shuffle options g in
      Ok (Some (question, SStr (format_2f correct_answer), SStr <$> options), g)
    else if bool_decide (question_type = "value_counts") && bool_decide (cat_cols ≠ []) then
      '(col, g) ← Random.choice cat_cols g;
      s ← get df col;
      top_value ← (if negb (Pandas.empty s) then mode_0 s else Ok not_applicable);
      let question := "Which category appears most frequently in '" +:+ col +:+ "'?" in
      s1 ← get df col;
      let value_counts := (nlargest 4 (value_counts s1)).*1 in
      value_counts ←
        (if bool_decide (top_value ≠ not_applicable) && bool_decide (top_value ∉ value_counts)
         then set_last value_counts top_value
         else Ok value_counts);
      let '(value_counts, g) := Random.shuffle value_counts g in
      Ok (Some (question, top_value, value_counts), g)
    else Ok (None, g).

(** ** Tab 3: the dynamic report (lines 131-218) *)

Record ChartSlot := mkChartSlot {
  slot_index : nat;
  slot_col : nat;
  slot_chart_type : option string;
  slot_out : Widget
}.

Definition no_suitable : string :=
  "No suitable data found to generate a dynamic chart.".

Section DynamicReport.

(** The body of each [try:] block (building the figure and
    [st.plotly_chart]) is plotly's and Streamlit's; it either completes
    ([None]) or raises an [Exception] whose [str] is the given text. *)
Variable materialize : Figure → DataFrame → option string.

Variables numeric_columns categorical_columns : list string.
Variables date_column sales_column : option string.
Variable filtered_df : DataFrame.

(** A [try: ... plot_counter += 1; continue / except: st.warning(...)]
    block.  The boolean tells whether the plot counter was advanced. *)
Definition try_plot (chart_type : string) (fig : Figure) (args : string)
  : Widget * bool :=
  match materialize fig filtered_df with
  | None => (PlotlyChart fig, true)
  | Some e =>
      (StWarning ("Could not create " +:+ chart_type +:+ " (" +:+ args +:+ "): " +:+ e),
       false)
  end.

Definition finish (i plot_counter : nat) (chart_type : string) (r : Widget * bool)
  : ChartSlot * nat :=
  (mkChartSlot i (plot_counter `mod` 3) (Some chart_type) r.1,
   if r.2 then S plot_counter else plot_counter).

(** One iteration of the [for i in range(...)] loop (lines 138-218). *)
Definition report_slot (i plot_counter : nat) : res (ChartSlot * nat) :=
  let n := length numeric_columns in
  let k := length categorical_columns in
  if bool_decide (2 ≤ n)%nat && bool_decide (i `mod` 7 = 0) then
    xi ← py_mod i n; x_col ← getitem numeric_columns xi;
    yi ← py_mod (i + 1) n; y_col ← getitem numeric_columns yi;
    let chart_type := "Scatter Plot" in
    Ok (finish i plot_counter chart_type
          (try_plot chart_type
             (px_scatter x_col y_col None (y_col +:+ " vs " +:+ x_col))
             (x_col +:+ ", " +:+ y_col)))
  else if bool_decide (categorical_columns ≠ []) && bool_decide (i `mod` 7 = 1) then
    ci ← py_mod i k; cat_col ← getitem categorical_columns ci;
    let chart_type := "Pie Chart" in
    Ok (finish i plot_counter chart_type
          (try_plot chart_type
             (px_pie cat_col ("Distribution of " +:+ cat_col))
             cat_col))
  else if bool_decide (categorical_columns ≠ []) && bool_decide (is_Some sales_column)
          && bool_decide (i `mod` 7 = 2) then
    ci ← py_mod i k; cat_col ← getitem categorical_columns ci;
    let chart_type := "Bar Chart (Mean Sales)" in
    Ok (finish i plot_counter chart_type
          (try_plot chart_type
             (px_bar_grouped_mean cat_col (default "" sales_column)
                ("Avg Sales by " +:+ cat_col) (Some cat_col))
             cat_col))
  else if bool_decide (numeric_columns ≠ []) && bool_decide (i `mod` 7 = 3) then
    ni ← py_mod i n; num_col ← getitem numeric_columns ni;
    let chart_type := "Histogram" in
    Ok (finish i plot_counter chart_type
          (try_plot chart_type
             (px_histogram num_col ("Distribution of " +:+ num_col))
             num_col))
  else if bool_decide (categorical_columns ≠ []) && bool_decide (numeric_columns ≠ [])
          && bool_decide (i `mod` 7 = 4) then
    ci ← py_mod i k; cat_col ← getitem categorical_columns ci;
    ni ← py_mod i n; num_col ← getitem numeric_columns ni;
    let chart_type := "Box Plot" in
    Ok (finish i plot_counter chart_type
          (try_plot chart_type
             (px_box cat_col num_col
                (num_col +:+ " distribution by " +:+ cat_col) cat_col)
             (cat_col +:+ ", " +:+ num_col)))
  else if bool_decide (is_Some date_column) && bool_decide (is_Some sales_column)
          && bool_decide (i `mod` 7 = 5) then
    let d := default "" date_column in
    let s := default "" sales_column in
    let chart_type := "Time Series (Sales)" in
    Ok (finish i plot_counter chart_type
          (try_plot chart_type
             (px_line_sorted d s "Sales Over Time")
             (d +:+ ", " +:+ s)))
  else if bool_decide (2 ≤ n)%nat && bool_decide (categorical_columns ≠ [])
          && bool_decide (i `mod` 7 = 6) then
    xi ← py_mod i n; x_col ← getitem numeric_columns xi;
    yi ← py_mod (i + 1) n; y_col ← getitem numeric_columns yi;
    ci ← py_mod i k; color_col ← getitem categorical_columns ci;
    let chart_type := "Scatter Plot (with Category)" in
    Ok (finish i plot_counter chart_type
          (try_plot chart_type
             (px_scatter x_col y_col (Some color_col)
                (y_col +:+ " vs " +:+ x_col +:+ " by " +:+ color_col))
             (x_col +:+ ", " +:+ y_col +:+ ", " +:+ color_col)))
  else
    (* chart_type is None *)
    Ok (mkChartSlot i (plot_counter `mod` 3) None (StInfo no_suitable), plot_counter).

(** The loop, threading [plot_counter]. *)
Fixpoint report_loop (slots : list nat) (plot_counter : nat) : res (list ChartSlot) :=
  match slots with
  | [] => Ok []
  | i :: rest =>
      sp ← report_slot i plot_counter;
      ss ← report_loop rest sp.2;
      Ok (sp.1 :: ss)
  end.

(** [for i in range(min(9, len(numeric_columns) + len(categorical_columns)))] *)
Definition slot_range : list nat :=
  seq 0 (9 `min` (length numeric_columns + length categorical_columns)).

Definition dynamic_report : res (list ChartSlot) := report_loop slot_range 0.

End DynamicReport.

(** ** Sample data

    A small sales table, as [pd.read_csv] would load it: five rows
    labelled 0..4, two object columns and two number columns, the second
    with a missing entry. *)
Definition qz (z : Z) : Qc := Q2Qc (inject_Z z).

Definition sample_sales : DataFrame :=
  {| index := [0; 1; 2; 3; 4]%nat;
     data := [("Region", Pandas.ObjCol [Some "East"; Some "West"; Some "East";
                                        Some "West"; Some "East"]);
              ("Channel", Pandas.ObjCol [Some "Web"; Some "Store"; Some "Store";
                                         Some "Web"; Some "Web"]);
              ("Revenue", Pandas.NumCol [Some (qz 10); Some (qz 20); Some (qz 30);
                                         Some (qz 40); Some (qz 50)]);
              ("Units", Pandas.NumCol [Some (qz 1); None; Some (qz 3);
                                       Some (qz 4); Some (qz 5)])] |}.

(** The same table with its two number columns only. *)
Definition sample_numbers : DataFrame :=
  {| index := [0; 1; 2; 3; 4]%nat;
     data := [("Revenue", Pandas.NumCol [Some (qz 10); Some (qz 20); Some (qz 30);
                                         Some (qz 40); Some (qz 50)]);
              ("Units", Pandas.NumCol [Some (qz 1); None; Some (qz 3);
                                       Some (qz 4); Some (qz 5)])] |}.

(** A column in which five values occur once each: the smallest, "a",
    comes last and is not among the first four of [value_counts]. *)
Definition sample_letters : DataFrame :=
  {| index := [0; 1; 2; 3; 4]%nat;
     data := [("Letter", Pandas.ObjCol [Some "e"; Some "d"; Some "c"; Some "b"; Some "a"])] |}.

(** The script state after the KPI block on the sample table, with
    Revenue as sales column and Region as category column. *)
Definition sample_heap : gmap nat DataFrame := {[ 0%nat := sample_sales ]}.

Definition sample_con : gmap string nat := DuckDB.register ∅ "sales_data" 0%nat.

Definition sample_world : World :=
  mkWorld sample_heap 0 sample_con
    (mkKpiData (Some (qz 150)) 5 (Some 2%nat) None) empty_session [].

(** The rule table as the specification words it (§4.4): the rule of slot
    [i] is [i mod 7], and each rule has a precondition on the classified
    columns and the selected roles. *)
Module Spec.
Section ChartRules.
Variables numeric categorical : list string.
Variables dateColumn measureColumn : option string.

Definition precondition (rule : nat) : bool :=
  match rule with
  | 0 => bool_decide (2 ≤ length numeric)%nat
  | 1 => bool_decide (1 ≤ length categorical)%nat
  | 2 => bool_decide (1 ≤ length categorical)%nat && bool_decide (is_Some measureColumn)
  | 3 => bool_decide (1 ≤ length numeric)%nat
  | 4 => bool_decide (1 ≤ length categorical)%nat && bool_decide (1 ≤ length numeric)%nat
  | 5 => bool_decide (is_Some dateColumn) && bool_decide (is_Some measureColumn)
  | 6 => bool_decide (2 ≤ length numeric)%nat && bool_decide (1 ≤ length categorical)%nat
  | _ => false
  end.

Definition slots : list nat :=
  seq 0 (9 `min` (length numeric + length categorical)).

Definition skipped_slots : list nat :=
  filter (λ i, precondition (i `mod` 7) = false) slots.
End ChartRules.
(** The measure total as the specification words it (§4.3): the sum of
    the measure column over all rows, a missing entry counting as 0. *)
Definition total_measure (column : list (option Qc)) : Qc :=
  foldr Qcplus 0%Qc (default 0%Qc <$> column).

End Spec.

(** The notices of a report: the slots that show the "no suitable data" text. *)
Definition is_notice (s : ChartSlot) : bool :=
  match slot_out s with
  | StInfo msg => bool_decide (msg = no_suitable)
  | _ => false
  end.

Definition notices (slots : list ChartSlot) : list ChartSlot :=
  filter (λ s, is_notice s = true) slots.

(** What the loop leaves in slot [i], whatever the plot counter was: the
    notice when the rule of the slot has no satisfied precondition, and
    otherwise the outcome of one [try] block whose figure depends on the
    columns only. *)
Definition slot_holds (m : Figure → DataFrame → option string)
    (numeric_columns categorical_columns : list string)
    (date_column sales_column : option string) (filtered_df : DataFrame)
    (i : nat) (s : ChartSlot) : Prop :=
  slot_index s = i ∧
  ((Spec.precondition numeric_columns categorical_columns date_column sales_column
      (i `mod` 7) = false
    ∧ slot_chart_type s = None ∧ slot_out s = StInfo no_suitable)
   ∨ (Spec.precondition numeric_columns categorical_columns date_column sales_column
        (i `mod` 7) = true
      ∧ ∃ chart_type fig args,
          slot_chart_type s = Some chart_type
          ∧ slot_out s = (try_plot m filtered_df chart_type fig args).1
          ∧ ∀ m' plot_counter,
              report_slot m' numeric_columns categorical_columns date_column
                sales_column filtered_df i plot_counter
              = Ok (finish i plot_counter chart_type
                      (try_plot m' filtered_df chart_type fig args)))).

(** ** Further notions used in the properties *)

(** The test of lines 64-66 on one entry of the date column: the day of
    the timestamp lies in the picked range; a missing date fails it. *)
Definition in_date_range (d1 d2 : Z) (o : option Z) : bool :=
  match o with
  | Some t => bool_decide (d1 ≤ t `div` ns_per_day)%Z && bool_decide (t `div` ns_per_day ≤ d2)%Z
  | None => false
  end.

(** A slot that shows a chart. *)
Definition is_plot (s : ChartSlot) : bool :=
  match slot_out s with
  | PlotlyChart _ => true
  | _ => false
  end.

(** The [chart_type] string that the branch for [i % 7 == rule] sets
    (lines 145, 155, 165, 176, 187, 196 and 209). *)
Definition rule_chart_type (rule : nat) : string :=
  match rule with
  | 0 => "Scatter Plot"
  | 1 => "Pie Chart"
  | 2 => "Bar Chart (Mean Sales)"
  | 3 => "Histogram"
  | 4 => "Box Plot"
  | 5 => "Time Series (Sales)"
  | _ => "Scatter Plot (with Category)"
  end.

(** A figure draws on the classified columns and the selected roles only:
    each argument is taken from the list its chart needs. *)
Definition figure_fits (numeric_columns categorical_columns : list string)
    (date_column sales_column : option string) (fig : Figure) : Prop :=
  match fig with
  | px_scatter x y color _ =>
      x ∈ numeric_columns ∧ y ∈ numeric_columns
      ∧ (NoDup numeric_columns → x ≠ y)
      ∧ from_option (λ c, c ∈ categorical_columns) True color
  | px_pie names _ => names ∈ categorical_columns
  | px_bar_grouped_mean x y _ color =>
      x ∈ categorical_columns ∧ sales_column = Some y ∧ color = Some x
  | px_histogram x _ => x ∈ numeric_columns
  | px_box x y _ color =>
      x ∈ categorical_columns ∧ y ∈ numeric_columns ∧ color = x
  | px_line_sorted x y _ => date_column = Some x ∧ sales_column = Some y
  end.

(** The columns a figure reads from the frame. *)
Definition figure_columns (fig : Figure) : list string :=
  match fig with
  | px_scatter x y color _ => [x; y] ++ option_list color
  | px_pie names _ => [names]
  | px_bar_grouped_mean x y _ color => [x; y] ++ option_list color
  | px_histogram x _ => [x]
  | px_box x y _ color => [x; y; color]
  | px_line_sorted x y _ => [x; y]
  end.

(** ** The KPI cards (lines 98-109) and the KPI table of the PDF report
    (lines 270-283) *)

(** The cards, each with the layout column it is written in.  A date
    range is shown when both of its bounds are there, as in [kpi_items]. *)
Definition kpi_cards (k : KpiData) : list (nat * string * Metric) :=
  from_option (λ v, [(0%nat, "Total Sales", Dollars v)]) [] (total_sales k)
  ++ [(1%nat, "Total Transactions", Count (total_transactions k))]
  ++ from_option (λ n, [(2%nat, "Unique Categories", Count n)]) [] (unique_categories k)
  ++ match date_range k with
     | Some (Some a, Some b) => [(3%nat, "Date Range", Range a b)]
     | _ => []
     end.

(** A cell of the table: a text or a formatted value. *)
Inductive Cell :=
| CellText (text : string)
| CellValue (value : Metric).

(** [kpi_table_data] *)
Definition kpi_table_data (k : KpiData) : list (string * Cell) :=
  [("KPI", CellText "Value")]
  ++ from_option (λ v, [("Total Sales", CellValue (Dollars v))]) [] (total_sales k)
  ++ [("Total Transactions", CellValue (Count (total_transactions k)))]
  ++ from_option (λ n, [("Unique Categories", CellValue (Count n))]) [] (unique_categories k)
  ++ match date_range k with
     | Some (Some a, Some b) => [("Date Range", CellValue (Range a b))]
     | Some _ => [("Date Range", CellValue NotAvailable)]
     | None => []
     end.

(** ** Tab 7: the trivia game (lines 425-491) *)

(** The five trivia keys of the session with the values the tab stores
    in them, once lines 429-438 have run: the question, the answer and the
    options are [None] when the generator returned [(None, None, None)]. *)
Record TriviaKeys := mkTriviaKeys {
  k_trivia_score : nat;
  k_current_question : option string;
  k_correct_answer : option scalar;
  k_options : option (list scalar);
  k_question_asked : bool
}.

(** Lines 429-438: a key that is absent gets its initial value. *)
Definition trivia_init (s : Session) : TriviaKeys :=
  mkTriviaKeys (default 0%nat (trivia_score s))
    (default None (current_question s))
    (default None (correct_answer s))
    (Some (default [] (options s)))
    (default false (question_asked s)).

(** [st.radio(label, options)]: the option the user picked, the first one
    when nothing (valid) was picked, [None] when there is no option. *)
Definition radio (options : list scalar) (picked : nat) : option scalar :=
  match options !! picked with
  | Some x => Some x
  | None => options !! 0%nat
  end.

(** The run told the user that the answer was right. *)
Definition says_correct (x : Widget) : bool :=
  match x with
  | StSuccess msg => bool_decide (msg = "Correct!")
  | _ => false
  end.

(** What one run of the tab leaves: whether [st.rerun()] was called (or
    the exception that ended the run), the keys, the state of the random
    generator and the elements written. *)
Record TriviaRun := mkTriviaRun {
  tr_outcome : res bool;
  tr_keys : TriviaKeys;
  tr_rng : list nat;
  tr_page : list Widget
}.

Definition correct_shown (r : TriviaRun) : bool := existsb says_correct (tr_page r).

Section TriviaTab.

(** [str] of a float and of a [Timestamp]. *)
Variable str_num : Qc → string.
Variable str_time : Z → string.

Variable df : DataFrame.
Variables numeric_columns categorical_columns : list string.

(** [str(x)] and [f"{x}"] of a stored answer. *)
Definition py_str (x : option scalar) : string :=
  match x with
  | None => "None"
  | Some (SStr s) => s
  | Some (SNum q) => str_num q
  | Some (STime t) => str_time t
  | Some SNaN => "nan"
  end.

(** [user_answer == str(correct_answer)]: only a string can be equal to
    a string. *)
Definition answer_matches (user_answer correct_answer : option scalar) : bool :=
  match user_answer with
  | Some (SStr u) => bool_decide (u = py_str correct_answer)
  | _ => false
  end.

(** Lines 465-470. *)
Definition ask_question (k : TriviaKeys) (g : list nat)
  : res (TriviaKeys * list nat * list Widget) :=
  if negb (k_question_asked k) then
    if bool_decide (numeric_columns ≠ []) || bool_decide (categorical_columns ≠ []) then
      '(r, g') ← generate_trivia_question df numeric_columns categorical_columns g;
      Ok (match r with
          | Some (question, answer, options) =>
              mkTriviaKeys (k_trivia_score k) (Some question) (Some answer)
                (Some options) true
          | None => mkTriviaKeys (k_trivia_score k) None None None true
          end, g', [])
    else Ok (k, g, [StInfo "No suitable columns for trivia questions."])
  else Ok (k, g, []).

(** [if st.session_state["current_question"]:] holds for a question that
    is not the empty string. *)
Definition shown_question (k : TriviaKeys) : option string :=
  match k_current_question k with
  | Some question => if bool_decide (question ≠ "") then Some question else None
  | None => None
  end.

(** Lines 472-491, for the button that started the run and the option
    selected in the radio.  [st.rerun()] ends the run, so the score metric
    is not written after a submission.  [st.radio] does not accept [None]
    for its options. *)
Definition answer_question (clicked : option string) (picked : nat)
    (k : TriviaKeys) (g : list nat) (pg : list Widget) : TriviaRun :=
  match shown_question k with
  | Some question =>
      let pg := pg ++ [Subheader question] in
      match k_options k with
      | None => mkTriviaRun (Raise (TypeError "'NoneType' object is not iterable")) k g pg
      | Some options =>
          let user_answer := radio options picked in
          if button clicked "Submit Trivia Answer" then
            if answer_matches user_answer (k_correct_answer k) then
              mkTriviaRun (Ok true)
                (mkTriviaKeys (k_trivia_score k + 1) None (k_correct_answer k)
                   (k_options k) false)
                g (pg ++ [StSuccess "Correct!"])
            else
              mkTriviaRun (Ok true)
                (mkTriviaKeys (k_trivia_score k) None (k_correct_answer k)
                   (k_options k) false)
                g (pg ++ [StError ("Incorrect. The correct answer was: "
                                   +:+ py_str (k_correct_answer k))])
          else
            mkTriviaRun (Ok false) k g
              (pg ++ [MetricCard 0 "Trivia Score" (Count (k_trivia_score k))])
      end
  | None =>
      if bool_decide (numeric_columns = []) && bool_decide (categorical_columns = []) then
        if button clicked "Play Trivia Again" then
          mkTriviaRun (Ok true)
            (mkTriviaKeys 0 (k_current_question k) (k_correct_answer k) (k_options k) false)
            g pg
        else mkTriviaRun (Ok false) k g pg
      else mkTriviaRun (Ok false) k g pg
  end.

(** One run of the tab from the keys as lines 429-438 leave them.  An
    exception in the generator ends the run before any key is assigned. *)
Definition trivia_run (clicked : option string) (picked : nat)
    (k : TriviaKeys) (g : list nat) : TriviaRun :=
  match ask_question k g with
  | Ok (k', g', pg) => answer_question clicked picked k' g' pg
  | Raise e => mkTriviaRun (Raise e) k g []
  end.

Definition trivia_tab (clicked : option string) (picked : nat)
    (s : Session) (g : list nat) : TriviaRun :=
  trivia_run clicked picked (trivia_init s) g.

(** A click, with the rerun it may ask for: the rerun starts a new page
    and sees no button pressed. *)
Definition trivia_interaction (k : TriviaKeys) (g : list nat)
    (click : option string * nat) : TriviaRun :=
  let r := trivia_run click.1 click.2 k g in
  match tr_outcome r with
  | Ok true => trivia_run None click.2 (tr_keys r) (tr_rng r)
  | _ => r
  end.

(** A sequence of clicks, each with the option selected in the radio. *)
Fixpoint trivia_play (clicks : list (option string * nat)) (k : TriviaKeys) (g : list nat)
  : TriviaKeys * list nat :=
  match clicks with
  | [] => (k, g)
  | click :: rest =>
      let r := trivia_interaction k g click in
      trivia_play rest (tr_keys r) (tr_rng r)
  end.

End TriviaTab.

(** ** More sample data *)

(** Widget input on the sample table: no date column, the first
    categorical column (Region) as category, the first number column
    (Revenue) as sales, and "East" picked in the Region filter. *)
Definition sample_inputs : Inputs :=
  mkInputs 0 1 1 0 0 (λ col, if decide (col = "Region") then [SStr "East"] else []).

(** A table with a datetime column: days 1, 1 and 3 after the epoch (the
    second at 06:00) and a missing date. *)
Definition sample_dated : DataFrame :=
  {| index := [0; 1; 2; 3]%nat;
     data := [("Day", Pandas.DateCol [Some ns_per_day;
                                      Some (ns_per_day + 21600000000000)%Z;
                                      Some (3 * ns_per_day)%Z; None]);
              ("Revenue", Pandas.NumCol [Some (qz 10); Some (qz 20); Some (qz 30);
                                         Some (qz 40)])] |}.

(* ------------------------------------------------------------------ *)
(** * Properties *)

(** ** The dynamic report *)

Section DynamicReportFacts.
Variables numeric_columns categorical_columns : list string.
Variables date_column sales_column : option string.
Variable filtered_df : DataFrame.

Abbreviation report_slot_ m :=
  (report_slot m numeric_columns categorical_columns date_column sales_column filtered_df).
Abbreviation precond :=
  (Spec.precondition numeric_columns categorical_columns date_column sales_column).

Lemma py_mod_getitem {A} (l : list A) (i : nat) :
  l ≠ [] → ∃ x, py_mod i (length l) = Ok (i `mod` length l)
                ∧ getitem l (i `mod` length l) = Ok x.
Proof.
  intros Hl. destruct l as [|a l]; [done|].
  assert (Hlt : (i `mod` length (a :: l) < length (a :: l))%nat)
    by (apply Nat.mod_upper_bound; simpl; lia).
  destruct (lookup_lt_is_Some_2 _ _ Hlt) as [x Hx].
  exists x. split; [done|]. unfold getitem. by rewrite Hx.
Qed.

Lemma two_le_nonempty {A} (l : list A) : (2 ≤ length l)%nat → l ≠ [].
Proof. destruct l; simpl; [lia | done]. Qed.

Lemma nonempty_length {A} (l : list A) : l ≠ [] ↔ (1 ≤ length l)%nat.
Proof. destruct l; simpl; split; try done; lia. Qed.


Lemma res_bind_Ok {A B} (f : A → res B) (a : A) : (Ok a ≫= f) = f a.
Proof. reflexivity. Qed.

Lemma nonempty_decide {A} (l : list A) :
  bool_decide (l ≠ []) = bool_decide (1 ≤ length l)%nat.
Proof. apply bool_decide_ext, nonempty_length. Qed.

Ltac decide_rule :=
  repeat match goal with
  | |- context [bool_decide (?a = ?b)] =>
      first [ rewrite (bool_decide_eq_true_2 (a = b)) by lia
            | rewrite (bool_decide_eq_false_2 (a = b)) by lia ]
  end;
  rewrite ?andb_false_r, ?andb_true_r.

Ltac rule_cases i r Hr :=
  let Hlt := fresh "Hlt" in
  assert (Hlt : (i `mod` 7 < 7)%nat) by (apply Nat.mod_upper_bound; lia);
  remember (i `mod` 7) as r eqn:Hr;
  destruct r as [|[|[|[|[|[|[|r]]]]]]]; [ .. | lia ].

(** A slot whose rule has no satisfied precondition shows the notice and
    nothing else: no [try] block is entered. *)
Lemma report_slot_skip m (i plot_counter : nat) :
  precond (i `mod` 7) = false →
  report_slot_ m i plot_counter
  = Ok (mkChartSlot i (plot_counter `mod` 3) None (StInfo no_suitable), plot_counter).
Proof.
  unfold report_slot. rewrite !nonempty_decide.
  rule_cases i r Hr; simpl; intros H; decide_rule;
    rewrite ?H; simpl; try reflexivity;
    repeat match goal with
    | |- context [bool_decide ?P] => destruct (bool_decide P); simpl in *; try discriminate
    end; reflexivity.
Qed.

(** A slot whose rule applies enters exactly one [try] block; which figure
    it asks for depends on the columns only. *)
Lemma report_slot_attempt (i : nat) :
  precond (i `mod` 7) = true →
  ∃ chart_type fig args, ∀ m plot_counter,
    report_slot_ m i plot_counter
    = Ok (finish i plot_counter chart_type (try_plot m filtered_df chart_type fig args)).
Proof.
  intros H.
  rule_cases i r Hr; simpl in H;
    rewrite ?andb_true_iff, ?bool_decide_eq_true in H; destruct_and?;
    try (assert (Hn : numeric_columns ≠ []) by (apply nonempty_length; lia));
    try (assert (Hk : categorical_columns ≠ []) by (apply nonempty_length; lia));
    try (destruct (py_mod_getitem numeric_columns i Hn) as (x & Ex1 & Ex2));
    try (destruct (py_mod_getitem numeric_columns (i + 1) Hn) as (y & Ey1 & Ey2));
    try (destruct (py_mod_getitem categorical_columns i Hk) as (c & Ec1 & Ec2));
    eexists _, _, _; intros m plot_counter;
    unfold report_slot; rewrite !nonempty_decide, <- Hr; decide_rule;
    rewrite ?bool_decide_eq_true_2 by (assumption || lia);
    rewrite ?bool_decide_eq_false_2 by lia;
    cbn [andb];
    repeat first [ rewrite Ex1 | rewrite Ey1 | rewrite Ec1
                 | rewrite Ex2 | rewrite Ey2 | rewrite Ec2
                 | rewrite res_bind_Ok | progress cbv beta iota ];
    reflexivity.
Qed.

Abbreviation report_loop_ m :=
  (report_loop m numeric_columns categorical_columns date_column sales_column filtered_df).

Abbreviation slot_holds_ m :=
  (slot_holds m numeric_columns categorical_columns date_column sales_column filtered_df).

Lemma report_slot_total m (i plot_counter : nat) :
  ∃ s plot_counter', report_slot_ m i plot_counter = Ok (s, plot_counter')
                     ∧ slot_holds_ m i s.
Proof.
  destruct (precond (i `mod` 7)) eqn:Hp.
  - destruct (report_slot_attempt i Hp) as (ct & fig & args & Hs).
    eexists _, _. split; [apply Hs|].
    split; [done|]. right. split; [done|]. by exists ct, fig, args.
  - eexists _, _. split; [by apply report_slot_skip|].
    split; [done|]. left. done.
Qed.

Lemma report_loop_total m (slots : list nat) (plot_counter : nat) :
  ∃ ss, report_loop_ m slots plot_counter = Ok ss ∧ Forall2 (slot_holds_ m) slots ss.
Proof.
  revert plot_counter. induction slots as [|i slots IH]; intros pc.
  - exists []. split; [done | constructor].
  - destruct (report_slot_total m i pc) as (s & pc' & Hs & Hh).
    destruct (IH pc') as (ss & Hss & Hall).
    exists (s :: ss). split; [|by constructor].
    cbn [report_loop]. rewrite Hs, res_bind_Ok. cbn [fst snd].
    rewrite Hss. done.
Qed.

End DynamicReportFacts.

Lemma slot_holds_notice m nums cats date sales fdf i s :
  slot_holds m nums cats date sales fdf i s →
  is_notice s = negb (Spec.precondition nums cats date sales (i `mod` 7)).
Proof.
  intros [_ [(Hp & _ & Ho) | (Hp & ct & fig & args & _ & Ho & _)]];
    unfold is_notice; rewrite Ho, Hp.
  - apply bool_decide_eq_true_2. reflexivity.
  - unfold try_plot. by destruct (m fig fdf).
Qed.

Lemma notices_count m nums cats date sales fdf (slots : list nat) (ss : list ChartSlot) :
  Forall2 (slot_holds m nums cats date sales fdf) slots ss →
  length (notices ss)
  = length (filter (λ i, Spec.precondition nums cats date sales (i `mod` 7) = false) slots).
Proof.
  induction 1 as [|i s slots ss Hs _ IH]; [done|].
  unfold notices in *. rewrite !filter_cons.
  rewrite (slot_holds_notice _ _ _ _ _ _ _ _ Hs).
  destruct (Spec.precondition nums cats date sales (i `mod` 7)); simpl;
    repeat case_decide; try done; simpl; by rewrite IH.
Qed.

Lemma slot_holds_indices m nums cats date sales fdf (slots : list nat) (ss : list ChartSlot) :
  Forall2 (slot_holds m nums cats date sales fdf) slots ss →
  slot_index <$> ss = slots.
Proof.
  induction 1 as [|i s slots ss [Hi _] _ IH]; [done|].
  rewrite fmap_cons, Hi, IH. done.
Qed.

(** C1.  With two number columns [a], [b] and no other column, the loop
    runs for exactly the two slots 0 and 1.  Slot 0 asks for the scatter
    plot of [b] against [a] (x = numeric[0], y = numeric[1]) and shows it
    when plotly delivers it; slot 1, whose rule (pie chart) needs a
    categorical column, shows the notice only.  In general a slot whose
    rule has no satisfied precondition shows the notice and enters no
    [try] block: no other template is tried for that index. *)
Theorem C1_two_numeric_columns
    (m : Figure → DataFrame → option string) (df fdf : DataFrame)
    (a b : string) (sales : option string) :
  select_number df = [a; b] →
  select_not_number df = [] →
  let fig := px_scatter a b None (b +:+ " vs " +:+ a) in
  dynamic_report m (select_number df) (select_not_number df) None sales fdf
  = Ok [ mkChartSlot 0 0 (Some "Scatter Plot")
           match m fig fdf with
           | None => PlotlyChart fig
           | Some e =>
               StWarning ("Could not create Scatter Plot (" +:+ (a +:+ ", " +:+ b)
                          +:+ "): " +:+ e)
           end;
         mkChartSlot 1 (match m fig fdf with None => 1 | Some _ => 0 end) None
           (StInfo no_suitable) ]
  ∧ ∀ nums cats date sales' i plot_counter,
      Spec.precondition nums cats date sales' (i `mod` 7) = false →
      report_slot m nums cats date sales' fdf i plot_counter
      = Ok (mkChartSlot i (plot_counter `mod` 3) None (StInfo no_suitable), plot_counter).
Proof.
  intros Hn Hc fig. split.
  - rewrite Hn, Hc. subst fig. vm_compute.
    destruct (m _ fdf); reflexivity.
  - intros. by apply report_slot_skip.
Qed.



Lemma Forall2_join {A B C} (P : A → B → Prop) (Q : A → C → Prop) (R : B → C → Prop)
    (l : list A) (xs : list B) (ys : list C) :
  (∀ i x y, P i x → Q i y → R x y) →
  Forall2 P l xs → Forall2 Q l ys → Forall2 R xs ys.
Proof.
  intros HR HP. revert ys. induction HP as [|i x l xs Hx _ IH]; intros ys HQ.
  - inversion HQ. constructor.
  - inversion HQ as [|? y ? ys' Hy Hys]; subst. constructor; eauto.
Qed.


(** ** The filter engine *)

Section FilterFacts.

Lemma value_of_bind {A B} (r : res A) (f : A → res B) :
  value_of (r ≫= f) = value_of r ≫= (λ a, value_of (f a)).
Proof. by destruct r. Qed.

Lemma select_nil_r {A} (m : list bool) : Pandas.select m (@nil A) = [].
Proof. by destruct m as [|[] ?]. Qed.

Lemma select_fmap {A B} (f : A → B) (m : list bool) (xs : list A) :
  Pandas.select m (f <$> xs) = f <$> Pandas.select m xs.
Proof.
  revert xs. induction m as [|b m IH]; intros [|x xs]; simpl; try done.
  destruct b; simpl; by rewrite IH.
Qed.

Lemma select_zip_with (m a b : list bool) :
  Pandas.select m (mask_and a b) = mask_and (Pandas.select m a) (Pandas.select m b).
Proof.
  unfold mask_and. revert a b.
  induction m as [|c m IH]; intros [|x a] [|y b]; simpl; try done.
  - destruct c; simpl; [|by rewrite zip_with_nil_r]. done.
  - destruct c; simpl; by rewrite IH.
Qed.

Lemma select_select {A} (m1 m2 : list bool) (xs : list A) :
  Pandas.select (Pandas.select m1 m2) (Pandas.select m1 xs)
  = Pandas.select (mask_and m1 m2) xs.
Proof.
  unfold mask_and. revert m2 xs.
  induction m1 as [|b m1 IH]; intros [|c m2] [|x xs]; simpl; try done.
  all: destruct b; simpl; rewrite ?select_nil_r; try done.
  all: try destruct c; simpl; by rewrite ?IH.
Qed.

Lemma mask_and_comm (a b : list bool) : mask_and a b = mask_and b a.
Proof.
  unfold mask_and. revert b. induction a as [|x a IH]; intros [|y b]; simpl; try done.
  by rewrite IH, andb_comm.
Qed.

Lemma lookup_col_masked (m : list bool) (c : string) (d : list (string * Series)) :
  lookup_col c (prod_map id (select_series m) <$> d) = select_series m <$> lookup_col c d.
Proof.
  induction d as [|[c' s] d IH]; simpl; [done|]. by case_decide.
Qed.

Lemma values_masked (m : list bool) (s : Series) :
  Pandas.values (select_series m s) = Pandas.select m (Pandas.values s).
Proof. destruct s; simpl; by rewrite select_fmap. Qed.

Lemma loc_mask_twice (df : DataFrame) (m1 m2 : list bool) :
  loc_mask (loc_mask df m1) (Pandas.select m1 m2) = loc_mask df (mask_and m1 m2).
Proof.
  unfold loc_mask. simpl. f_equal; [apply select_select|].
  rewrite <- list_fmap_compose. apply list_fmap_ext. intros _ [c s] _. simpl.
  f_equal. destruct s; simpl; f_equal; apply select_select.
Qed.

(** The mask a statement computes on an already filtered frame is the
    filtered mask it computes on the whole frame. *)
Lemma step_mask_masked (st : FilterStep) (df : DataFrame) (m : list bool) :
  value_of (step_mask st (loc_mask df m)) = Pandas.select m <$> value_of (step_mask st df).
Proof.
  destruct st as [c d1 d2 | c allowed]; unfold step_mask, get; simpl;
    rewrite lookup_col_masked; destruct (lookup_col c (data df)) as [s|]; simpl; try done.
  - destruct s; simpl; try done.
    unfold ge_date, le_date. by rewrite select_zip_with, !select_fmap.
  - unfold isin. by rewrite values_masked, select_fmap.
Qed.

Lemma run_step_value (st : FilterStep) (df : DataFrame) :
  value_of (run_step st df) = loc_mask df <$> value_of (step_mask st df).
Proof. unfold run_step. by destruct (step_mask st df). Qed.

Lemma run_step_comm (x y : FilterStep) (df : DataFrame) :
  value_of (run_step x df ≫= run_step y) = value_of (run_step y df ≫= run_step x).
Proof.
  rewrite !value_of_bind, !run_step_value.
  destruct (value_of (step_mask x df)) as [mx|] eqn:Ex;
    destruct (value_of (step_mask y df)) as [my|] eqn:Ey; simpl;
    rewrite ?run_step_value, ?step_mask_masked, ?Ex, ?Ey; simpl; try done.
  by rewrite !loc_mask_twice, mask_and_comm.
Qed.

Lemma run_steps_app (l1 l2 : list FilterStep) (df : DataFrame) :
  run_steps (l1 ++ l2) df = run_steps l1 df ≫= run_steps l2.
Proof.
  revert df. induction l1 as [|st l1 IH]; intros df; simpl; [done|].
  destruct (run_step st df); simpl; [apply IH | done].
Qed.

Lemma run_steps_perm (l1 l2 : list FilterStep) :
  l1 ≡ₚ l2 → ∀ df, value_of (run_steps l1 df) = value_of (run_steps l2 df).
Proof.
  induction 1 as [|st l1 l2 _ IH|x y l|l1 l2 l3 _ IH1 _ IH2]; intros df.
  - done.
  - simpl. destruct (run_step st df); simpl; [apply IH | done].
  - simpl.
    pose proof (run_step_comm x y df) as Hc.
    destruct (run_step y df) as [dy|] eqn:Ey; destruct (run_step x df) as [dx|] eqn:Ex;
      simpl in *; try done.
    + destruct (run_step x dy), (run_step y dx); simpl in *; by simplify_eq.
    + by destruct (run_step x dy).
    + by destruct (run_step y dx).
  - by rewrite IH1, IH2.
Qed.

Lemma data_filtering_steps (fs : list (string * list scalar)) (df : DataFrame) :
  data_filtering fs df = run_steps ((λ f, IsinStep f.1 f.2) <$> fs) df.
Proof.
  revert df. induction fs as [|[c allowed] fs IH]; intros df; simpl; [done|].
  unfold run_step, step_mask; simpl. destruct (get df c); simpl; [apply IH | done].
Qed.

Lemma apply_filter_set_steps (date : option string) (F : FilterSet) (df : DataFrame) :
  apply_filter_set date F df = run_steps (steps_of date F) df.
Proof.
  unfold apply_filter_set, steps_of. rewrite run_steps_app.
  destruct date as [c|]; simpl.
  - unfold run_step, step_mask.
    destruct (get df c) as [s|]; simpl; [|done].
    destruct (dt_date s); simpl; [|done]. apply data_filtering_steps.
  - apply data_filtering_steps.
Qed.

Lemma select_elem_of {A} (m : list bool) (xs : list A) (x : A) :
  x ∈ Pandas.select m xs → x ∈ xs.
Proof.
  revert xs. induction m as [|b m IH]; intros [|y xs]; simpl; try by inversion 1.
  destruct b; rewrite ?elem_of_cons; naive_solver.
Qed.

Lemma index_set_mask_and (idx : list nat) (m1 m2 : list bool) :
  NoDup idx →
  (list_to_set (Pandas.select (mask_and m1 m2) idx) : gset nat)
  = list_to_set (Pandas.select m1 idx) ∩ list_to_set (Pandas.select m2 idx).
Proof.
  unfold mask_and. intros Hnd. revert m1 m2.
  induction Hnd as [|i idx Hi _ IH]; intros m1 m2.
  - rewrite !select_nil_r. set_solver.
  - destruct m1 as [|b1 m1], m2 as [|b2 m2]; simpl.
    + set_solver.
    + set_solver.
    + set_solver.
    + specialize (IH m1 m2).
      assert (i ∉ (list_to_set (Pandas.select m1 idx) : gset nat))
        by (rewrite elem_of_list_to_set; intros ?%select_elem_of; done).
      assert (i ∉ (list_to_set (Pandas.select m2 idx) : gset nat))
        by (rewrite elem_of_list_to_set; intros ?%select_elem_of; done).
      destruct b1, b2; simpl; set_solver.
Qed.

Lemma index_set_loc_mask_subseteq (df : DataFrame) (m : list bool) :
  index_set (loc_mask df m) ⊆ index_set df.
Proof.
  unfold index_set; simpl. intros i. rewrite !elem_of_list_to_set.
  apply select_elem_of.
Qed.

Lemma foldr_inter_base {A} (K : A → gset nat) (X Y : gset nat) (l : list A) :
  foldr (λ f acc, K f ∩ acc) (X ∩ Y) l = Y ∩ foldr (λ f acc, K f ∩ acc) X l.
Proof. induction l as [|f l IH]; simpl; [|rewrite IH]; set_solver. Qed.

Lemma rows_kept_eq (c : string) (allowed : list scalar) (df : DataFrame) (s : Series) :
  get df c = Ok s →
  rows_kept (c, allowed) df = index_set (loc_mask df (isin s allowed)).
Proof. intros Hs. unfold rows_kept. simpl. by rewrite Hs. Qed.

Lemma data_filtering_masked (fs : list (string * list scalar)) (df : DataFrame)
    (m : list bool) (out : DataFrame) :
  NoDup (index df) →
  data_filtering fs (loc_mask df m) = Ok out →
  index_set out = foldr (λ f acc, rows_kept f df ∩ acc) (index_set (loc_mask df m)) fs.
Proof.
  intros Hnd. revert m. induction fs as [|[c allowed] fs IH]; intros m Hrun; simpl in *.
  - by simplify_eq.
  - unfold get in Hrun. simpl in Hrun. rewrite lookup_col_masked in Hrun.
    destruct (lookup_col c (data df)) as [s|] eqn:Hs; simpl in Hrun; [|done].
    unfold isin in Hrun. rewrite values_masked, <- select_fmap, loc_mask_twice in Hrun.
    fold (isin s allowed) in Hrun.
    rewrite (IH _ Hrun).
    rewrite (rows_kept_eq c allowed df s) by (unfold get; by rewrite Hs).
    unfold index_set at 1. simpl. rewrite index_set_mask_and by done.
    apply foldr_inter_base.
Qed.

Lemma data_filtering_index_set (fs : list (string * list scalar)) (df out : DataFrame) :
  NoDup (index df) →
  data_filtering fs df = Ok out →
  index_set out = foldr (λ f acc, rows_kept f df ∩ acc) (index_set df) fs.
Proof.
  intros Hnd Hrun. destruct fs as [|[c allowed] fs]; simpl in *; [by simplify_eq|].
  destruct (get df c) as [s|] eqn:Hs; simpl in Hrun; [|done].
  rewrite (data_filtering_masked _ _ _ _ Hnd Hrun).
  rewrite (rows_kept_eq c allowed df s Hs).
  pose proof (index_set_loc_mask_subseteq df (isin s allowed)) as Hsub.
  replace (index_set (loc_mask df (isin s allowed)))
    with (index_set df ∩ index_set (loc_mask df (isin s allowed))) at 1 by set_solver.
  by rewrite foldr_inter_base.
Qed.

End FilterFacts.

(** C3.  On every frame: two filter sets applied one after the other
    give the same view in either order (or fail in both orders); the
    categorical filters may be applied in any order; and when the row
    labels are distinct, as [pd.read_csv] makes them, the labels left by
    N categorical filters are the intersection of the label sets each
    filter keeps on its own. *)
Theorem C3_filters_commute (date : option string) (df : DataFrame) :
  (∀ F1 F2 : FilterSet,
     value_of (apply_filter_set date F1 df ≫= apply_filter_set date F2)
     = value_of (apply_filter_set date F2 df ≫= apply_filter_set date F1))
  ∧ (∀ fs fs' : list (string * list scalar),
       fs ≡ₚ fs' → value_of (data_filtering fs df) = value_of (data_filtering fs' df))
  ∧ (NoDup (index df) →
     ∀ (fs : list (string * list scalar)) (out : DataFrame),
       data_filtering fs df = Ok out →
       index_set out = foldr (λ f acc, rows_kept f df ∩ acc) (index_set df) fs).
Proof.
  split; [|split].
  - intros F1 F2.
    assert (Hseq : ∀ Fa Fb,
      (apply_filter_set date Fa df ≫= apply_filter_set date Fb)
      = run_steps (steps_of date Fa ++ steps_of date Fb) df).
    { intros Fa Fb. rewrite run_steps_app, <- apply_filter_set_steps.
      destruct (apply_filter_set date Fa df); simpl; [|done].
      apply apply_filter_set_steps. }
    rewrite !Hseq. apply run_steps_perm, Permutation_app_comm.
  - intros fs fs' Hp. rewrite !data_filtering_steps.
    apply run_steps_perm. by apply fmap_Permutation.
  - intros Hnd fs out. by apply data_filtering_index_set.
Qed.

(** ** The KPI block *)

Lemma sum_present (v : list (option Qc)) :
  foldr Qcplus 0%Qc (omap id v) = Spec.total_measure v.
Proof.
  unfold Spec.total_measure. induction v as [|[x|] v IH]; cbn; [done| |].
  - by rewrite IH.
  - by rewrite Qcplus_0_l.
Qed.

(** [SUM] followed by [or 0] is the total with missing entries as 0. *)
Lemma duckdb_sum_or_zero (t : DataFrame) (c : string) (v : list (option Qc)) :
  lookup_col c (data t) = Some (NumCol v) →
  ∃ x, DuckDB.sum t c = Ok x ∧ or_zero x = Spec.total_measure v.
Proof.
  intros Hc. unfold DuckDB.sum, DuckDB.column. rewrite Hc. simpl.
  eexists. split; [done|].
  case_bool_decide as He; simpl.
  - by rewrite <- sum_present, He.
  - apply sum_present.
Qed.

Lemma kpi_queries_total (h : gmap nat DataFrame) (con : gmap string nat) (table : string)
    (view : DataFrame) (sales category date : option string) :
  DuckDB.scan h con table = Ok view →
  names_number view sales = true →
  names_column view category = true →
  names_column view date = true →
  ∃ k, kpi_queries h con table sales category date = Ok k
       ∧ total_sales k = (λ c, Spec.total_measure (measure_entries view c)) <$> sales
       ∧ total_transactions k = Pandas.len view
       ∧ unique_categories k
         = (λ c, length (remove_dups
                           (from_option dropna [] (lookup_col c (data view))))) <$> category
       ∧ date_range k
         = (λ c, (least (from_option dropna [] (lookup_col c (data view))),
                  greatest (from_option dropna [] (lookup_col c (data view))))) <$> date.
Proof.
  intros Hscan Hs Hc Hd. unfold kpi_queries. rewrite Hscan.
  assert (∃ ts, match sales with
                | Some c => Ok view ≫= λ t, DuckDB.sum t c ≫= λ x, Ok (Some (or_zero x))
                | None => Ok None
                end = Ok ts
                ∧ ts = (λ c, Spec.total_measure (measure_entries view c)) <$> sales)
    as (ts & -> & Hts).
  { destruct sales as [c|]; simpl in *; [|by eexists].
    unfold measure_entries.
    destruct (lookup_col c (data view)) as [[v| |]|] eqn:Hv; try done.
    destruct (duckdb_sum_or_zero view c v Hv) as (x & -> & Hx). simpl.
    eexists. split; [done|]. by rewrite Hx. }
  assert (∃ uc, match category with
                | Some c => Ok view ≫= λ t, DuckDB.count_distinct t c ≫= λ n, Ok (Some n)
                | None => Ok None
                end = Ok uc
                ∧ uc = (λ c, length (remove_dups
                          (from_option dropna [] (lookup_col c (data view))))) <$> category)
    as (uc & -> & Huc).
  { destruct category as [c|]; simpl in *; [|by eexists].
    apply bool_decide_eq_true in Hc. destruct Hc as [s Hs'].
    unfold DuckDB.count_distinct, DuckDB.column. rewrite Hs'. simpl. by eexists. }
  assert (∃ dr, match date with
                | Some c => Ok view ≫= λ t, DuckDB.min_max t c ≫= λ r, Ok (Some r)
                | None => Ok None
                end = Ok dr
                ∧ dr = (λ c, (least (from_option dropna [] (lookup_col c (data view))),
                              greatest (from_option dropna [] (lookup_col c (data view)))))
                       <$> date)
    as (dr & -> & Hdr).
  { destruct date as [c|]; simpl in *; [|by eexists].
    apply bool_decide_eq_true in Hd. destruct Hd as [s Hs'].
    unfold DuckDB.min_max, DuckDB.column. rewrite Hs'. simpl. by eexists. }
  simpl. eexists. split; [done|]. simpl. done.
Qed.

Lemma lookup_col_elem (c : string) (d : list (string * Series)) (s : Series) :
  lookup_col c d = Some s → (c, s) ∈ d.
Proof.
  induction d as [|[c' s'] d IH]; simpl; [done|].
  case_decide; intros; simplify_eq; [left | right; auto].
Qed.

Lemma lookup_assign_col (c : string) (s : Series) (d : list (string * Series)) :
  lookup_col c (assign_col c s d) = Some s.
Proof.
  induction d as [|[c' s'] d IH]; simpl; [by rewrite decide_True|].
  case_decide; simpl; [by rewrite decide_True | by rewrite decide_False].
Qed.

Lemma lookup_assign_col_ne (c c' : string) (s : Series) (d : list (string * Series)) :
  c ≠ c' → lookup_col c' (assign_col c s d) = lookup_col c' d.
Proof.
  intros Hne. induction d as [|[c0 s0] d IH]; simpl; [by rewrite decide_False|].
  destruct (decide (c0 = c)) as [->|]; simpl.
  - by rewrite !decide_False.
  - by rewrite IH.
Qed.

Lemma no_rows_entries (view : DataFrame) (c : string) :
  no_rows view = true → measure_entries view c = [].
Proof.
  unfold no_rows, measure_entries. intros [_ Hall]%andb_true_iff.
  destruct (lookup_col c (data view)) as [[v| |]|] eqn:Hv; try done.
  apply lookup_col_elem in Hv.
  rewrite forallb_forall in Hall. apply list_elem_of_In, Hall in Hv.
  unfold Pandas.empty, Pandas.size in Hv. simpl in Hv.
  apply bool_decide_eq_true in Hv. rewrite length_fmap in Hv.
  by destruct v.
Qed.

Lemma total_measure_fillna (m : list bool) (v : list (option Qc)) :
  Spec.total_measure (Pandas.select m (fillna0 v)) = Spec.total_measure (Pandas.select m v).
Proof.
  unfold Spec.total_measure, fillna0. f_equal.
  rewrite <- !select_fmap. f_equal.
  rewrite <- list_fmap_compose. by apply list_fmap_ext.
Qed.


(** ** The what-if tab *)

Lemma M_bind_run {A B} (m : M A) (f : A → M B) (w : World) :
  (m ≫= f) w = match m w with
               | (Ok a, w') => f a w'
               | (Raise e, w') => (Raise e, w')
               end.
Proof. reflexivity. Qed.

Lemma show_metrics_page (n i : nat) (items : list (string * Metric)) (w : World) :
  ∃ r pg, show_metrics n i items w = (r, with_page pg w).
Proof.
  revert i w. induction items as [|[key value] items IH]; intros i w; simpl.
  - exists (Ok ()), (page w). by destruct w.
  - rewrite M_bind_run. unfold lift. destruct (py_mod i n) as [c|e].
    + rewrite M_bind_run. unfold st_write.
      destruct (IH (S i) (with_page (page w ++ [MetricCard c (whatif_label key) value]) w))
        as (r & pg & ->).
      exists r, pg. by destruct w.
    + exists (Raise e), (page w). by destruct w.
Qed.

Lemma show_metrics_ok (n i : nat) (items : list (string * Metric)) (w : World) :
  n ≠ 0%nat → ∃ pg, show_metrics n i items w = (Ok (), with_page pg w).
Proof.
  intros Hn. revert i w. induction items as [|[key value] items IH]; intros i w; simpl.
  - exists (page w). by destruct w.
  - rewrite M_bind_run. unfold lift. destruct n as [|n]; [done|].
    change (py_mod i (S n)) with (Ok (i `mod` S n)). cbv beta iota.
    rewrite M_bind_run. unfold st_write.
    destruct (IH (S i) (with_page (page w ++ [MetricCard (i `mod` S n)
                                               (whatif_label key) value]) w))
      as (pg & ->).
    exists pg. by destruct w.
Qed.

Section WhatIfFacts.
Variables sales_column category_column date_column : option string.

Abbreviation what_if_try_ :=
  (what_if_try sales_column category_column date_column).

(** Whatever happens in the [try] block, it leaves the variables alone
    and touches the heap at one fresh address at most. *)
Lemma what_if_try_shape (sel : string) (pct : Qc) (w : World) r (w' : World) :
  what_if_try_ sel pct w = (r, w') →
  same_roots w w'
  ∧ (heap w' = heap w ∨ ∃ df', heap w' = <[fresh (dom (heap w)) := df']> (heap w)).
Proof.
  unfold what_if_try, df_copy, df_getitem, df_setitem, deref, act, lift, st_write.
  rewrite !M_bind_run.
  destruct (heap w !! filtered_df w) as [df|] eqn:Hdf;
    [|intros; simplify_eq; by repeat split; auto].
  rewrite !M_bind_run. cbn [heap with_heap filtered_df].
  rewrite lookup_insert_eq.
  destruct (get df sel) as [col|e];
    [|intros; simplify_eq; repeat split; eauto].
  rewrite !M_bind_run.
  destruct (mul_scalar col _) as [scaled|e];
    [|intros; simplify_eq; repeat split; eauto].
  rewrite !M_bind_run. cbn [heap with_heap filtered_df].
  rewrite lookup_insert_eq. rewrite !M_bind_run. cbn [heap with_heap with_page page].
  rewrite insert_insert_eq.
  assert (Hne : filtered_df w ≠ fresh (dom (heap w))).
  { intros Heq. apply (is_fresh (dom (heap w))). rewrite <- Heq.
    apply elem_of_dom. by rewrite Hdf. }
  rewrite lookup_insert_ne by done. rewrite Hdf.
  rewrite !M_bind_run. cbn [heap with_heap with_page page].
  rewrite lookup_insert_eq. rewrite !M_bind_run. cbn [heap with_heap with_page page kpi_data].
  match goal with |- context [kpi_queries ?h ?c ?t ?a ?b ?d] =>
    destruct (kpi_queries h c t a b d) as [k|e] end;
    [|intros; simplify_eq; repeat split; eauto].
  rewrite !M_bind_run.
  match goal with |- context [show_metrics ?n ?i ?items ?w0] =>
    destruct (show_metrics_page n i items w0) as (r0 & pg & ->) end.
  destruct r0; unfold mret, M_ret; intros; simplify_eq; repeat split; eauto.
Qed.

Lemma kpi_items_length (k : KpiData) : length (kpi_items k) ≠ 0%nat.
Proof.
  unfold kpi_items. rewrite !length_app. simpl. lia.
Qed.

(** When the copy can be scaled, the value of the [try] block is the
    value of the four queries on the scaled copy, which sits at a fresh
    address and is registered with the temporary connection only. *)
Lemma what_if_try_result (sel : string) (pct : Qc) (w : World)
    (df : DataFrame) (col scaled : Series) :
  heap w !! filtered_df w = Some df →
  get df sel = Ok col →
  mul_scalar col (1 + pct / Q2Qc 100)%Qc = Ok scaled →
  let l' := fresh (dom (heap w)) in
  let h' := <[l' := Pandas.set df sel scaled]> (heap w) in
  ∃ pg,
    what_if_try_ sel pct w
    = (kpi_queries h' (DuckDB.register ∅ "modified_data" l') "modified_data"
         sales_column category_column date_column,
       mkWorld h' (filtered_df w) (con w) (kpi_data w) (session_state w) pg).
Proof.
  intros Hdf Hcol Hmul l' h'.
  unfold what_if_try, df_copy, df_getitem, df_setitem, deref, act, lift, st_write.
  rewrite !M_bind_run, Hdf.
  rewrite !M_bind_run. cbn [heap with_heap filtered_df].
  rewrite lookup_insert_eq, Hcol.
  rewrite !M_bind_run, Hmul.
  rewrite !M_bind_run. cbn [heap with_heap filtered_df].
  rewrite lookup_insert_eq. rewrite !M_bind_run. cbn [heap with_heap with_page page].
  rewrite insert_insert_eq.
  assert (Hne : filtered_df w ≠ fresh (dom (heap w))).
  { intros Heq. apply (is_fresh (dom (heap w))). rewrite <- Heq.
    apply elem_of_dom. by rewrite Hdf. }
  rewrite lookup_insert_ne by done. rewrite Hdf.
  rewrite !M_bind_run. cbn [heap with_heap with_page page].
  rewrite lookup_insert_eq. rewrite !M_bind_run. cbn [heap with_heap with_page page kpi_data].
  fold l'. fold h'.
  destruct (kpi_queries h' _ _ _ _ _) as [k|e]; [|by eexists].
  rewrite !M_bind_run.
  match goal with |- context [show_metrics ?n ?i ?items ?w0] =>
    destruct (show_metrics_ok n i items w0 (kpi_items_length _)) as (pg & ->) end.
  unfold mret, M_ret. by eexists.
Qed.

Lemma scan_temp (h : gmap nat DataFrame) (l : nat) (df : DataFrame) :
  DuckDB.scan (<[l := df]> h) (DuckDB.register ∅ "modified_data" l) "modified_data" = Ok df.
Proof.
  unfold DuckDB.scan, DuckDB.register. by rewrite !lookup_insert_eq.
Qed.

End WhatIfFacts.

Lemma kpi_queries_scan (h h' : gmap nat DataFrame) (con con' : gmap string nat)
    (table table' : string) (sales category date : option string) :
  DuckDB.scan h con table = DuckDB.scan h' con' table' →
  kpi_queries h con table sales category date
  = kpi_queries h' con' table' sales category date.
Proof. intros Hs. unfold kpi_queries. by rewrite Hs. Qed.

Lemma assign_col_id (c : string) (s : Series) (d : list (string * Series)) :
  lookup_col c d = Some s → assign_col c s d = d.
Proof.
  induction d as [|[c' s'] d IH]; simpl; [done|].
  case_decide; intros; simplify_eq; [done | by rewrite IH].
Qed.

Lemma scale_by_one (v : list (option Qc)) :
  fmap (M:=option) (λ x, x * (1 + Q2Qc 0 / Q2Qc 100))%Qc <$> v = v.
Proof.
  assert (Hf : (1 + Q2Qc 0 / Q2Qc 100 = 1)%Qc) by (apply Qc_is_canon; reflexivity).
  rewrite Hf. induction v as [|o v IH]; [done|]. rewrite fmap_cons, IH.
  destruct o as [x|]; simpl; [by rewrite Qcmult_1_r | done].
Qed.

Lemma scale_to_zero (v : list (option Qc)) :
  fmap (M:=option) (λ x, x * (1 + Q2Qc (-100) / Q2Qc 100))%Qc <$> v
  = fmap (M:=option) (λ _, 0%Qc) <$> v.
Proof.
  assert (Hf : (1 + Q2Qc (-100) / Q2Qc 100 = 0)%Qc) by (apply Qc_is_canon; reflexivity).
  rewrite Hf. induction v as [|o v IH]; [done|]. rewrite !fmap_cons, IH.
  destruct o as [x|]; simpl; [by rewrite Qcmult_0_r | done].
Qed.

Section WhatIfTab.
Variables sales_column category_column date_column : option string.

Abbreviation what_if_tab_ :=
  (what_if_tab sales_column category_column date_column).

Lemma what_if_tab_shape (numeric : list string) (choice : nat) (pct : Qc)
    (clicked : bool) (w : World) r (w' : World) :
  what_if_tab_ numeric choice pct clicked w = (r, w') →
  same_roots w w'
  ∧ (heap w' = heap w ∨ ∃ df', heap w' = <[fresh (dom (heap w)) := df']> (heap w)).
Proof.
  unfold what_if_tab. case_bool_decide.
  { rewrite M_bind_run. unfold st_write, mret, M_ret. intros; simplify_eq.
    repeat split; auto. }
  rewrite M_bind_run. unfold lift.
  destruct (selectbox numeric choice) as [sel|e]; [|intros; simplify_eq; by repeat split; auto].
  destruct clicked; [|unfold mret, M_ret; intros; simplify_eq; by repeat split; auto].
  unfold try_except. rewrite M_bind_run.
  destruct (what_if_try _ _ _ sel pct w) as [[k|e] w1] eqn:Htry;
    apply what_if_try_shape in Htry as [(Hf & Hc & Hk & Hs) Hh].
  - unfold mret, M_ret. intros; simplify_eq. by repeat split.
  - rewrite M_bind_run. unfold st_write, mret, M_ret. intros; simplify_eq.
    destruct w1; simpl in *. by repeat split.
Qed.

Lemma what_if_tab_result (numeric : list string) (choice : nat) (pct : Qc) (w : World)
    (sel : string) (df : DataFrame) (col scaled : Series) (k : KpiData) :
  numeric ≠ [] →
  selectbox numeric choice = Ok sel →
  heap w !! filtered_df w = Some df →
  get df sel = Ok col →
  mul_scalar col (1 + pct / Q2Qc 100)%Qc = Ok scaled →
  let l' := fresh (dom (heap w)) in
  let h' := <[l' := Pandas.set df sel scaled]> (heap w) in
  kpi_queries h' (DuckDB.register ∅ "modified_data" l') "modified_data"
    sales_column category_column date_column = Ok k →
  ∃ pg,
    what_if_tab_ numeric choice pct true w
    = (Ok (Some k), mkWorld h' (filtered_df w) (con w) (kpi_data w) (session_state w) pg).
Proof.
  intros Hn Hsel Hdf Hcol Hmul l' h' Hk.
  unfold what_if_tab. rewrite bool_decide_eq_false_2 by done.
  rewrite M_bind_run. unfold lift. rewrite Hsel.
  unfold try_except. rewrite M_bind_run.
  destruct (what_if_try_result sales_column category_column date_column
              sel pct w df col scaled Hdf Hcol Hmul) as (pg & ->).
  fold l' h'. rewrite Hk. unfold mret, M_ret. by eexists.
Qed.

End WhatIfTab.

Lemma run_kpis_inv (h : gmap nat DataFrame) (fdf : nat) (sales category date : option string)
    (session : Session) (w : World) :
  run_kpis h fdf sales category date session = Ok w →
  ∃ df, h !! fdf = Some df
        ∧ heap w = h ∧ filtered_df w = fdf
        ∧ con w = DuckDB.register ∅ "sales_data" fdf
        ∧ session_state w = session
        ∧ DuckDB.scan h (con w) "sales_data" = Ok df
        ∧ kpi_queries h (con w) "sales_data" sales category date = Ok (kpi_data w).
Proof.
  unfold run_kpis. intros Hrun.
  destruct (kpi_queries h _ _ _ _ _) as [k|] eqn:Hk; simpl in Hrun; [|done].
  simplify_eq. simpl.
  assert (Hscan : ∃ df, DuckDB.scan h (DuckDB.register ∅ "sales_data" fdf) "sales_data" = Ok df).
  { unfold kpi_queries in Hk.
    destruct (DuckDB.scan h _ _) as [df|]; [by eexists|].
    destruct sales; simpl in Hk; done. }
  destruct Hscan as [df Hscan]. exists df. repeat split; try done.
  unfold DuckDB.scan, DuckDB.register in Hscan. rewrite lookup_insert_eq in Hscan.
  by destruct (h !! fdf); simplify_eq.
Qed.

(** The queries succeed only for a role selection that fits the view. *)
Lemma kpi_queries_fit (h : gmap nat DataFrame) (con : gmap string nat) (table : string)
    (view : DataFrame) (sales category date : option string) (k : KpiData) :
  DuckDB.scan h con table = Ok view →
  kpi_queries h con table sales category date = Ok k →
  names_number view sales = true ∧ names_column view category = true
  ∧ names_column view date = true.
Proof.
  intros Hscan. unfold kpi_queries. rewrite Hscan.
  unfold names_number, names_column, DuckDB.sum, DuckDB.count_distinct,
    DuckDB.min_max, DuckDB.column.
  intros Hk.
  destruct sales as [cs|], category as [cc|], date as [cd|]; simpl in *;
    repeat match goal with
    | H : context [lookup_col ?c ?d] |- _ =>
        destruct (lookup_col c d) as [[]|] eqn:?; simpl in *; try done
    end;
    repeat split; try done; by apply bool_decide_eq_true.
Qed.

Lemma names_number_set (df : DataFrame) (sel : string) (v v' : list (option Qc))
    (role : option string) :
  lookup_col sel (data df) = Some (NumCol v) →
  names_number df role = true →
  names_number (Pandas.set df sel (NumCol v')) role = true.
Proof.
  intros Hsel. destruct role as [c|]; simpl; [|done].
  destruct (decide (sel = c)) as [->|Hne].
  - by rewrite lookup_assign_col.
  - by rewrite lookup_assign_col_ne.
Qed.

Lemma names_column_set (df : DataFrame) (sel : string) (v v' : list (option Qc))
    (role : option string) :
  lookup_col sel (data df) = Some (NumCol v) →
  names_column df role = true →
  names_column (Pandas.set df sel (NumCol v')) role = true.
Proof.
  intros Hsel. destruct role as [c|]; simpl; [|done].
  destruct (decide (sel = c)) as [->|Hne].
  - rewrite lookup_assign_col. intros _. by apply bool_decide_eq_true.
  - by rewrite lookup_assign_col_ne.
Qed.

(** From a baseline that was computed, scaling a number column of the
    view always goes through, and the updated KPIs are the four queries
    on the scaled copy, held at a fresh address. *)
Lemma what_if_succeeds (h : gmap nat DataFrame) (fdf : nat) (session : Session)
    (sales category date : option string) (w : World) (df : DataFrame)
    (numeric : list string) (choice : nat) (sel : string) (v : list (option Qc))
    (pct : Qc) :
  run_kpis h fdf sales category date session = Ok w →
  h !! fdf = Some df →
  numeric ≠ [] →
  selectbox numeric choice = Ok sel →
  lookup_col sel (data df) = Some (NumCol v) →
  let v' := fmap (M:=option) (λ x, x * (1 + pct / Q2Qc 100))%Qc <$> v in
  let df' := Pandas.set df sel (NumCol v') in
  ∃ k pg,
    what_if_tab sales category date numeric choice pct true w
    = (Ok (Some k),
       mkWorld (<[fresh (dom h) := df']> h) fdf (con w) (kpi_data w) session pg)
    ∧ total_sales k = (λ c, Spec.total_measure (measure_entries df' c)) <$> sales
    ∧ total_transactions k = Pandas.len df'
    ∧ unique_categories k
      = (λ c, length (remove_dups
                        (from_option dropna [] (lookup_col c (data df'))))) <$> category
    ∧ date_range k
      = (λ c, (least (from_option dropna [] (lookup_col c (data df'))),
               greatest (from_option dropna [] (lookup_col c (data df'))))) <$> date.
Proof.
  intros Hrun Hdf Hn Hsel Hv v' df'.
  destruct (run_kpis_inv _ _ _ _ _ _ _ Hrun)
    as (df0 & Hdf0 & Hh & Hf & Hcon & Hsess & Hscan & Hk).
  assert (df0 = df) as -> by congruence.
  destruct (kpi_queries_fit _ _ _ _ _ _ _ _ Hscan Hk) as (Hs & Hc & Hd).
  destruct (kpi_queries_total (<[fresh (dom h) := df']> h)
              (DuckDB.register ∅ "modified_data" (fresh (dom h))) "modified_data"
              df' sales category date) as (k & Hk' & Hfields).
  { apply scan_temp. }
  { by eapply names_number_set. }
  { by eapply names_column_set. }
  { by eapply names_column_set. }
  destruct (what_if_tab_result sales category date numeric choice pct w sel df
              (NumCol v) (NumCol v') k Hn Hsel) as (pg & Htab).
  { by rewrite Hh, Hf. }
  { unfold get. by rewrite Hv. }
  { done. }
  { rewrite Hh. exact Hk'. }
  exists k, pg. split; [|exact Hfields].
  rewrite Htab, Hh, Hf, Hsess. done.
Qed.

Lemma total_measure_zero (v : list (option Qc)) :
  Spec.total_measure (fmap (M:=option) (λ _, 0%Qc) <$> v) = 0%Qc.
Proof.
  unfold Spec.total_measure. induction v as [|o v IH]; [done|].
  rewrite !fmap_cons. cbn [foldr]. rewrite IH.
  destruct o; simpl; by rewrite Qcplus_0_l.
Qed.

Lemma set_same (df : DataFrame) (c : string) (s : Series) :
  lookup_col c (data df) = Some s → Pandas.set df c s = df.
Proof. intros H. unfold Pandas.set. rewrite assign_col_id by done. by destruct df. Qed.




(** C9.  From a computed baseline, one run of the what-if tab (whatever
    the column choice, the percentage and the button, and whether or not
    the handler fails) leaves the script's variables as they were: the
    filtered frame is the same object with the same contents, the
    connection and the baseline KPIs are unchanged and the baseline
    queries still return them, the session state is unchanged, every
    object that existed is untouched, and no variable or registration
    refers to an object created by the handler. *)
Theorem C9_what_if_frame
    (h : gmap nat DataFrame) (fdf : nat) (session : Session)
    (sales category date : option string) (w : World)
    (numeric : list string) (choice : nat) (pct : Qc) (clicked : bool)
    (r : res (option KpiData)) (w' : World) :
  run_kpis h fdf sales category date session = Ok w →
  what_if_tab sales category date numeric choice pct clicked w = (r, w') →
  same_roots w w'
  ∧ old_objects_kept w w'
  ∧ heap w' !! filtered_df w' = heap w !! filtered_df w
  ∧ kpi_queries (heap w') (con w') "sales_data" sales category date = Ok (kpi_data w)
  ∧ session_state w' = session
  ∧ (∀ l, reachable w' l → l ∈ dom (heap w)).
Proof.
  intros Hrun Htab.
  destruct (run_kpis_inv _ _ _ _ _ _ _ Hrun)
    as (df & Hdf & Hh & Hf & Hcon & Hsess & Hscan & Hk).
  destruct (what_if_tab_shape _ _ _ _ _ _ _ _ _ _ Htab) as [(Hf' & Hc' & Hk' & Hs') Hheap].
  assert (Hold : old_objects_kept w w').
  { intros l Hl. destruct Hheap as [-> | [df' ->]]; [done|].
    apply lookup_insert_ne. intros <-. by apply (is_fresh (dom (heap w))). }
  assert (Hlive : filtered_df w ∈ dom (heap w)).
  { rewrite Hh, Hf. apply elem_of_dom. by rewrite Hdf. }
  split; [done|]. split; [done|]. split; [|split; [|split]].
  - rewrite Hf'. by apply Hold.
  - rewrite <- Hk. apply kpi_queries_scan.
    rewrite Hc'. unfold DuckDB.scan. rewrite Hcon. unfold DuckDB.register.
    rewrite !lookup_insert_eq. rewrite <- Hh, <- Hf. by rewrite (Hold _ Hlive).
  - congruence.
  - intros l [Hl | [name Hl]].
    + rewrite <- Hl, Hf'. done.
    + rewrite Hc', Hcon in Hl. unfold DuckDB.register in Hl.
      apply lookup_insert_Some in Hl as [[_ <-] | [_ Hl]]; [|by rewrite lookup_empty in Hl].
      by rewrite <- Hf.
Qed.

(** A change of +25 % on Units in the sample table. *)
Lemma C9_what_if_frame_witness :
  ∃ r w',
    what_if_tab (Some "Revenue") (Some "Region") None ["Revenue"; "Units"] 1
      (Q2Qc 25) true sample_world = (r, w')
    ∧ same_roots sample_world w'
    ∧ old_objects_kept sample_world w'
    ∧ heap w' !! filtered_df w' = heap sample_world !! filtered_df sample_world
    ∧ kpi_queries (heap w') (con w') "sales_data" (Some "Revenue") (Some "Region") None
      = Ok (kpi_data sample_world)
    ∧ session_state w' = empty_session
    ∧ (∀ l, reachable w' l → l ∈ dom (heap sample_world)).
Proof.
  eexists _, _. split; [vm_compute; reflexivity|].
  eapply (C9_what_if_frame sample_heap 0 empty_session (Some "Revenue") (Some "Region")
            None sample_world ["Revenue"; "Units"] 1 (Q2Qc 25) true).
  - vm_compute. reflexivity.
  - vm_compute. reflexivity.
Defined.

(** C10.  From a computed baseline, for every percentage and every
    number column of the view, with the category column (if any) not a
    number column: the what-if goes through, and the updated transaction
    count and the updated number of unique categories are the baseline
    ones. *)
Theorem C10_what_if_keeps_counts
    (h : gmap nat DataFrame) (fdf : nat) (session : Session)
    (sales category date : option string) (w : World) (df : DataFrame)
    (numeric : list string) (choice : nat) (sel : string) (v : list (option Qc))
    (pct : Qc) :
  run_kpis h fdf sales category date session = Ok w →
  h !! fdf = Some df →
  numeric ≠ [] →
  selectbox numeric choice = Ok sel →
  lookup_col sel (data df) = Some (NumCol v) →
  names_category df category = true →
  ∃ k w',
    what_if_tab sales category date numeric choice pct true w = (Ok (Some k), w')
    ∧ total_transactions k = total_transactions (kpi_data w)
    ∧ unique_categories k = unique_categories (kpi_data w).
Proof.
  intros Hrun Hdf Hn Hsel Hv Hcat.
  destruct (what_if_succeeds h fdf session sales category date w df numeric choice
              sel v pct Hrun Hdf Hn Hsel Hv) as (k & pg & Htab & _ & Htt & Huc & _).
  destruct (run_kpis_inv _ _ _ _ _ _ _ Hrun)
    as (df0 & Hdf0 & Hh & Hf & Hcon & Hsess & Hscan & Hk).
  assert (df0 = df) as -> by congruence.
  destruct (kpi_queries_fit _ _ _ _ _ _ _ _ Hscan Hk) as (Hs & Hc & Hd).
  destruct (kpi_queries_total _ _ _ _ _ _ _ Hscan Hs Hc Hd)
    as (k0 & Hk0 & _ & Htt0 & Huc0 & _).
  assert (k0 = kpi_data w) as -> by congruence.
  eexists k, _. split; [exact Htab|]. split.
  - by rewrite Htt, Htt0.
  - rewrite Huc, Huc0. destruct category as [c|]; simpl; [|done].
    simpl in Hcat.
    assert (sel ≠ c).
    { intros ->. rewrite Hv in Hcat. done. }
    by rewrite lookup_assign_col_ne.
Qed.

(** A change of +25 % on Revenue in the sample table. *)
Lemma C10_what_if_keeps_counts_witness :
  ∃ k w',
    what_if_tab (Some "Revenue") (Some "Region") None ["Revenue"; "Units"] 0
      (Q2Qc 25) true sample_world = (Ok (Some k), w')
    ∧ total_transactions k = total_transactions (kpi_data sample_world)
    ∧ unique_categories k = unique_categories (kpi_data sample_world).
Proof.
  apply (C10_what_if_keeps_counts sample_heap 0 empty_session
           (Some "Revenue") (Some "Region") None sample_world sample_sales
           ["Revenue"; "Units"] 0 "Revenue"
           [Some (qz 10); Some (qz 20); Some (qz 30); Some (qz 40); Some (qz 50)]
           (Q2Qc 25)).
  - vm_compute. reflexivity.
  - vm_compute. reflexivity.
  - discriminate.
  - reflexivity.
  - reflexivity.
  - reflexivity.
Defined.

(** ** Instances on the sample table *)

(** The report of the sample table with its two number columns, every
    figure being delivered. *)
Lemma C1_two_numeric_columns_witness :
  dynamic_report (λ _ _, None) (select_number sample_numbers)
    (select_not_number sample_numbers) None (Some "Revenue") sample_numbers
  = Ok [ mkChartSlot 0 0 (Some "Scatter Plot")
           (PlotlyChart (px_scatter "Revenue" "Units" None "Units vs Revenue"));
         mkChartSlot 1 1 None (StInfo no_suitable) ].
Proof.
  exact (proj1 (C1_two_numeric_columns (λ _ _, None) sample_numbers sample_numbers
                  "Revenue" "Units" (Some "Revenue") eq_refl eq_refl)).
Defined.

(** Two filters on the sample table: rows 0, 2, 4 are East, rows 0, 3, 4
    are Web, and both orders keep rows 0 and 4. *)
Lemma C3_filters_commute_witness :
  let east := ("Region", [SStr "East"]) in
  let web := ("Channel", [SStr "Web"]) in
  NoDup (index sample_sales)
  ∧ [east; web] ≡ₚ [web; east]
  ∧ value_of (data_filtering [east; web] sample_sales)
    = value_of (data_filtering [web; east] sample_sales)
  ∧ (∃ out, data_filtering [east; web] sample_sales = Ok out
            ∧ index out = [0; 4]%nat
            ∧ index_set out
              = rows_kept east sample_sales
                ∩ (rows_kept web sample_sales ∩ index_set sample_sales))
  ∧ value_of (apply_filter_set None (mkFilterSet 0 0 [east]) sample_sales
              ≫= apply_filter_set None (mkFilterSet 0 0 [web]))
    = value_of (apply_filter_set None (mkFilterSet 0 0 [web]) sample_sales
                ≫= apply_filter_set None (mkFilterSet 0 0 [east])).
Proof.
  intros east web.
  destruct (C3_filters_commute None sample_sales) as (Hcomm & Hperm & Hinter).
  assert (Hnd : NoDup (index sample_sales)).
  { apply (bool_decide_eq_true_1 (NoDup (index sample_sales))). vm_compute. reflexivity. }
  assert (Hp : [east; web] ≡ₚ [web; east]) by apply Permutation_swap.
  split; [exact Hnd|]. split; [exact Hp|]. split; [exact (Hperm _ _ Hp)|]. split.
  - eexists. split; [vm_compute; reflexivity|]. split; [reflexivity|].
    apply (Hinter Hnd [east; web]). vm_compute. reflexivity.
  - apply Hcomm.
Defined.


(** ** The storyteller *)

Section StorytellerFacts.
Variable materialize : Figure → DataFrame → option string.
Variables sales_column category_column date_column : option string.

Abbreviation steps_ := (story_steps sales_column category_column date_column).
Abbreviation storyteller_ :=
  (storyteller materialize sales_column category_column date_column).

Lemma show_step_page (step_data : StoryStep) (w : World) :
  ∃ pg, show_step materialize step_data w = (Ok (), with_page pg w).
Proof.
  unfold show_step, try_except. rewrite M_bind_run. unfold act, deref.
  destruct (heap w !! filtered_df w) as [df|].
  - rewrite M_bind_run. unfold lift.
    destruct (visualization_function step_data _) as [fig|e].
    + destruct (materialize fig df); unfold st_write, lift; by eexists.
    + unfold st_write. by eexists.
  - unfold st_write. by eexists.
Qed.

Lemma set_story_step_same (s : Session) :
  match story_step s with
  | None => set_story_step 0 s
  | Some _ => s
  end = set_story_step (default 0%nat (story_step s)) s.
Proof. by destruct s as [[c|] ? ? ? ? ?]. Qed.

(** One run of the tab never raises; it changes the session's cursor as
    [next_cursor] says and nothing else but the page, and asks for a rerun
    exactly when the cursor was written by a button. *)
Lemma storyteller_run (clicked : option string) (w : World) :
  ∃ rerun pg,
    storyteller_ clicked w
    = (Ok rerun,
       mkWorld (heap w) (filtered_df w) (con w) (kpi_data w)
         (set_story_step (next_cursor clicked (cursor w) (length steps_)) (session_state w))
         pg)
    ∧ (clicked = None → rerun = false).
Proof.
  unfold storyteller, next_cursor, cursor. rewrite M_bind_run. unfold act.
  set (w0 := match story_step (session_state w) with
             | None => with_session (set_story_step 0 (session_state w)) w
             | Some _ => w
             end).
  assert (Hw0 : w0 = with_session (set_story_step (default 0%nat (story_step (session_state w)))
                                     (session_state w)) w).
  { subst w0. rewrite <- set_story_step_same.
    destruct (story_step (session_state w)); [by destruct w | done]. }
  rewrite Hw0. clear w0 Hw0.
  set (cur := default 0%nat (story_step (session_state w))).
  case_bool_decide as Hsteps.
  { rewrite Hsteps. simpl. rewrite M_bind_run. unfold st_write, mret, M_ret.
    eexists _, _. split; [reflexivity | done]. }
  rewrite (bool_decide_eq_false_2 (length steps_ = 0%nat))
    by (by destruct steps_).
  rewrite M_bind_run.
  change (default 0%nat (story_step (session_state
            (with_session (set_story_step cur (session_state w)) w)))) with cur.
  destruct (decide (cur < length steps_)%nat) as [Hlt|Hge];
    [rewrite !(bool_decide_eq_true_2 (cur < length steps_)%nat) by done
    |rewrite !(bool_decide_eq_false_2 (cur < length steps_)%nat) by done].
  - rewrite M_bind_run. unfold lift.
    destruct (lookup_lt_is_Some_2 _ _ Hlt) as [step Hstep].
    unfold getitem. rewrite Hstep.
    rewrite M_bind_run. unfold st_write at 1.
    rewrite M_bind_run.
    match goal with |- context [show_step materialize step ?w1] =>
      destruct (show_step_page step w1) as (pg & ->) end.
    destruct (button clicked "Next") eqn:Hb.
    + rewrite M_bind_run. unfold mret, M_ret. simpl.
      eexists _, _. split; [reflexivity|]. intros ->. done.
    + unfold mret, M_ret. simpl. eexists _, _. split; [reflexivity | done].
  - rewrite M_bind_run. unfold st_write at 1.
    destruct (button clicked "Restart Story") eqn:Hb.
    + rewrite M_bind_run. unfold mret, M_ret. simpl.
      eexists _, _. split; [reflexivity|]. intros ->. done.
    + unfold mret, M_ret. simpl. eexists _, _. split; [reflexivity | done].
Qed.

Lemma next_cursor_no_click (cur n : nat) : next_cursor None cur n = cur.
Proof. unfold next_cursor, button. by repeat case_bool_decide. Qed.

(** A click followed by the rerun it may trigger. *)
Lemma after_click_run (clicked : option string) (w : World) :
  ∃ pg,
    after_click materialize sales_column category_column date_column clicked w
    = mkWorld (heap w) (filtered_df w) (con w) (kpi_data w)
        (set_story_step (next_cursor clicked (cursor w) (length steps_)) (session_state w))
        pg.
Proof.
  unfold after_click, story_interaction. rewrite M_bind_run. unfold act at 1.
  rewrite M_bind_run.
  destruct (storyteller_run clicked (with_page [] w)) as (rerun & pg & -> & _).
  destruct rerun; [|unfold mret, M_ret; by eexists].
  rewrite M_bind_run. unfold act.
  match goal with |- context [storyteller_ None ?w1] =>
    destruct (storyteller_run None w1) as (rerun & pg' & -> & _) end.
  unfold cursor. simpl. rewrite next_cursor_no_click. by eexists.
Qed.

Lemma after_click_cursor (clicked : option string) (w : World) :
  cursor (after_click materialize sales_column category_column date_column clicked w)
  = next_cursor clicked (cursor w) (length steps_).
Proof. destruct (after_click_run clicked w) as (pg & ->). done. Qed.

Lemma next_cursor_bound (clicked : option string) (cur n : nat) :
  (cur ≤ n)%nat → (next_cursor clicked cur n ≤ n)%nat.
Proof.
  unfold next_cursor. intros. repeat case_bool_decide; repeat case_match; lia.
Qed.

Lemma after_clicks_bound (clicks : list (option string)) (w : World) :
  (cursor w ≤ length steps_)%nat →
  (cursor (after_clicks materialize sales_column category_column date_column clicks w)
   ≤ length steps_)%nat.
Proof.
  revert w. induction clicks as [|c clicks IH]; intros w Hw; simpl; [done|].
  apply IH. rewrite after_click_cursor. by apply next_cursor_bound.
Qed.

(** At the end of the story a run without a click shows the closing
    message and nothing else. *)
Lemma storyteller_terminal (w : World) :
  steps_ ≠ [] → (length steps_ ≤ cursor w)%nat →
  ∃ w', storyteller_ None w = (Ok false, w')
        ∧ page w' = page w ++ [StSuccess "End of the data story!"].
Proof.
  intros Hsteps Hge.
  unfold storyteller, cursor in *.
  rewrite !M_bind_run. unfold act.
  rewrite bool_decide_eq_false_2 by done. rewrite M_bind_run.
  set (w0 := match story_step (session_state w) with
             | None => with_session (set_story_step 0 (session_state w)) w
             | Some _ => w
             end).
  assert (Hc : default 0%nat (story_step (session_state w0))
               = default 0%nat (story_step (session_state w))).
  { subst w0. destruct (story_step (session_state w)) eqn:E; simpl; by rewrite ?E. }
  assert (Hp : page w0 = page w).
  { subst w0. by destruct (story_step (session_state w)). }
  rewrite Hc. rewrite bool_decide_eq_false_2 by lia.
  rewrite M_bind_run. unfold st_write, button.
  rewrite bool_decide_eq_false_2 by done. unfold mret, M_ret.
  eexists. split; [reflexivity|]. simpl. by rewrite Hp.
Qed.

Lemma storyteller_terminal_page (w : World) :
  steps_ ≠ [] → (length steps_ ≤ cursor w)%nat →
  page (after_click materialize sales_column category_column date_column None w)
  = [StSuccess "End of the data story!"].
Proof.
  intros Hsteps Hge.
  unfold after_click, story_interaction. rewrite M_bind_run. unfold act at 1.
  rewrite M_bind_run.
  destruct (storyteller_terminal (with_page [] w) Hsteps) as (w' & -> & Hp);
    [by destruct w|].
  unfold mret, M_ret. simpl. by rewrite Hp.
Qed.

End StorytellerFacts.

(** C6.  With the sales column as the only role the story is the single
    histogram step.  For every role selection: the cursor is 0 while the
    session has no cursor yet, and the first run stores 0; from a cursor
    within the story, a click on "Next" moves it to
    [min(cursor + 1, len(steps))]; no sequence of clicks takes the cursor
    beyond [len(steps)]; at [len(steps)] the page shows the closing
    message, and a click on "Restart Story" puts the cursor back to 0. *)
Theorem C6_story_cursor (m : Figure → DataFrame → option string) :
  (∀ s,
     story_steps (Some s) None None
     = [mkStoryStep ("What is the distribution of " +:+ s +:+ "?")
          histogram_step (Column s)])
  ∧ (∀ sales category date (w : World),
       story_step (session_state w) = None →
       cursor w = 0%nat
       ∧ story_step (session_state (after_click m sales category date None w))
         = Some 0%nat)
  ∧ (∀ sales category date (w : World),
       (cursor w ≤ length (story_steps sales category date))%nat →
       cursor (after_click m sales category date (Some "Next") w)
       = ((cursor w + 1) `min` length (story_steps sales category date))%nat)
  ∧ (∀ sales category date clicks (w : World),
       (cursor w ≤ length (story_steps sales category date))%nat →
       (cursor (after_clicks m sales category date clicks w)
        ≤ length (story_steps sales category date))%nat)
  ∧ (∀ sales category date (w : World),
       story_steps sales category date ≠ [] →
       cursor w = length (story_steps sales category date) →
       page (after_click m sales category date None w)
       = [StSuccess "End of the data story!"]
       ∧ cursor (after_click m sales category date (Some "Restart Story") w) = 0%nat).
Proof.
  split; [done|]. split; [|split; [|split]].
  - intros sales category date w Hnone. split.
    + unfold cursor. by rewrite Hnone.
    + destruct (after_click_run m sales category date None w) as (pg & ->).
      simpl. rewrite next_cursor_no_click. unfold cursor. by rewrite Hnone.
  - intros sales category date w Hle. rewrite after_click_cursor.
    unfold next_cursor, button. rewrite (bool_decide_eq_true_2 (Some "Next" = Some "Next")) by done.
    repeat case_bool_decide; try discriminate; lia.
  - intros. by apply after_clicks_bound.
  - intros sales category date w Hsteps Hcur. split.
    + apply storyteller_terminal_page; [done | lia].
    + rewrite after_click_cursor. unfold next_cursor, button.
      rewrite (bool_decide_eq_true_2 (Some "Restart Story" = Some "Restart Story")) by done.
      assert (length (story_steps sales category date) ≠ 0%nat)
        by (by destruct (story_steps _ _ _)).
      repeat case_bool_decide; try discriminate; lia.
Qed.

(** The story of the sample table with Revenue as the only role: one
    step; "Next" from 0 reaches 1, the end; "Next" again stays at 1;
    "Restart Story" returns to 0. *)
Lemma C6_story_cursor_witness :
  let m : Figure → DataFrame → option string := λ _ _, None in
  let after := after_clicks m (Some "Revenue") None None in
  length (story_steps (Some "Revenue") None None) = 1%nat
  ∧ cursor sample_world = 0%nat
  ∧ cursor (after [Some "Next"] sample_world) = 1%nat
  ∧ cursor (after [Some "Next"; Some "Next"] sample_world) = 1%nat
  ∧ page (after [Some "Next"; None] sample_world)
    = [StSuccess "End of the data story!"]
  ∧ cursor (after [Some "Next"; Some "Restart Story"] sample_world) = 0%nat.
Proof.
  intros m after.
  destruct (C6_story_cursor m) as (Hone & Hinit & Hnext & Hbound & Hend).
  split; [by rewrite Hone|]. split; [apply (Hinit None None None); reflexivity|].
  assert (H1 : cursor (after [Some "Next"] sample_world) = 1%nat).
  { unfold after. simpl. rewrite Hnext; [reflexivity | simpl; unfold cursor; simpl; lia]. }
  split; [exact H1|]. split; [|split].
  - unfold after in *. simpl in *. rewrite Hnext; rewrite H1; [reflexivity | simpl; lia].
  - vm_compute. reflexivity.
  - unfold after in *. simpl in *.
    apply (Hend (Some "Revenue") None None); [done | by rewrite H1].
Defined.

(** ** The trivia generator *)

Section SortFacts.
Context {A : Type} (le : A → A → bool).

Lemma insert_sorted_perm (x : A) (l : list A) : insert_sorted le x l ≡ₚ x :: l.
Proof.
  induction l as [|y l IH]; simpl; [done|].
  destruct (le x y); [done|]. rewrite IH. apply Permutation_swap.
Qed.

Lemma sort_by_perm (l : list A) : sort_by le l ≡ₚ l.
Proof.
  unfold sort_by. induction l as [|x l IH]; simpl; [done|].
  by rewrite insert_sorted_perm, IH.
Qed.

Hypothesis le_total : ∀ a b, le a b = true ∨ le b a = true.
Hypothesis le_trans : ∀ a b c, le a b = true → le b c = true → le a c = true.

Lemma insert_sorted_sorted (x : A) (l : list A) :
  StronglySorted (λ a b, le a b = true) l →
  StronglySorted (λ a b, le a b = true) (insert_sorted le x l).
Proof.
  induction 1 as [|y l Hl IH Hy]; simpl.
  - repeat constructor.
  - destruct (le x y) eqn:Hxy.
    + constructor; [by constructor|]. constructor; [done|].
      eapply Forall_impl; [exact Hy|]. intros z Hz. by eapply le_trans.
    + constructor; [done|].
      rewrite insert_sorted_perm. constructor; [|done].
      destruct (le_total x y); congruence.
Qed.

Lemma sort_by_sorted (l : list A) : StronglySorted (λ a b, le a b = true) (sort_by le l).
Proof.
  unfold sort_by. induction l as [|x l IH]; simpl; [constructor|].
  by apply insert_sorted_sorted.
Qed.

End SortFacts.

Lemma StronglySorted_take {A} (R : A → A → Prop) (n : nat) (l : list A) :
  StronglySorted R l → StronglySorted R (take n l).
Proof.
  intros H. revert n. induction H as [|x l Hl IH Hx]; intros [|n]; simpl; try constructor.
  - apply IH.
  - by apply Forall_take.
Qed.

Lemma StronglySorted_last {A} (R : A → A → Prop) (kept : list A) (last : A) :
  StronglySorted R (kept ++ [last]) → Forall (λ y, R y last) kept.
Proof.
  induction kept as [|x kept IH]; simpl; [constructor|].
  intros H. apply StronglySorted_inv in H as [Hs Hx].
  constructor; [|by apply IH].
  rewrite Forall_app, Forall_singleton in Hx. by destruct Hx.
Qed.

Lemma elem_of_unique (x : scalar) (l : list scalar) : x ∈ Pandas.unique l ↔ x ∈ l.
Proof.
  unfold Pandas.unique. by rewrite elem_of_reverse, elem_of_remove_dups, elem_of_reverse.
Qed.

Lemma count_not_elem_of (x : scalar) (l : list scalar) :
  x ∉ l → Pandas.count x l = 0%nat.
Proof.
  unfold Pandas.count. induction l as [|y l IH]; [done|].
  rewrite not_elem_of_cons. intros [Hne Hl]. rewrite filter_cons.
  destruct (decide (y = x)); [congruence | by apply IH].
Qed.

Lemma count_le_max (x : scalar) (present : list scalar) :
  (Pandas.count x present ≤ max_list ((λ y, Pandas.count y present) <$> present))%nat.
Proof.
  destruct (decide (x ∈ present)) as [Hin|Hnin].
  - apply max_list_elem_of_le. apply list_elem_of_fmap. by exists x.
  - rewrite count_not_elem_of by done. lia.
Qed.

Lemma swap_perm {A} (i j : nat) (x : list A) : Random.swap i j x ≡ₚ x.
Proof.
  unfold Random.swap.
  destruct (x !! i) as [a|] eqn:Hi; [|done].
  destruct (x !! j) as [b|] eqn:Hj; [|done].
  by apply Permutation_insert_swap.
Qed.

Lemma shuffle_from_perm {A} (i : nat) (x : list A) (g : list nat) :
  (Random.shuffle_from i x g).1 ≡ₚ x.
Proof.
  revert x g. induction i as [|i IH]; intros x g; [done|].
  cbn [Random.shuffle_from]. destruct (Random.randbelow (S i + 1) g) as [j g'].
  rewrite IH. apply swap_perm.
Qed.

Lemma shuffle_perm {A} (x : list A) (g : list nat) : (Random.shuffle x g).1 ≡ₚ x.
Proof. apply shuffle_from_perm. Qed.

Lemma choice_elem_of {A} (seq : list A) (g g' : list nat) (x : A) :
  Random.choice seq g = Ok (x, g') → x ∈ seq.
Proof.
  unfold Random.choice. case_bool_decide; [done|].
  destruct (Random.randbelow (length seq) g) as [j g1].
  unfold getitem. destruct (seq !! j) eqn:Hj; simpl; [|done].
  intros; simplify_eq. by eapply list_elem_of_lookup_2.
Qed.

Lemma set_last_inv {A} (l l' : list A) (x : A) :
  set_last l x = Ok l' → ∃ kept last, l = kept ++ [last] ∧ l' = kept ++ [x].
Proof.
  destruct l as [|y l0] using rev_ind; [done|].
  unfold set_last. destruct (l0 ++ [y]) eqn:E; [by destruct l0|]. rewrite <- E.
  intros; simplify_eq. exists l0, y. split; [done|].
  rewrite length_app. simpl.
  replace (length l0 + 1 - 1)%nat with (length l0 + 0)%nat by lia.
  by rewrite insert_app_r.
Qed.

Section ValueCounts.
Variable s : Series.

Abbreviation present_ := (dropna s).
Abbreviation by_count :=
  (λ a b : scalar * nat, bool_decide (b.2 ≤ a.2)%nat).

Lemma value_counts_fst : (value_counts s).*1 ≡ₚ Pandas.unique present_.
Proof.
  unfold value_counts. rewrite sort_by_perm.
  rewrite <- list_fmap_compose. by rewrite list_fmap_id.
Qed.

Lemma value_counts_snd (p : scalar * nat) :
  p ∈ value_counts s → p.2 = Pandas.count p.1 present_.
Proof.
  unfold value_counts. rewrite sort_by_perm. intros (x & -> & _)%list_elem_of_fmap. done.
Qed.

Lemma value_counts_sorted :
  StronglySorted (λ a b : scalar * nat, by_count a b = true) (value_counts s).
Proof.
  unfold value_counts. apply sort_by_sorted.
  - intros a b. rewrite !bool_decide_eq_true. lia.
  - intros a b c. rewrite !bool_decide_eq_true. lia.
Qed.

Lemma top4_length :
  length (nlargest 4 (value_counts s)).*1 = (4 `min` length (Pandas.unique present_))%nat.
Proof.
  unfold nlargest. rewrite length_fmap, length_take.
  rewrite <- (Permutation_length value_counts_fst), length_fmap. done.
Qed.

(** The last of the top four is a least frequent one among them. *)
Lemma top4_last_least (kept : list scalar) (last : scalar) :
  (nlargest 4 (value_counts s)).*1 = kept ++ [last] →
  ∀ y, y ∈ kept ++ [last] → (Pandas.count last present_ ≤ Pandas.count y present_)%nat.
Proof.
  unfold nlargest. intros Htop.
  pose proof (StronglySorted_take _ 4 _ value_counts_sorted) as Hsorted.
  assert (Hsnd : ∀ p, p ∈ take 4 (value_counts s) → p.2 = Pandas.count p.1 present_).
  { intros p Hp. apply value_counts_snd.
    rewrite <- (take_drop 4 (value_counts s)). apply elem_of_app. by left. }
  apply fmap_app_inv in Htop as (kp & lp & -> & Hlp & Ht).
  destruct lp as [|pl [|? ?]]; simplify_eq/=.
  rewrite Ht in Hsorted, Hsnd.
  apply StronglySorted_last in Hsorted.
  intros y [Hy | ->%list_elem_of_singleton]%elem_of_app; [|done].
  apply list_elem_of_fmap in Hy as (py & -> & Hpy).
  rewrite Forall_forall in Hsorted. specialize (Hsorted _ Hpy).
  apply bool_decide_eq_true in Hsorted.
  rewrite <- (Hsnd pl), <- (Hsnd py); [done | |]; set_solver.
Qed.

(** [mode()[0]] is a present entry of maximal frequency. *)
Lemma mode_0_is_mode (x : scalar) :
  mode_0 s = Ok x →
  x ∈ present_ ∧ ∀ y, (Pandas.count y present_ ≤ Pandas.count x present_)%nat.
Proof.
  unfold mode_0. destruct (Pandas.mode s) as [|x0 l] eqn:Hm; [done|].
  intros; simplify_eq.
  assert (Hin : x ∈ Pandas.mode s) by (rewrite Hm; set_solver).
  unfold Pandas.mode in Hin. cbv zeta in Hin. rewrite sort_by_perm in Hin.
  apply list_elem_of_filter in Hin as [Hcount Hu]. rewrite elem_of_unique in Hu.
  split; [done|]. intros y. rewrite Hcount. apply count_le_max.
Qed.

End ValueCounts.

Lemma res_bind_inv {A B} (r : res A) (f : A → res B) (b : B) :
  r ≫= f = Ok b → ∃ a, r = Ok a ∧ f a = Ok b.
Proof. destruct r as [a|]; [by exists a | done]. Qed.

(** C5, refuted as stated: on the sample table the Region column has two
    distinct values, so the question on Region comes with two options;
    and on the table filtered down to no rows the answer is the
    placeholder "N/A" and the list of options is empty. *)
Lemma C5_fewer_than_four_options :
  (∃ question answer options g',
     generate_trivia_question sample_sales ["Revenue"; "Units"] ["Region"; "Channel"]
       [1; 0]%nat = Ok (Some (question, answer, options), g')
     ∧ length options = 2%nat)
  ∧ (∃ question g',
       generate_trivia_question (loc_mask sample_sales []) ["Revenue"; "Units"]
         ["Region"; "Channel"] [1; 0]%nat
       = Ok (Some (question, not_applicable, []), g')
       ∧ not_applicable ∉ (@nil scalar)).
Proof.
  split.
  - eexists _, _, _, _. split; [vm_compute; reflexivity | reflexivity].
  - eexists _, _. split; [vm_compute; reflexivity | set_solver].
Qed.

Lemma empty_dropna (s : Series) : Pandas.empty s = true → dropna s = [].
Proof.
  unfold Pandas.empty, Pandas.size, dropna. intros H%bool_decide_eq_true.
  by destruct (Pandas.values s).
Qed.

(** C5, as the code has it.  A generated question is one of two kinds.
    The "average" question has a list of exactly four options (possibly
    with repetitions) that contains the correct answer.  The
    "most frequent" question on a column has as many options as the
    column has distinct present values, at most four.  On a column
    without rows the answer is the placeholder "N/A" and there is no
    option; otherwise the answer is a present value of maximal frequency.
    Whenever the answer is not the placeholder it is among the options:
    the options are a reordering of the top four of [value_counts], in
    which the answer, if it was not among them, has replaced the last,
    a least frequent one of them. *)
Theorem C5_trivia_options (df : DataFrame) (num_cols cat_cols : list string)
    (g g' : list nat) (question : string) (answer : scalar) (options : list scalar) :
  generate_trivia_question df num_cols cat_cols g
  = Ok (Some (question, answer, options), g') →
  (∃ col, col ∈ num_cols
          ∧ question = "What is the average value of '" +:+ col +:+ "'?"
          ∧ length options = 4%nat ∧ answer ∈ options)
  ∨ (∃ col s, col ∈ cat_cols ∧ get df col = Ok s
       ∧ question = "Which category appears most frequently in '" +:+ col +:+ "'?"
       ∧ length options = (4 `min` length (Pandas.unique (dropna s)))%nat
       ∧ (Pandas.empty s = true → answer = not_applicable ∧ options = [])
       ∧ (Pandas.empty s = false →
          answer ∈ dropna s
          ∧ ∀ y, (Pandas.count y (dropna s) ≤ Pandas.count answer (dropna s))%nat)
       ∧ (answer ≠ not_applicable → answer ∈ options)
       ∧ (answer = not_applicable ∨ answer ∈ (nlargest 4 (value_counts s)).*1 →
          options ≡ₚ (nlargest 4 (value_counts s)).*1)
       ∧ (answer ≠ not_applicable → answer ∉ (nlargest 4 (value_counts s)).*1 →
          ∃ kept last,
            (nlargest 4 (value_counts s)).*1 = kept ++ [last]
            ∧ options ≡ₚ kept ++ [answer]
            ∧ ∀ y, y ∈ kept ++ [last] →
                   (Pandas.count last (dropna s) ≤ Pandas.count y (dropna s))%nat)).
Proof.
  intros H. unfold generate_trivia_question in H.
  destruct (bool_decide (num_cols = []) && bool_decide (cat_cols = [])); [done|].
  apply res_bind_inv in H as ([qt g1] & Hqt & H).
  destruct (bool_decide (qt = "average") && bool_decide (num_cols ≠ [])).
  - left.
    apply res_bind_inv in H as ([col g2] & Hcol & H).
    apply res_bind_inv in H as (s & Hs & H).
    apply res_bind_inv in H as (correct & Hmean & H).
    apply res_bind_inv in H as (s1 & Hs1 & H).
    apply res_bind_inv in H as (med & Hmed & H).
    apply res_bind_inv in H as (s2 & Hs2 & H).
    apply res_bind_inv in H as (lo & Hlo & H).
    apply res_bind_inv in H as (s3 & Hs3 & H).
    apply res_bind_inv in H as (hi & Hhi & H).
    pose proof (shuffle_perm
                  [format_2f correct; format_2f med; format_2f lo; format_2f hi] g2) as Hp.
    destruct (Random.shuffle _ g2) as [opts g3]. simpl in Hp. simplify_eq.
    exists col. split; [by eapply choice_elem_of|]. split; [done|]. split.
    + by rewrite length_fmap, (Permutation_length Hp).
    + apply list_elem_of_fmap. exists (format_2f correct). split; [done|].
      rewrite Hp. set_solver.
  - destruct (bool_decide (qt = "value_counts") && bool_decide (cat_cols ≠ []));
      [|done].
    right.
    apply res_bind_inv in H as ([col g2] & Hcol & H).
    apply res_bind_inv in H as (s & Hs & H).
    apply res_bind_inv in H as (top_value & Htop & H).
    apply res_bind_inv in H as (s1 & Hs1 & H).
    assert (s1 = s) as -> by congruence.
    apply res_bind_inv in H as (picked & Hpicked & H).
    pose proof (shuffle_perm picked g2) as Hp.
    destruct (Random.shuffle picked g2) as [opts g3]. simpl in Hp. simplify_eq.
    set (top4 := (nlargest 4 (value_counts s)).*1) in *.
    exists col, s. split; [by eapply choice_elem_of|]. split; [done|]. split; [done|].
    assert (Hlen : length picked = length top4).
    { destruct (bool_decide (answer ≠ not_applicable) && bool_decide (answer ∉ top4));
        [|by simplify_eq].
      apply set_last_inv in Hpicked as (kept & last & -> & ->).
      by rewrite !length_app. }
    assert (Hkeep : answer = not_applicable ∨ answer ∈ top4 → picked = top4).
    { intros Hor.
      destruct (bool_decide (answer ≠ not_applicable) && bool_decide (answer ∉ top4)) eqn:Hb;
        [|by simplify_eq].
      apply andb_true_iff in Hb as [Hne%bool_decide_eq_true Hnin%bool_decide_eq_true].
      by destruct Hor. }
    assert (Hrepl : answer ≠ not_applicable → answer ∉ top4 →
                    ∃ kept last, top4 = kept ++ [last] ∧ picked = kept ++ [answer]).
    { intros Hne Hnin.
      rewrite (bool_decide_eq_true_2 _ Hne), (bool_decide_eq_true_2 _ Hnin) in Hpicked.
      by apply set_last_inv in Hpicked. }
    split; [|split; [|split; [|split; [|split]]]].
    + rewrite (Permutation_length Hp), Hlen. apply top4_length.
    + intros Hempty. rewrite Hempty in Htop. simpl in Htop. simplify_eq.
      split; [done|].
      rewrite (Hkeep (or_introl eq_refl)) in Hp.
      assert (Htop4 : top4 = []).
      { apply length_zero_iff_nil. unfold top4. rewrite top4_length.
        by rewrite empty_dropna. }
      rewrite Htop4 in Hp. by apply Permutation_nil_r in Hp.
    + intros Hempty. rewrite Hempty in Htop. simpl in Htop.
      by apply mode_0_is_mode.
    + intros Hne. rewrite Hp.
      destruct (decide (answer ∈ top4)) as [Hin|Hnin].
      * by rewrite Hkeep by auto.
      * destruct (Hrepl Hne Hnin) as (kept & last & _ & ->). set_solver.
    + intros Hor. by rewrite Hp, Hkeep.
    + intros Hne Hnin. destruct (Hrepl Hne Hnin) as (kept & last & Ht & ->).
      exists kept, last. split; [done|]. split; [done|].
      by apply top4_last_least.
Qed.

(** On the column of five letters the answer "a" is not among the first
    four of [value_counts] ("e", "d", "c", "b") and takes the place of
    "b". *)
Lemma C5_trivia_options_witness :
  generate_trivia_question sample_letters [] ["Letter"] [1; 0; 2; 1; 0]%nat
  = Ok (Some ("Which category appears most frequently in 'Letter'?", SStr "a",
              [SStr "a"; SStr "e"; SStr "d"; SStr "c"]), [])
  ∧ ∃ kept last,
      (nlargest 4 (value_counts (Pandas.ObjCol [Some "e"; Some "d"; Some "c";
                                                 Some "b"; Some "a"]))).*1
      = kept ++ [last]
      ∧ [SStr "a"; SStr "e"; SStr "d"; SStr "c"] ≡ₚ kept ++ [SStr "a"].
Proof.
  assert (Hrun : generate_trivia_question sample_letters [] ["Letter"] [1; 0; 2; 1; 0]%nat
                 = Ok (Some ("Which category appears most frequently in 'Letter'?",
                             SStr "a", [SStr "a"; SStr "e"; SStr "d"; SStr "c"]), []))
    by (vm_compute; reflexivity).
  split; [exact Hrun|].
  destruct (C5_trivia_options _ _ _ _ _ _ _ _ Hrun)
    as [(col & Hcol & _) | (col & s & Hcol & Hs & _ & _ & _ & _ & _ & _ & Hrepl)].
  - by apply elem_of_nil in Hcol.
  - apply list_elem_of_singleton in Hcol as ->.
    assert (s = Pandas.ObjCol [Some "e"; Some "d"; Some "c"; Some "b"; Some "a"]) as ->
      by (vm_compute in Hs; by simplify_eq).
    destruct Hrepl as (kept & last & Htop & Hperm & _).
    + discriminate.
    + vm_compute. intros Hin.
      repeat (apply elem_of_cons in Hin as [Hin|Hin]; [discriminate|]).
      by apply elem_of_nil in Hin.
    + by exists kept, last.
Defined.

(** ** What lines 31-81 establish

    The properties the tabs rely on: after loading, the sales column and
    every column offered by the what-if select box are number columns of
    the filtered frame, the category column is not, the sales column has
    no missing entry, and the row labels are still distinct. *)

Section LoadFacts.
Variable parse_number : string → option Qc.
Variable parse_datetime : string → option Z.

Lemma selectbox_elem_of {A} (options : list A) (choice : nat) (x : A) :
  selectbox options choice = Ok x → x ∈ options.
Proof.
  unfold selectbox, getitem.
  destruct (options !! choice) eqn:H1; [intros; simplify_eq; by eapply list_elem_of_lookup_2|].
  destruct (options !! 0%nat) eqn:H2; [|done].
  intros; simplify_eq. by eapply list_elem_of_lookup_2.
Qed.

Lemma lookup_col_NoDup (c : string) (s : Series) (d : list (string * Series)) :
  NoDup d.*1 → (c, s) ∈ d → lookup_col c d = Some s.
Proof.
  induction d as [|[c' s'] d IH]; simpl; [by intros _ ?%elem_of_nil|].
  intros [Hc' Hd]%NoDup_cons [Heq | Hin]%elem_of_cons.
  - simplify_eq. by rewrite decide_True.
  - rewrite decide_False; [by apply IH|].
    intros ->. apply Hc'. apply list_elem_of_fmap. by exists (c, s).
Qed.

Lemma select_number_lookup (df : DataFrame) (c : string) :
  NoDup (Pandas.columns df) → c ∈ select_number df →
  ∃ v, lookup_col c (data df) = Some (NumCol v).
Proof.
  unfold select_number, Pandas.columns.
  intros Hnd ([c' s] & -> & [Hnum Hin]%list_elem_of_filter)%list_elem_of_fmap.
  simpl in *. destruct s; try done. eexists. by apply lookup_col_NoDup.
Qed.

Lemma select_not_number_lookup (df : DataFrame) (c : string) :
  NoDup (Pandas.columns df) → c ∈ select_not_number df →
  ∃ s, lookup_col c (data df) = Some s ∧ is_number s = false.
Proof.
  unfold select_not_number, Pandas.columns.
  intros Hnd ([c' s] & -> & [Hnum Hin]%list_elem_of_filter)%list_elem_of_fmap.
  simpl in *. exists s. split; [by apply lookup_col_NoDup | done].
Qed.

Lemma data_filtering_keeps (P : Series → Prop) (fs : list (string * list scalar))
    (df out : DataFrame) (c : string) (s : Series) :
  mask_stable P →
  data_filtering fs df = Ok out →
  lookup_col c (data df) = Some s → P s →
  ∃ s', lookup_col c (data out) = Some s' ∧ P s'.
Proof.
  intros HP. revert df s. induction fs as [|[col allowed] fs IH]; intros df s Hrun Hc Hs.
  - simpl in Hrun. simplify_eq. eauto.
  - simpl in Hrun. apply res_bind_inv in Hrun as (s0 & _ & Hrun).
    eapply IH; [exact Hrun | | exact (HP (isin s0 allowed) _ Hs)].
    simpl. by rewrite lookup_col_masked, Hc.
Qed.

Lemma date_range_filter_keeps (P : Series → Prop) (date : option string) (d1 d2 : Z)
    (df out : DataFrame) (c : string) (s : Series) :
  mask_stable P →
  date_range_filter date d1 d2 df = Ok out →
  lookup_col c (data df) = Some s → P s →
  ∃ s', lookup_col c (data out) = Some s' ∧ P s'.
Proof.
  intros HP Hrun Hc Hs. destruct date as [cd|]; simpl in Hrun; [|simplify_eq; eauto].
  apply res_bind_inv in Hrun as (s1 & _ & Hrun).
  apply res_bind_inv in Hrun as (dates1 & _ & Hrun).
  apply res_bind_inv in Hrun as (s2 & _ & Hrun).
  apply res_bind_inv in Hrun as (dates2 & _ & Hrun).
  simplify_eq.
  exists (select_series (mask_and (ge_date dates1 d1) (le_date dates2 d2)) s).
  split; [|by apply HP].
  simpl. by rewrite lookup_col_masked, Hc.
Qed.

Lemma is_number_stable (b : bool) : mask_stable (λ s, is_number s = b).
Proof. intros m []; done. Qed.

Lemma all_present_stable : mask_stable all_present.
Proof.
  intros m [v| |]; simpl; try done. intros Hall.
  rewrite Forall_forall in *. intros x Hx%select_elem_of. auto.
Qed.

Lemma select_sublist {A} (m : list bool) (xs : list A) : Pandas.select m xs `sublist_of` xs.
Proof.
  revert xs. induction m as [|b m IH]; intros [|x xs]; simpl; try apply sublist_nil_l.
  destruct b; [by apply sublist_skip | by apply sublist_cons].
Qed.

Lemma data_filtering_NoDup (fs : list (string * list scalar)) (df out : DataFrame) :
  data_filtering fs df = Ok out → NoDup (index df) → NoDup (index out).
Proof.
  revert df. induction fs as [|[col allowed] fs IH]; intros df Hrun Hnd; simpl in Hrun.
  - by simplify_eq.
  - apply res_bind_inv in Hrun as (s0 & _ & Hrun).
    eapply IH; [exact Hrun|]. simpl. eapply sublist_NoDup; [|apply select_sublist]. done.
Qed.

(** What the script has established when line 81 is reached, for a frame
    with distinct column names and distinct row labels. *)
Lemma load_establishes (df : DataFrame) (ui : Inputs) (L : Loaded) :
  NoDup (Pandas.columns df) → NoDup (index df) →
  load parse_number parse_datetime df ui = Ok L →
  names_number (ld_filtered_df L) (ld_sales_column L) = true
  ∧ names_category (ld_filtered_df L) (ld_category_column L) = true
  ∧ Forall (λ c, names_number (ld_filtered_df L) (Some c) = true) (ld_numeric_columns L)
  ∧ (∀ c, ld_sales_column L = Some c →
          Forall is_Some (measure_entries (ld_filtered_df L) c))
  ∧ NoDup (index (ld_filtered_df L)).
Proof.
  intros Hcols Hidx Hload. unfold load in Hload.
  apply res_bind_inv in Hload as ([[df1 dcs] date] & Hdate & Hload).
  apply res_bind_inv in Hload as (category & Hcat & Hload).
  apply res_bind_inv in Hload as (sales & Hsales & Hload).
  apply res_bind_inv in Hload as (df2 & Hcoerce & Hload).
  apply res_bind_inv in Hload as (df3 & Hrange & Hload).
  apply res_bind_inv in Hload as (fdf & Hfilter & Hload).
  simplify_eq. simpl.
  (* the date conversion changes a column that is not a number column *)
  assert (H1 : index df1 = index df
               ∧ ∀ c, is_number <$> lookup_col c (data df1)
                      = is_number <$> lookup_col c (data df)).
  { unfold select_date_column in Hdate.
    apply res_bind_inv in Hdate as ([cd|] & Hsel & Hdate); [|by simplify_eq].
    case_match; [|by simplify_eq].
    apply res_bind_inv in Hdate as (s & Hs & Hdate). simplify_eq. split; [done|].
    intros c. simpl.
    match goal with H : _ && _ = true |- _ =>
      apply andb_true_iff in H as [Hin%bool_decide_eq_true _] end.
    destruct (select_not_number_lookup df cd Hcols Hin) as (s' & Hs' & Hnum).
    unfold get in Hs. rewrite Hs' in Hs. simplify_eq.
    destruct (decide (cd = c)) as [->|Hne].
    - rewrite lookup_assign_col, Hs'. simpl. rewrite Hnum. by destruct s.
    - by rewrite lookup_assign_col_ne. }
  destruct H1 as [Hidx1 Hnum1].
  (* the coercion changes a number column into a number column without
     missing entries *)
  assert (H2 : index df2 = index df
               ∧ (∀ c, is_number <$> lookup_col c (data df2)
                       = is_number <$> lookup_col c (data df))
               ∧ ∀ c, sales = Some c →
                      ∃ s, lookup_col c (data df2) = Some s ∧ all_present s).
  { unfold coerce_sales in Hcoerce. destruct sales as [cs|]; [|by simplify_eq].
    apply res_bind_inv in Hcoerce as (s & Hs & Hcoerce). simplify_eq. simpl.
    apply selectbox_elem_of in Hsales.
    apply elem_of_cons in Hsales as [|Hsales]; [done|].
    apply list_elem_of_fmap in Hsales as (? & ? & Hsales). simplify_eq.
    destruct (select_number_lookup df _ Hcols Hsales) as (v & Hv).
    split; [done|]. split.
    - intros c. destruct (decide (x = c)) as [->|Hne].
      + rewrite lookup_assign_col, <- Hnum1.
        unfold get in Hs. destruct (lookup_col c (data df1)) as [s1|] eqn:E; [|done].
        simplify_eq. simpl. f_equal.
        specialize (Hnum1 c). rewrite E, Hv in Hnum1. simpl in Hnum1. by simplify_eq.
      + by rewrite lookup_assign_col_ne.
    - intros c ?. simplify_eq. eexists. split; [apply lookup_assign_col|].
      simpl. unfold fillna0. apply Forall_fmap, Forall_true. by eexists. }
  destruct H2 as (Hidx2 & Hnum2 & Hpres).
  (* the filters select rows *)
  assert (Hnumber : ∀ c b s, lookup_col c (data df) = Some s → is_number s = b →
                             ∃ s', lookup_col c (data fdf) = Some s' ∧ is_number s' = b).
  { intros c b s Hs Hb.
    specialize (Hnum2 c). rewrite Hs in Hnum2. simpl in Hnum2.
    destruct (lookup_col c (data df2)) as [s2|] eqn:E2; [|done]. simpl in Hnum2.
    destruct (date_range_filter_keeps (λ s, is_number s = b) _ _ _ _ _ c s2
                (is_number_stable b) Hrange E2) as (s3 & E3 & Hb3); [congruence|].
    by eapply (data_filtering_keeps (λ s, is_number s = b)); eauto using is_number_stable. }
  split; [|split; [|split; [|split]]].
  - destruct sales as [cs|]; [|done]. simpl.
    apply selectbox_elem_of in Hsales.
    apply elem_of_cons in Hsales as [|Hsales]; [done|].
    apply list_elem_of_fmap in Hsales as (? & ? & Hsales). simplify_eq.
    destruct (select_number_lookup df _ Hcols Hsales) as (v & Hv).
    destruct (Hnumber _ true _ Hv eq_refl) as (s' & -> & Hs'). by destruct s'.
  - destruct category as [cc|]; [|done]. simpl.
    apply selectbox_elem_of in Hcat.
    apply elem_of_cons in Hcat as [|Hcat]; [done|].
    apply list_elem_of_fmap in Hcat as (? & ? & Hcat). simplify_eq.
    destruct (select_not_number_lookup df _ Hcols Hcat) as (s & Hs & Hnum).
    destruct (Hnumber _ false _ Hs Hnum) as (s' & -> & ->). done.
  - apply Forall_forall. intros c Hc. simpl.
    destruct (select_number_lookup df _ Hcols Hc) as (v & Hv).
    destruct (Hnumber _ true _ Hv eq_refl) as (s' & -> & Hs'). by destruct s'.
  - intros c ->. destruct (Hpres c eq_refl) as (s2 & E2 & Hall).
    destruct (date_range_filter_keeps all_present _ _ _ _ _ c s2
                all_present_stable Hrange E2 Hall) as (s3 & E3 & Hall3).
    destruct (data_filtering_keeps all_present _ _ _ c s3
                all_present_stable Hfilter E3 Hall3) as (s4 & E4 & Hall4).
    unfold measure_entries. rewrite E4. by destruct s4.
  - eapply data_filtering_NoDup; [exact Hfilter|].
    destruct date as [cd|]; simpl in Hrange.
    + apply res_bind_inv in Hrange as (? & _ & Hrange).
      apply res_bind_inv in Hrange as (? & _ & Hrange).
      apply res_bind_inv in Hrange as (? & _ & Hrange).
      apply res_bind_inv in Hrange as (? & _ & Hrange). simplify_eq. simpl.
      eapply sublist_NoDup; [|apply select_sublist]. by rewrite Hidx2.
    + simplify_eq. by rewrite Hidx2.
Qed.

End LoadFacts.
(** * Further properties *)

(** ** Loading and filtering (lines 31-81) *)

Section LoadingFacts.
Variable parse_number : string → option Qc.
Variable parse_datetime : string → option Z.

Lemma filter_partition_perm {A} (P : A → bool) (l : list A) :
  filter (λ x, P x = true) l ++ filter (λ x, P x = false) l ≡ₚ l.
Proof.
  induction l as [|x l IH]; [done|].
  rewrite !filter_cons. destruct (P x) eqn:E.
  - rewrite decide_True, decide_False by done. simpl. by rewrite IH.
  - rewrite decide_False, decide_True by done.
    rewrite <- Permutation_middle. by rewrite IH.
Qed.

Lemma select_datetime_lookup (df : DataFrame) (c : string) :
  NoDup (Pandas.columns df) → c ∈ select_datetime df →
  ∃ v, lookup_col c (data df) = Some (DateCol v).
Proof.
  unfold select_datetime, Pandas.columns.
  intros Hnd ([c' s] & -> & [Hnum Hin]%list_elem_of_filter)%list_elem_of_fmap.
  simpl in *. destruct s; try done. eexists. by apply lookup_col_NoDup.
Qed.

(** X1.  Lines 34-37: every column of the uploaded table is classified
    as numeric or as categorical; the two lists together are the table's
    columns, a datetime column counts as categorical, and when the column
    names are distinct no column is in both lists. *)
Theorem columns_classified (df : DataFrame) :
  NoDup (Pandas.columns df) →
  select_number df ++ select_not_number df ≡ₚ Pandas.columns df
  ∧ (∀ c, c ∈ select_datetime df → c ∈ select_not_number df)
  ∧ (∀ c, c ∈ select_number df → c ∉ select_not_number df).
Proof.
  intros Hnd. split; [|split].
  - unfold select_number, select_not_number, Pandas.columns.
    rewrite <- fmap_app. apply fmap_Permutation.
    apply (filter_partition_perm (λ c, is_number c.2)).
  - unfold select_datetime, select_not_number. intros c.
    intros ([c' s] & -> & [Hd Hin]%list_elem_of_filter)%list_elem_of_fmap.
    apply list_elem_of_fmap. exists (c', s). split; [done|].
    apply list_elem_of_filter. split; [|done]. simpl in *. by destruct s.
  - intros c Hn Hc.
    destruct (select_number_lookup df c Hnd Hn) as (v & Hv).
    destruct (select_not_number_lookup df c Hnd Hc) as (s & Hs & Hnum).
    rewrite Hv in Hs. by simplify_eq.
Qed.


Lemma selectbox_total {A} (x : A) (options : list A) (choice : nat) :
  ∃ y, selectbox (x :: options) choice = Ok y.
Proof.
  unfold selectbox, getitem. destruct ((x :: options) !! choice); simpl; eauto.
Qed.

Lemma is_datetime_stable : mask_stable (λ s, is_datetime s = true).
Proof. intros m []; done. Qed.

Lemma true_stable : mask_stable (λ _, True).
Proof. done. Qed.

Lemma data_filtering_total (fs : list (string * list scalar)) (df : DataFrame) :
  (∀ f, f ∈ fs → is_Some (lookup_col f.1 (data df))) →
  ∃ out, data_filtering fs df = Ok out.
Proof.
  revert df. induction fs as [|[col allowed] fs IH]; intros df Hfs; simpl; [eauto|].
  destruct (Hfs (col, allowed)) as [s Hs]; [left|]. simpl in Hs.
  unfold get. rewrite Hs. simpl. apply IH.
  intros f Hf. simpl. rewrite lookup_col_masked.
  destruct (Hfs f) as [s' ->]; [by right|]. by eexists.
Qed.

(** The stages of lines 31-81 on a table with distinct column names:
    none of them raises, a column keeps its kind (number or not), and the
    selected date column holds timestamps from the conversion on. *)
Lemma load_stages (df : DataFrame) (ui : Inputs) :
  NoDup (Pandas.columns df) →
  ∃ L, load parse_number parse_datetime df ui = Ok L
       ∧ ld_numeric_columns L = select_number df
       ∧ ld_categorical_columns L = select_not_number df
       ∧ (∀ c s, lookup_col c (data df) = Some s →
            ∃ s', lookup_col c (data (ld_filtered_df L)) = Some s'
                  ∧ is_number s' = is_number s)
       ∧ (∀ c, ld_date_column L = Some c →
            ∃ v, lookup_col c (data (ld_filtered_df L)) = Some (DateCol v))
       ∧ (∀ c, ld_sales_column L = Some c → c ∈ select_number df)
       ∧ (∀ c, ld_category_column L = Some c → c ∈ select_not_number df).
Proof.
  intros Hcols. unfold load.
  (* lines 40-50 *)
  assert (Hdate : ∃ df1 dcs date,
            select_date_column parse_datetime df (select_not_number df)
              (select_datetime df) (date_choice ui) = Ok (df1, dcs, date)
            ∧ (∀ c, is_number <$> lookup_col c (data df1)
                    = is_number <$> lookup_col c (data df))
            ∧ (∀ c, date = Some c → ∃ v, lookup_col c (data df1) = Some (DateCol v))).
  { unfold select_date_column.
    destruct (selectbox_total None (Some <$> (select_not_number df ++ select_datetime df))
                (date_choice ui)) as [[cd|] Hsel]; rewrite Hsel; simpl;
      [|eexists _, _, _; split; [done|]; split; [done|]; intros; done].
    apply selectbox_elem_of in Hsel.
    apply elem_of_cons in Hsel as [|Hsel]; [done|].
    apply list_elem_of_fmap in Hsel as (? & ? & Hsel). simplify_eq.
    destruct (bool_decide (x ∈ select_not_number df) && bool_decide (x ∉ select_datetime df))
      eqn:Hcond.
    - apply andb_true_iff in Hcond as [Hin%bool_decide_eq_true _].
      destruct (select_not_number_lookup df x Hcols Hin) as (s & Hs & Hnum).
      unfold get. rewrite Hs. simpl.
      eexists _, _, _. split; [done|]. simpl. split.
      + intros c. destruct (decide (x = c)) as [->|Hne].
        * rewrite lookup_assign_col, Hs. simpl. rewrite Hnum. by destruct s.
        * by rewrite lookup_assign_col_ne.
      + intros c ?. simplify_eq. rewrite lookup_assign_col.
        destruct s; simpl; eauto.
    - eexists _, _, _. split; [done|]. split; [done|].
      intros c ?. simplify_eq.
      apply select_datetime_lookup; [done|].
      apply andb_false_iff in Hcond as [Hc%bool_decide_eq_false | Hc%bool_decide_eq_false].
      + apply elem_of_app in Hsel as [|]; done.
      + by apply dec_stable. }
  destruct Hdate as (df1 & dcs & date & -> & Hnum1 & Hdate1). simpl.
  destruct (selectbox_total None (Some <$> select_not_number df) (category_choice ui))
    as [category Hcat]. rewrite Hcat. simpl.
  destruct (selectbox_total None (Some <$> select_number df) (sales_choice ui))
    as [sales Hsales]. rewrite Hsales. simpl.
  assert (Hsales' : ∀ c, sales = Some c → c ∈ select_number df).
  { intros c ->. apply selectbox_elem_of in Hsales.
    apply elem_of_cons in Hsales as [|Hsales]; [done|].
    apply list_elem_of_fmap in Hsales as (? & ? & Hsales). by simplify_eq. }
  assert (Hcat' : ∀ c, category = Some c → c ∈ select_not_number df).
  { intros c ->. apply selectbox_elem_of in Hcat.
    apply elem_of_cons in Hcat as [|Hcat]; [done|].
    apply list_elem_of_fmap in Hcat as (? & ? & Hcat). by simplify_eq. }
  (* lines 55-56 *)
  assert (Hcoerce : ∃ df2,
            coerce_sales parse_number sales df1 = Ok df2
            ∧ (∀ c, is_number <$> lookup_col c (data df2)
                    = is_number <$> lookup_col c (data df))
            ∧ (∀ c, date = Some c → ∃ v, lookup_col c (data df2) = Some (DateCol v))).
  { unfold coerce_sales. destruct sales as [cs|]; [|by eauto].
    destruct (select_number_lookup df cs Hcols (Hsales' _ eq_refl)) as (v & Hv).
    pose proof (Hnum1 cs) as H1. rewrite Hv in H1. simpl in H1.
    unfold get. destruct (lookup_col cs (data df1)) as [s1|] eqn:E1; [|done].
    simpl in H1. simpl. eexists. split; [done|]. simpl. split.
    - intros c. destruct (decide (cs = c)) as [->|Hne].
      + rewrite lookup_assign_col, Hv. done.
      + by rewrite lookup_assign_col_ne.
    - intros c Hc. destruct (Hdate1 c Hc) as (vd & Hvd).
      exists vd. rewrite lookup_assign_col_ne; [done|].
      intros ->. rewrite Hvd in E1. by simplify_eq. }
  destruct Hcoerce as (df2 & -> & Hnum2 & Hdate2). simpl.
  (* lines 59-67 *)
  assert (Hrange : ∃ df3, date_range_filter date (date1 ui) (date2 ui) df2 = Ok df3).
  { unfold date_range_filter. destruct date as [cd|]; [|by eauto].
    destruct (Hdate2 cd eq_refl) as (vd & Hvd). unfold get. rewrite Hvd. simpl. eauto. }
  destruct Hrange as (df3 & Hrange). rewrite Hrange. simpl.
  assert (Hkeep3 : ∀ (P : Series → Prop) c s, mask_stable P →
            lookup_col c (data df2) = Some s → P s →
            ∃ s', lookup_col c (data df3) = Some s' ∧ P s').
  { intros P c s HP. by apply (date_range_filter_keeps P _ _ _ _ _ c s HP Hrange). }
  (* lines 70-81 *)
  assert (Hfilter : ∃ fdf, data_filtering
            (sidebar_filters (select_not_number df) (selected_values ui)) df3 = Ok fdf).
  { apply data_filtering_total. intros [col allowed] Hf. simpl.
    unfold sidebar_filters in Hf.
    apply list_elem_of_filter in Hf as [_ Hf].
    apply list_elem_of_fmap in Hf as (c & ? & Hc). simplify_eq.
    destruct (select_not_number_lookup df c Hcols Hc) as (s & Hs & _).
    pose proof (Hnum2 c) as H2. rewrite Hs in H2.
    destruct (lookup_col c (data df2)) as [s2|] eqn:E2; [|done].
    destruct (Hkeep3 (λ _, True) c s2 true_stable E2 I) as (s3 & -> & _). by eexists. }
  destruct Hfilter as (fdf & Hfilter). rewrite Hfilter. simpl.
  assert (Hkeep : ∀ (P : Series → Prop) c s, mask_stable P →
            lookup_col c (data df2) = Some s → P s →
            ∃ s', lookup_col c (data fdf) = Some s' ∧ P s').
  { intros P c s HP E2 Hs.
    destruct (Hkeep3 P c s HP E2 Hs) as (s3 & E3 & Hs3).
    by apply (data_filtering_keeps P _ _ _ c s3 HP Hfilter). }
  eexists. split; [done|]. simpl.
  split; [done|]. split; [done|]. split; [|split; [|split; [done|done]]].
  - intros c s Hs. pose proof (Hnum2 c) as H2. rewrite Hs in H2.
    destruct (lookup_col c (data df2)) as [s2|] eqn:E2; [|done]. simpl in H2.
    apply (Hkeep (λ s', is_number s' = is_number s) c s2); [|done|congruence].
    apply is_number_stable.
  - intros c Hc. destruct (Hdate2 c Hc) as (vd & Hvd).
    destruct (Hkeep (λ s, is_datetime s = true) c _ is_datetime_stable Hvd eq_refl)
      as (s' & Hs' & Hd).
    destruct s'; try done. eauto.
Qed.

(** What the tabs find when line 81 is reached. *)
Lemma load_roles (df : DataFrame) (ui : Inputs) :
  NoDup (Pandas.columns df) →
  ∃ L, load parse_number parse_datetime df ui = Ok L
       ∧ names_number (ld_filtered_df L) (ld_sales_column L) = true
       ∧ names_category (ld_filtered_df L) (ld_category_column L) = true
       ∧ (∀ c, ld_date_column L = Some c →
            ∃ v, lookup_col c (data (ld_filtered_df L)) = Some (DateCol v))
       ∧ (∀ c, c ∈ ld_numeric_columns L →
            ∃ v, lookup_col c (data (ld_filtered_df L)) = Some (NumCol v))
       ∧ (∀ c, c ∈ ld_categorical_columns L →
            is_Some (lookup_col c (data (ld_filtered_df L)))).
Proof.
  intros Hcols.
  destruct (load_stages df ui Hcols)
    as (L & HL & Hnums & Hcats & Hkind & Hdate & Hsales & Hcat).
  exists L. split; [done|]. split; [|split; [|split; [done|split]]].
  - destruct (ld_sales_column L) as [c|]; [|done]. simpl.
    destruct (select_number_lookup df c Hcols (Hsales c eq_refl)) as (v & Hv).
    destruct (Hkind c _ Hv) as (s' & -> & Hs'). by destruct s'.
  - destruct (ld_category_column L) as [c|]; [|done]. simpl.
    destruct (select_not_number_lookup df c Hcols (Hcat c eq_refl)) as (s & Hs & Hnum).
    destruct (Hkind c _ Hs) as (s' & -> & ->). by rewrite Hnum.
  - intros c Hc. rewrite Hnums in Hc.
    destruct (select_number_lookup df c Hcols Hc) as (v & Hv).
    destruct (Hkind c _ Hv) as (s' & Hs' & Hn). destruct s'; try done. eauto.
  - intros c Hc. rewrite Hcats in Hc.
    destruct (select_not_number_lookup df c Hcols Hc) as (s & Hs & _).
    destruct (Hkind c _ Hs) as (s' & -> & _). by eexists.
Qed.


(** Lines 31-96 in one piece. *)
Lemma load_kpis (df : DataFrame) (ui : Inputs) (session : Session) :
  NoDup (Pandas.columns df) →
  ∃ L w,
    load parse_number parse_datetime df ui = Ok L
    ∧ run_kpis {[ 0%nat := ld_filtered_df L ]} 0
        (ld_sales_column L) (ld_category_column L) (ld_date_column L) session = Ok w
    ∧ total_sales (kpi_data w)
      = (λ c, Spec.total_measure (measure_entries (ld_filtered_df L) c))
          <$> ld_sales_column L
    ∧ total_transactions (kpi_data w) = Pandas.len (ld_filtered_df L)
    ∧ (is_Some (unique_categories (kpi_data w)) ↔ is_Some (ld_category_column L))
    ∧ (is_Some (date_range (kpi_data w)) ↔ is_Some (ld_date_column L))
    ∧ (∀ c, c ∈ ld_numeric_columns L →
         ∃ v, lookup_col c (data (ld_filtered_df L)) = Some (NumCol v)).
Proof.
  intros Hcols.
  destruct (load_roles df ui Hcols) as (L & HL & Hs & Hc & Hd & Hnums & _).
  exists L.
  set (h := ({[ 0%nat := ld_filtered_df L ]} : gmap nat DataFrame)).
  set (cn := DuckDB.register ∅ "sales_data" 0%nat).
  destruct (kpi_queries_total h cn "sales_data" (ld_filtered_df L)
              (ld_sales_column L) (ld_category_column L) (ld_date_column L))
    as (k & Hk & Hts & Htt & Huc & Hdr).
  - unfold DuckDB.scan, cn, DuckDB.register, h.
    rewrite lookup_insert_eq. by rewrite lookup_singleton_eq.
  - done.
  - destruct (ld_category_column L) as [c|]; [|done]. simpl in *.
    apply bool_decide_eq_true.
    destruct (lookup_col c (data (ld_filtered_df L))); [by eexists | done].
  - destruct (ld_date_column L) as [c|]; [|done]. simpl.
    apply bool_decide_eq_true. destruct (Hd c eq_refl) as (v & ->). by eexists.
  - exists (mkWorld h 0%nat cn k session []).
    split; [done|]. split.
    { unfold run_kpis. fold cn. fold h. by rewrite Hk. }
    simpl. rewrite Hts, Htt, Huc, Hdr. split; [done|]. split; [done|].
    rewrite !fmap_is_Some. done.
Qed.


Lemma selectbox_nonempty {A} (options : list A) (choice : nat) :
  options ≠ [] → ∃ y, selectbox options choice = Ok y.
Proof. destruct options as [|x l]; [done|]. intros _. apply selectbox_total. Qed.


End LoadingFacts.

(** ** The filters (lines 59-81) *)

Section FilterResults.

Lemma select_isin_within (f : scalar → bool) (l : list scalar) (x : scalar) :
  x ∈ Pandas.select (f <$> l) l → f x = true.
Proof.
  induction l as [|y l IH]; simpl; [by intros ?%elem_of_nil|].
  destruct (f y) eqn:E; [|done].
  intros [->|?]%elem_of_cons; [done | by apply IH].
Qed.

Lemma within_stable (allowed : list scalar) :
  mask_stable (λ s, ∀ x, x ∈ Pandas.values s → x ∈ allowed).
Proof.
  intros m s Hs x. rewrite values_masked. intros Hx%select_elem_of. by apply Hs.
Qed.

Lemma data_filtering_within (fs : list (string * list scalar)) (df out : DataFrame)
    (c : string) (allowed : list scalar) :
  data_filtering fs df = Ok out → (c, allowed) ∈ fs →
  ∃ s, lookup_col c (data out) = Some s ∧ ∀ x, x ∈ Pandas.values s → x ∈ allowed.
Proof.
  revert df. induction fs as [|[col allowed0] fs IH]; intros df Hrun Hin.
  - by apply elem_of_nil in Hin.
  - simpl in Hrun. apply res_bind_inv in Hrun as (s0 & Hs0 & Hrun).
    apply elem_of_cons in Hin as [Heq|Hin]; [|by eapply IH].
    injection Heq as <- <-.
    unfold get in Hs0. destruct (lookup_col c (data df)) as [s|] eqn:Hs; [|done].
    simplify_eq.
    eapply (data_filtering_keeps _ _ _ _ c (select_series (isin s0 allowed) s0)
              (within_stable allowed) Hrun).
    + simpl. by rewrite lookup_col_masked, Hs.
    + intros x. rewrite values_masked. unfold isin.
      intros Hx%select_isin_within. by apply bool_decide_eq_true in Hx.
Qed.

Lemma data_filtering_sublist (fs : list (string * list scalar)) (df out : DataFrame) :
  data_filtering fs df = Ok out → index out `sublist_of` index df.
Proof.
  revert df. induction fs as [|[col allowed] fs IH]; intros df Hrun; simpl in Hrun.
  - by simplify_eq.
  - apply res_bind_inv in Hrun as (s0 & _ & Hrun).
    etrans; [by eapply IH|]. simpl. apply select_sublist.
Qed.

(** X5.  Lines 79-81: when the categorical filters have run, the rows
    left are rows of the table in their original order, and every filtered
    column is still there and holds none but the values picked for it. *)
Theorem data_filtering_allowed (fs : list (string * list scalar)) (df out : DataFrame) :
  data_filtering fs df = Ok out →
  index out `sublist_of` index df
  ∧ ∀ c allowed, (c, allowed) ∈ fs →
      ∃ s, lookup_col c (data out) = Some s
           ∧ ∀ x, x ∈ Pandas.values s → x ∈ allowed.
Proof.
  intros Hrun. split; [by eapply data_filtering_sublist|].
  intros c allowed Hin. by eapply data_filtering_within.
Qed.

Lemma select_map_filter {A} (f : A → bool) (l : list A) :
  Pandas.select (f <$> l) l = filter (λ x, f x = true) l.
Proof.
  induction l as [|x l IH]; [done|].
  rewrite fmap_cons, filter_cons. cbn [Pandas.select]. rewrite IH.
  destruct (f x) eqn:E.
  - by rewrite decide_True.
  - by rewrite decide_False.
Qed.

Lemma date_mask_in_range (v : list (option Z)) (d1 d2 : Z) :
  mask_and (ge_date (fmap (M:=option) (λ t, t `div` ns_per_day)%Z <$> v) d1)
           (le_date (fmap (M:=option) (λ t, t `div` ns_per_day)%Z <$> v) d2)
  = in_date_range d1 d2 <$> v.
Proof.
  unfold mask_and, ge_date, le_date.
  induction v as [|o v IH]; [done|]. rewrite !fmap_cons. cbn [zip_with].
  rewrite IH. f_equal. by destruct o.
Qed.

Lemma in_date_range_empty (d1 d2 : Z) (o : option Z) :
  (d2 < d1)%Z → in_date_range d1 d2 o = false.
Proof.
  intros Hlt. destruct o as [t|]; [|done]. simpl.
  apply andb_false_iff.
  destruct (decide (d1 ≤ t `div` ns_per_day)%Z).
  - right. apply bool_decide_eq_false. lia.
  - left. by apply bool_decide_eq_false.
Qed.

Lemma select_all_false {A B} (l : list B) (xs : list A) :
  Pandas.select ((λ _, false) <$> l) xs = [].
Proof.
  revert xs. induction l as [|y l IH]; intros [|x xs]; simpl; try done.
Qed.

(** The date filter is one row selection, by the test on the day. *)
Lemma date_range_filter_mask (c : string) (d1 d2 : Z) (df out : DataFrame) :
  date_range_filter (Some c) d1 d2 df = Ok out →
  ∃ v, lookup_col c (data df) = Some (DateCol v)
       ∧ out = loc_mask df (in_date_range d1 d2 <$> v).
Proof.
  intros Hrun. simpl in Hrun.
  apply res_bind_inv in Hrun as (s1 & Hs1 & Hrun).
  apply res_bind_inv in Hrun as (dates1 & Hd1 & Hrun).
  apply res_bind_inv in Hrun as (s2 & Hs2 & Hrun).
  apply res_bind_inv in Hrun as (dates2 & Hd2 & Hrun).
  assert (s2 = s1) as -> by congruence.
  unfold get in Hs1. destruct (lookup_col c (data df)) as [s|] eqn:Hs; [|done].
  simplify_eq. destruct s1 as [|?|v]; try done. simpl in Hd1, Hd2. simplify_eq.
  rewrite date_mask_in_range. by exists v.
Qed.

(** X6.  Lines 59-67: the date filter keeps the entries of the date
    column whose day lies between the two picked days, both included, and
    drops the missing dates; when the end day is before the start day no
    row is left. *)
Theorem date_range_filter_within (c : string) (d1 d2 : Z) (df out : DataFrame) :
  date_range_filter (Some c) d1 d2 df = Ok out →
  ∃ v, lookup_col c (data df) = Some (DateCol v)
       ∧ lookup_col c (data out)
         = Some (DateCol (filter (λ o, in_date_range d1 d2 o = true) v))
       ∧ index out = Pandas.select (in_date_range d1 d2 <$> v) (index df)
       ∧ ((d2 < d1)%Z → index out = []).
Proof.
  intros Hrun.
  destruct (date_range_filter_mask c d1 d2 df out Hrun) as (v & Hv & ->).
  exists v. split; [done|]. split; [|split; [done|]].
  - simpl. rewrite lookup_col_masked, Hv. simpl. by rewrite select_map_filter.
  - intros Hlt. simpl.
    rewrite (list_fmap_ext (in_date_range d1 d2) (λ _, false) v)
      by (intros; by apply in_date_range_empty).
    apply select_all_false.
Qed.

Lemma mask_and_diag (m : list bool) : mask_and m m = m.
Proof.
  unfold mask_and. induction m as [|b m IH]; [done|]. simpl. rewrite IH.
  by destruct b.
Qed.

Lemma run_step_twice (st : FilterStep) (df : DataFrame) :
  value_of (run_step st df ≫= run_step st) = value_of (run_step st df).
Proof.
  rewrite value_of_bind, run_step_value.
  destruct (value_of (step_mask st df)) as [m|] eqn:E; simpl; [|done].
  rewrite run_step_value, step_mask_masked, E. simpl.
  by rewrite loc_mask_twice, mask_and_diag.
Qed.

Lemma run_steps_cons_twice (st : FilterStep) (l : list FilterStep) (df : DataFrame) :
  value_of (run_steps (st :: st :: l) df) = value_of (run_steps (st :: l) df).
Proof.
  pose proof (run_step_twice st df) as H. simpl.
  destruct (run_step st df) as [df1|] eqn:E1; simpl in *; [|done].
  destruct (run_step st df1) as [df2|] eqn:E2; simpl in *; [|done].
  by simplify_eq.
Qed.

Lemma run_steps_value_ext (l : list FilterStep) (r1 r2 : res DataFrame) :
  value_of r1 = value_of r2 →
  value_of (r1 ≫= run_steps l) = value_of (r2 ≫= run_steps l).
Proof. destruct r1, r2; simpl; intros; by simplify_eq. Qed.

Lemma run_steps_twice (l : list FilterStep) (df : DataFrame) :
  value_of (run_steps (l ++ l) df) = value_of (run_steps l df).
Proof.
  revert df. induction l as [|st l IH]; intros df; [done|].
  rewrite (run_steps_perm ((st :: l) ++ st :: l) (st :: st :: l ++ l)).
  2:{ simpl. constructor. by rewrite <- Permutation_middle. }
  rewrite run_steps_cons_twice. simpl.
  destruct (run_step st df) as [df1|]; simpl; [apply IH | done].
Qed.

(** X7.  Lines 59-81 applied to their own result change nothing: the
    view that a filter set gives is a fixed point of that filter set (and
    the second application does not raise when the first did not). *)
Theorem filters_idempotent (date : option string) (F : FilterSet) (df : DataFrame) :
  value_of (apply_filter_set date F df ≫= apply_filter_set date F)
  = value_of (apply_filter_set date F df)
  ∧ ∀ view, apply_filter_set date F df = Ok view →
            apply_filter_set date F view = Ok view.
Proof.
  assert (H : value_of (apply_filter_set date F df ≫= apply_filter_set date F)
              = value_of (apply_filter_set date F df)).
  { rewrite (apply_filter_set_steps date F df), <- run_steps_twice, run_steps_app.
    destruct (run_steps (steps_of date F) df); simpl; [|done].
    by rewrite apply_filter_set_steps. }
  split; [done|]. intros view Hview. rewrite Hview in H. simpl in H.
  destruct (apply_filter_set date F view) as [view'|]; simpl in H; [|done].
  congruence.
Qed.


End FilterResults.

(** ** The date range of the KPIs under the date filter *)

Lemma least_elem_of (l : list scalar) (x : scalar) : least l = Some x → x ∈ l.
Proof.
  revert x. induction l as [|y l IH]; intros x; [done|].
  unfold least in *. cbn [foldr].
  destruct (foldr _ None l) as [z|].
  - intros; simplify_eq. destruct (scalar_leb y z); [left | right; by apply IH].
  - intros; simplify_eq. left.
Qed.

Lemma greatest_elem_of (l : list scalar) (x : scalar) : greatest l = Some x → x ∈ l.
Proof.
  revert x. induction l as [|y l IH]; intros x; [done|].
  unfold greatest in *. cbn [foldr].
  destruct (foldr _ None l) as [z|].
  - intros; simplify_eq. destruct (scalar_leb z y); [left | right; by apply IH].
  - intros; simplify_eq. left.
Qed.

Lemma dated_within_stable (d1 d2 : Z) :
  mask_stable (λ s, ∀ x, x ∈ dropna s →
                 ∃ t, x = STime t ∧ (d1 ≤ t `div` ns_per_day ≤ d2)%Z).
Proof.
  intros m s Hs x Hx. apply Hs. unfold dropna in *.
  apply list_elem_of_filter in Hx as [Hne Hx]. apply list_elem_of_filter. split; [done|].
  rewrite values_masked in Hx. by apply select_elem_of in Hx.
Qed.



(** X10.  Lines 70-81: a categorical column filters the view only when
    at least one of its values is picked: the filters are the picked lists
    that are not empty, in column order, and when nothing is picked in any
    column the view is the table as it was (it is not emptied). *)
Theorem no_selection_no_filter (categorical : list string)
    (picked : string → list scalar) :
  (∀ f, f ∈ sidebar_filters categorical picked
        ↔ f.1 ∈ categorical ∧ f.2 = picked f.1 ∧ f.2 ≠ [])
  ∧ ((∀ c, c ∈ categorical → picked c = []) →
     ∀ df, data_filtering (sidebar_filters categorical picked) df = Ok df).
Proof.
  split.
  - intros [c allowed]. unfold sidebar_filters. rewrite list_elem_of_filter. simpl.
    rewrite list_elem_of_fmap. split.
    + intros (Hne & c' & Heq & Hc'). by simplify_eq.
    + intros (Hc & -> & Hne). split; [done|]. by exists c.
  - intros Hnone df.
    assert (Hnil : sidebar_filters categorical picked = []).
    { unfold sidebar_filters. induction categorical as [|c l IH]; [done|].
      rewrite fmap_cons, filter_cons. simpl.
      rewrite decide_False.
      - apply IH. intros c' Hc'. apply Hnone. by right.
      - intros Hne. apply Hne. apply Hnone. by left. }
    by rewrite Hnil.
Qed.

Lemma no_selection_no_filter_witness :
  (∀ f, f ∈ sidebar_filters ["Region"; "Channel"] (λ _, [])
        ↔ f.1 ∈ ["Region"; "Channel"] ∧ f.2 = [] ∧ f.2 ≠ [])
  ∧ data_filtering (sidebar_filters ["Region"; "Channel"] (λ _, [])) sample_sales
    = Ok sample_sales.
Proof.
  destruct (no_selection_no_filter ["Region"; "Channel"] (λ _, [])) as [Hin Hnone].
  split; [exact Hin|]. apply Hnone. reflexivity.
Defined.

(** ** The dynamic report: layout, chart types and columns (lines 131-218) *)

Section ReportFacts.
Variables numeric_columns categorical_columns : list string.
Variables date_column sales_column : option string.
Variable filtered_df : DataFrame.

Lemma getitem_elem_of {A} (l : list A) (j : nat) (x : A) : getitem l j = Ok x → x ∈ l.
Proof.
  unfold getitem. destruct (l !! j) eqn:E; [|done].
  intros; simplify_eq. by eapply list_elem_of_lookup_2.
Qed.

Lemma getitem_lookup {A} (l : list A) (j : nat) (x : A) : getitem l j = Ok x → l !! j = Some x.
Proof. unfold getitem. destruct (l !! j); intros; by simplify_eq. Qed.

Lemma succ_mod_ne (i n : nat) : (2 ≤ n)%nat → ((i + 1) `mod` n ≠ i `mod` n)%nat.
Proof.
  intros Hn.
  rewrite (Nat.Div0.add_mod i 1 n).
  rewrite (Nat.mod_small 1 n) by lia.
  assert (Hlt : (i `mod` n < n)%nat) by (apply Nat.mod_upper_bound; lia).
  destruct (decide (i `mod` n + 1 < n)%nat).
  - rewrite Nat.mod_small by lia. lia.
  - replace (i `mod` n + 1)%nat with n by lia. rewrite Nat.Div0.mod_same. lia.
Qed.

Lemma neighbours_differ {A} (l : list A) (i : nat) (x y : A) :
  (2 ≤ length l)%nat → NoDup l →
  getitem l (i `mod` length l) = Ok x →
  getitem l ((i + 1) `mod` length l) = Ok y → x ≠ y.
Proof.
  intros Hn Hnd Hx%getitem_lookup Hy%getitem_lookup ->.
  pose proof (NoDup_lookup _ _ _ _ Hnd Hx Hy) as Heq.
  symmetry in Heq. by apply succ_mod_ne in Heq.
Qed.

Ltac decide_rule' :=
  repeat match goal with
  | |- context [bool_decide (?a = ?b)] =>
      first [ rewrite (bool_decide_eq_true_2 (a = b)) by lia
            | rewrite (bool_decide_eq_false_2 (a = b)) by lia ]
  end;
  rewrite ?andb_false_r, ?andb_true_r.

(** A slot whose rule applies asks for the figure of that rule, built on
    columns of the kinds the rule needs. *)
Lemma report_slot_figure (i : nat) :
  Spec.precondition numeric_columns categorical_columns date_column sales_column
    (i `mod` 7) = true →
  ∃ fig args,
    (∀ m plot_counter,
       report_slot m numeric_columns categorical_columns date_column sales_column
         filtered_df i plot_counter
       = Ok (finish i plot_counter (rule_chart_type (i `mod` 7))
               (try_plot m filtered_df (rule_chart_type (i `mod` 7)) fig args)))
    ∧ figure_fits numeric_columns categorical_columns date_column sales_column fig.
Proof.
  intros H.
  assert (Hlt : (i `mod` 7 < 7)%nat) by (apply Nat.mod_upper_bound; lia).
  remember (i `mod` 7) as r eqn:Hr.
  destruct r as [|[|[|[|[|[|[|r]]]]]]]; [ .. | lia ]; simpl in H;
    rewrite ?andb_true_iff, ?bool_decide_eq_true in H; destruct_and?;
    try (assert (Hn : numeric_columns ≠ []) by (apply nonempty_length; lia));
    try (assert (Hk : categorical_columns ≠ []) by (apply nonempty_length; lia));
    try (destruct (py_mod_getitem numeric_columns i Hn) as (x & Ex1 & Ex2));
    try (destruct (py_mod_getitem numeric_columns (i + 1) Hn) as (y & Ey1 & Ey2));
    try (destruct (py_mod_getitem categorical_columns i Hk) as (c & Ec1 & Ec2));
    eexists _, _;
    (split;
     [ intros m plot_counter;
       unfold report_slot; rewrite !nonempty_decide, <- Hr; decide_rule';
       rewrite ?bool_decide_eq_true_2 by (assumption || lia);
       rewrite ?bool_decide_eq_false_2 by lia;
       cbn [andb];
       repeat first [ rewrite Ex1 | rewrite Ey1 | rewrite Ec1
                    | rewrite Ex2 | rewrite Ey2 | rewrite Ec2
                    | rewrite res_bind_Ok | progress cbv beta iota ];
       reflexivity
     | ]);
    cbn [figure_fits from_option];
    repeat match goal with
    | H : is_Some _ |- _ => destruct H as [? ->]
    end;
    repeat split; eauto using getitem_elem_of, neighbours_differ.
Qed.

(** One iteration of the loop: where the slot is put, what becomes of the
    plot counter, which chart type the slot carries and which columns a
    shown chart draws on. *)
Lemma report_slot_inv m (i plot_counter : nat) (s : ChartSlot) (plot_counter' : nat) :
  report_slot m numeric_columns categorical_columns date_column sales_column
    filtered_df i plot_counter = Ok (s, plot_counter') →
  slot_index s = i
  ∧ slot_col s = (plot_counter `mod` 3)%nat
  ∧ plot_counter' = (if is_plot s then S plot_counter else plot_counter)
  ∧ slot_chart_type s
    = (if Spec.precondition numeric_columns categorical_columns date_column
            sales_column (i `mod` 7)
       then Some (rule_chart_type (i `mod` 7)) else None)
  ∧ ∀ fig, slot_out s = PlotlyChart fig →
           figure_fits numeric_columns categorical_columns date_column sales_column fig.
Proof.
  destruct (Spec.precondition numeric_columns categorical_columns date_column
              sales_column (i `mod` 7)) eqn:Hp.
  - destruct (report_slot_figure i Hp) as (fig & args & Hrun & Hfits).
    rewrite Hrun. unfold finish, try_plot, is_plot.
    destruct (m fig filtered_df) as [e|]; intros; simplify_eq; simpl;
      repeat split; try done. intros; by simplify_eq.
  - rewrite report_slot_skip by done. intros; simplify_eq. simpl. repeat split; done.
Qed.

Lemma report_loop_inv m (slots : list nat) (plot_counter : nat) (ss : list ChartSlot) :
  report_loop m numeric_columns categorical_columns date_column sales_column
    filtered_df slots plot_counter = Ok ss →
  slot_index <$> ss = slots
  ∧ ∀ j s, ss !! j = Some s →
      slot_col s = ((plot_counter + length (filter (λ s, is_plot s = true) (take j ss)))
                    `mod` 3)%nat
      ∧ slot_chart_type s
        = (if Spec.precondition numeric_columns categorical_columns date_column
                sales_column (slot_index s `mod` 7)
           then Some (rule_chart_type (slot_index s `mod` 7)) else None)
      ∧ ∀ fig, slot_out s = PlotlyChart fig →
               figure_fits numeric_columns categorical_columns date_column
                 sales_column fig.
Proof.
  revert plot_counter ss. induction slots as [|i slots IH]; intros pc ss Hrun.
  - simpl in Hrun. simplify_eq. split; [done|]. intros j s Hj. done.
  - cbn [report_loop] in Hrun.
    apply res_bind_inv in Hrun as ([s0 pc'] & Hs0 & Hrun).
    apply res_bind_inv in Hrun as (ss' & Hss' & Hrun). simplify_eq. cbn [fst snd] in *.
    destruct (report_slot_inv _ _ _ _ _ Hs0) as (Hi & Hc & Hpc & Hct & Hfig).
    destruct (IH _ _ Hss') as (Hidx & Hrest).
    split; [by rewrite fmap_cons, Hi, Hidx|].
    intros [|j] s Hj; simpl in Hj.
    + simplify_eq. simpl. rewrite Nat.add_0_r. done.
    + destruct (Hrest j s Hj) as (Hc' & Hct' & Hfig').
      split; [|done]. rewrite Hc'. f_equal.
      rewrite firstn_cons, filter_cons, Hpc.
      destruct (is_plot s0); simpl; lia.
Qed.

End ReportFacts.

Lemma filter_positions {A} (P : A → bool) (f : A → nat) (g : nat → nat) (l : list A) :
  (∀ j s, l !! j = Some s → f s = g (length (filter (λ s, P s = true) (take j l)))) →
  f <$> filter (λ s, P s = true) l
  = g <$> seq 0 (length (filter (λ s, P s = true) l)).
Proof.
  induction l as [|x l IH] using rev_ind; intros H; [done|].
  assert (Hl : f <$> filter (λ s, P s = true) l
               = g <$> seq 0 (length (filter (λ s, P s = true) l))).
  { apply IH. intros j s Hj.
    rewrite (H j s) by (by apply lookup_app_l_Some).
    rewrite take_app_le; [done|]. apply lookup_lt_Some in Hj. lia. }
  rewrite filter_app, filter_cons, filter_nil.
  destruct (P x) eqn:E.
  - rewrite decide_True by done.
    rewrite fmap_app, length_app, seq_app, fmap_app, Hl. simpl. f_equal. f_equal.
    rewrite (H (length l) x) by (by rewrite lookup_app_r, Nat.sub_diag).
    by rewrite take_app_length.
  - rewrite decide_False by done. by rewrite app_nil_r.
Qed.

Lemma dynamic_report_total (m : Figure → DataFrame → option string)
    nums cats date sales fdf :
  ∃ slots, dynamic_report m nums cats date sales fdf = Ok slots.
Proof.
  destruct (report_loop_total nums cats date sales fdf m (slot_range nums cats) 0)
    as (ss & Hrun & _). by exists ss.
Qed.


(** X12.  Lines 138-215: every chart the dynamic report shows draws on
    the right kinds of columns: scatter axes, histogram and box values are
    numeric columns, pie names, bar and box groups and colours are
    categorical columns, the bar and line measures are the selected sales
    column and the line's time axis is the selected date column; with
    distinct numeric column names a scatter plot never has the same column
    on both axes. *)
Theorem report_figures_fit (m : Figure → DataFrame → option string)
    nums cats date sales fdf :
  ∃ slots,
    dynamic_report m nums cats date sales fdf = Ok slots
    ∧ ∀ s fig, s ∈ slots → slot_out s = PlotlyChart fig →
               figure_fits nums cats date sales fig.
Proof.
  destruct (dynamic_report_total m nums cats date sales fdf) as (slots & Hrun).
  exists slots. split; [done|].
  destruct (report_loop_inv _ _ _ _ _ _ _ _ _ Hrun) as (_ & Hslots).
  intros s fig [j Hj]%list_elem_of_lookup_1 Hout.
  destruct (Hslots j s Hj) as (_ & _ & Hfig). by apply Hfig.
Qed.

(** X13.  Lines 138-215: the chart type of a slot is fixed by its index:
    slot [i] carries the chart type of rule [i mod 7] (scatter, pie, mean
    bar, histogram, box, time series, scatter with category) when that
    rule's precondition holds, whether the chart could be drawn or not,
    and no chart type otherwise. *)
Theorem report_chart_types (m : Figure → DataFrame → option string)
    nums cats date sales fdf :
  ∃ slots,
    dynamic_report m nums cats date sales fdf = Ok slots
    ∧ ∀ i s, slots !! i = Some s →
        slot_index s = i
        ∧ slot_chart_type s
          = (if Spec.precondition nums cats date sales (i `mod` 7)
             then Some (rule_chart_type (i `mod` 7)) else None).
Proof.
  destruct (dynamic_report_total m nums cats date sales fdf) as (slots & Hrun).
  exists slots. split; [done|].
  destruct (report_loop_inv _ _ _ _ _ _ _ _ _ Hrun) as (Hidx & Hslots).
  intros i s Hi.
  assert (Hsi : slot_index s = i).
  { assert (H : (slot_index <$> slots) !! i = Some (slot_index s))
      by (by rewrite list_lookup_fmap, Hi).
    rewrite Hidx in H. unfold slot_range in H.
    apply lookup_seq in H as [H _]. simpl in H. done. }
  split; [done|]. destruct (Hslots i s Hi) as (_ & Hct & _). by rewrite <- Hsi.
Qed.

(** ** The what-if total (lines 381-404) *)

Lemma total_measure_scale (f : Qc) (v : list (option Qc)) :
  Spec.total_measure (fmap (M:=option) (λ x, x * f)%Qc <$> v)
  = (Spec.total_measure v * f)%Qc.
Proof.
  unfold Spec.total_measure. induction v as [|o v IH].
  - cbn. by rewrite Qcmult_0_l.
  - rewrite !fmap_cons. cbn [foldr]. rewrite IH.
    destruct o as [x|]; cbn [fmap option_fmap option_map default from_option id].
    + by rewrite Qcmult_plus_distr_l.
    + rewrite !Qcplus_0_l. done.
Qed.


(** ** The storyteller (lines 305-365) *)

(** X15.  Lines 312-356: the story has a step for the sales column, one
    for the category column, and one for each of category and date joined
    with sales, so at most four; it is empty exactly when neither a sales
    nor a category column is selected (a date column alone gives no
    story).  Each step's function accepts the arguments stored with the
    step, so building the figure of a step never raises. *)
Theorem story_steps_shape (sales category date : option string) :
  (story_steps sales category date = [] ↔ sales = None ∧ category = None)
  ∧ (length (story_steps sales category date) ≤ 4)%nat
  ∧ ∀ step, step ∈ story_steps sales category date →
      ∃ fig,
        visualization_function step
          match step_args step with
          | Column c => [c]
          | Columns c1 c2 => [c1; c2]
          end = Ok fig.
Proof.
  split; [|split].
  - destruct sales, category, date; simpl; naive_solver.
  - destruct sales, category, date; simpl; lia.
  - intros step Hstep. unfold story_steps in Hstep.
    destruct sales, category, date; simpl in Hstep;
      repeat (apply elem_of_cons in Hstep as [->|Hstep]; [simpl; eauto|]);
      by apply elem_of_nil in Hstep.
Qed.

Section StoryFrame.
Variables m m' : Figure → DataFrame → option string.
Variables sales_column category_column date_column : option string.

Lemma after_clicks_frame (clicks : list (option string)) (w : World) :
  let w' := after_clicks m sales_column category_column date_column clicks w in
  heap w' = heap w ∧ filtered_df w' = filtered_df w ∧ con w' = con w
  ∧ kpi_data w' = kpi_data w
  ∧ trivia_score (session_state w') = trivia_score (session_state w)
  ∧ current_question (session_state w') = current_question (session_state w)
  ∧ correct_answer (session_state w') = correct_answer (session_state w)
  ∧ options (session_state w') = options (session_state w)
  ∧ question_asked (session_state w') = question_asked (session_state w).
Proof.
  revert w. induction clicks as [|c clicks IH]; intros w; simpl; [done|].
  unfold after_clicks in IH. simpl in IH.
  destruct (after_click_run m sales_column category_column date_column c w) as (pg & Hw).
  specialize (IH (after_click m sales_column category_column date_column c w)).
  rewrite Hw in IH at 2 4 6 8 10 12 14 16 18. simpl in IH. exact IH.
Qed.

Lemma after_clicks_cursor (clicks : list (option string)) (w1 w2 : World) :
  cursor w1 = cursor w2 →
  cursor (after_clicks m sales_column category_column date_column clicks w1)
  = cursor (after_clicks m' sales_column category_column date_column clicks w2).
Proof.
  revert w1 w2. induction clicks as [|c clicks IH]; intros w1 w2 Hc; simpl; [done|].
  apply IH. rewrite !after_click_cursor. by rewrite Hc.
Qed.

End StoryFrame.

(** X16.  Lines 341-365: whether the charts of the story can be drawn or
    not has no effect on navigation: after any sequence of clicks the
    cursor is the same under any two behaviours of plotly.  The tab writes
    nothing but its cursor and the page: the frame, the connection, the
    KPIs and the trivia keys of the session are as before. *)
Theorem story_navigation_independent
    (m m' : Figure → DataFrame → option string)
    (sales category date : option string) (clicks : list (option string)) (w : World) :
  cursor (after_clicks m sales category date clicks w)
  = cursor (after_clicks m' sales category date clicks w)
  ∧ (let w' := after_clicks m sales category date clicks w in
     heap w' = heap w ∧ filtered_df w' = filtered_df w ∧ con w' = con w
     ∧ kpi_data w' = kpi_data w
     ∧ trivia_score (session_state w') = trivia_score (session_state w)
     ∧ current_question (session_state w') = current_question (session_state w)
     ∧ correct_answer (session_state w') = correct_answer (session_state w)
     ∧ options (session_state w') = options (session_state w)
     ∧ question_asked (session_state w') = question_asked (session_state w)).
Proof.
  split; [by apply after_clicks_cursor | apply after_clicks_frame].
Qed.

(** ** The what-if page (lines 384-418) *)

Lemma show_metrics_run (n i : nat) (items : list (string * Metric)) (w : World) :
  n ≠ 0%nat →
  show_metrics n i items w
  = (Ok (),
     with_page (page w ++ imap (λ j kv, MetricCard ((i + j) `mod` n)
                                          (whatif_label kv.1) kv.2) items) w).
Proof.
  intros Hn. revert i w. induction items as [|[key value] items IH]; intros i w.
  - simpl. rewrite app_nil_r. by destruct w.
  - cbn [show_metrics]. rewrite M_bind_run. unfold lift. destruct n as [|n]; [done|].
    change (py_mod i (S n)) with (Ok (i `mod` S n)). cbv beta iota.
    rewrite M_bind_run. unfold st_write. rewrite IH.
    cbn [page with_page heap filtered_df con kpi_data session_state].
    unfold with_page. cbn [page heap filtered_df con kpi_data session_state].
    rewrite <- app_assoc. cbn [imap app fst snd]. rewrite Nat.add_0_r.
    do 4 f_equal. apply imap_ext. intros j kv _. unfold compose.
    by replace (S i + j)%nat with (i + S j)%nat by lia.
Qed.

Lemma kpi_items_roles (k : KpiData) :
  length (kpi_items k)
  = ((if bool_decide (is_Some (total_sales k)) then 1 else 0)
     + 1
     + (if bool_decide (is_Some (unique_categories k)) then 1 else 0)
     + (if bool_decide (is_Some (date_range k)) then 1 else 0))%nat.
Proof. destruct k as [[?|] ? [?|] [?|]]; reflexivity. Qed.

Lemma what_if_try_page (sales category date : option string)
    (sel : string) (pct : Qc) (w : World) (df : DataFrame) (col scaled : Series)
    (k : KpiData) :
  heap w !! filtered_df w = Some df →
  get df sel = Ok col →
  mul_scalar col (1 + pct / Q2Qc 100)%Qc = Ok scaled →
  let l' := fresh (dom (heap w)) in
  let df' := Pandas.set df sel scaled in
  let h' := <[l' := df']> (heap w) in
  kpi_queries h' (DuckDB.register ∅ "modified_data" l') "modified_data"
    sales category date = Ok k →
  what_if_try sales category date sel pct w
  = (Ok k,
     mkWorld h' (filtered_df w) (con w) (kpi_data w) (session_state w)
       (page w
        ++ [Subheader "Original Data (Sample):"; Dataframe (Pandas.head df);
            Subheader "Modified Data (Sample):"; Dataframe (Pandas.head df');
            Subheader "Updated KPIs:"]
        ++ imap (λ j kv, MetricCard (j `mod` length (kpi_items (kpi_data w)))
                           (whatif_label kv.1) kv.2) (kpi_items k))).
Proof.
  intros Hdf Hcol Hmul l' df' h' Hk.
  unfold what_if_try, df_copy, df_getitem, df_setitem, deref, act, lift, st_write.
  rewrite !M_bind_run, Hdf.
  rewrite !M_bind_run. cbn [heap with_heap filtered_df].
  rewrite lookup_insert_eq, Hcol.
  rewrite !M_bind_run, Hmul.
  rewrite !M_bind_run. cbn [heap with_heap filtered_df].
  rewrite lookup_insert_eq. rewrite !M_bind_run. cbn [heap with_heap with_page page].
  rewrite insert_insert_eq.
  assert (Hne : filtered_df w ≠ fresh (dom (heap w))).
  { intros Heq. apply (is_fresh (dom (heap w))). rewrite <- Heq.
    apply elem_of_dom. by rewrite Hdf. }
  rewrite lookup_insert_ne by done. rewrite Hdf.
  rewrite !M_bind_run. cbn [heap with_heap with_page page].
  rewrite lookup_insert_eq. rewrite !M_bind_run. cbn [heap with_heap with_page page kpi_data].
  fold l'. fold df'. fold h'. rewrite Hk.
  rewrite !M_bind_run.
  rewrite show_metrics_run by apply kpi_items_length.
  unfold mret, M_ret, with_page.
  cbn [heap filtered_df con kpi_data session_state page].
  rewrite <- !app_assoc. reflexivity.
Qed.

(** X17.  Lines 384-418: when the what-if change goes through, the tab
    adds to the page the two data samples (the view as it is and the
    changed copy) and then one metric for each updated KPI, in the order
    total, transactions, categories, date range, each in a column of its
    own: the updated KPIs have the keys of the baseline KPIs, so the column
    index never wraps around. *)
Theorem what_if_page
    (h : gmap nat DataFrame) (fdf : nat) (session : Session)
    (sales category date : option string) (w : World) (df : DataFrame)
    (numeric : list string) (choice : nat) (sel : string) (v : list (option Qc))
    (pct : Qc) :
  run_kpis h fdf sales category date session = Ok w →
  h !! fdf = Some df →
  numeric ≠ [] →
  selectbox numeric choice = Ok sel →
  lookup_col sel (data df) = Some (NumCol v) →
  let df' := Pandas.set df sel
               (NumCol (fmap (M:=option) (λ x, x * (1 + pct / Q2Qc 100))%Qc <$> v)) in
  ∃ k w',
    what_if_tab sales category date numeric choice pct true w = (Ok (Some k), w')
    ∧ length (kpi_items k) = length (kpi_items (kpi_data w))
    ∧ page w'
      = page w
        ++ [Subheader "Original Data (Sample):"; Dataframe (Pandas.head df);
            Subheader "Modified Data (Sample):"; Dataframe (Pandas.head df');
            Subheader "Updated KPIs:"]
        ++ imap (λ j kv, MetricCard j (whatif_label kv.1) kv.2) (kpi_items k).
Proof.
  intros Hrun Hdf Hn Hsel Hv df'.
  destruct (run_kpis_inv _ _ _ _ _ _ _ Hrun)
    as (df0 & Hdf0 & Hh & Hf & Hcon & Hsess & Hscan & Hk).
  assert (df0 = df) as -> by congruence.
  destruct (kpi_queries_fit _ _ _ _ _ _ _ _ Hscan Hk) as (Hs & Hc & Hd).
  destruct (kpi_queries_total h (con w) "sales_data" df sales category date
              Hscan Hs Hc Hd) as (k0 & Hk0 & Hts0 & _ & Huc0 & Hdr0).
  assert (k0 = kpi_data w) as -> by congruence.
  destruct (kpi_queries_total (<[fresh (dom h) := df']> h)
              (DuckDB.register ∅ "modified_data" (fresh (dom h))) "modified_data"
              df' sales category date) as (k & Hk' & Hts & _ & Huc & Hdr).
  { apply scan_temp. }
  { by eapply names_number_set. }
  { by eapply names_column_set. }
  { by eapply names_column_set. }
  assert (Hlen : length (kpi_items k) = length (kpi_items (kpi_data w))).
  { rewrite !kpi_items_roles, Hts, Hts0, Huc, Huc0, Hdr, Hdr0.
    by destruct sales, category, date. }
  eexists k, _. split; [|split; [exact Hlen|]].
  - unfold what_if_tab. rewrite bool_decide_eq_false_2 by done.
    rewrite M_bind_run. unfold lift. rewrite Hsel.
    unfold try_except. rewrite M_bind_run.
    rewrite (what_if_try_page sales category date sel pct w df (NumCol v)
               (NumCol (fmap (M:=option) (λ x, x * (1 + pct / Q2Qc 100))%Qc <$> v)) k).
    + unfold mret, M_ret. reflexivity.
    + by rewrite Hh, Hf.
    + unfold get. by rewrite Hv.
    + reflexivity.
    + rewrite Hh. exact Hk'.
  - cbn [page]. do 2 f_equal. apply imap_ext. intros j kv Hj. cbn.
    f_equal. rewrite <- Hlen. apply Nat.mod_small. by eapply lookup_lt_Some.
Qed.

(** A change of +25 % on Revenue in the sample table. *)
Lemma what_if_page_witness :
  let df' := Pandas.set sample_sales "Revenue"
               (NumCol (fmap (M:=option) (λ x, x * (1 + Q2Qc 25 / Q2Qc 100))%Qc
                          <$> [Some (qz 10); Some (qz 20); Some (qz 30); Some (qz 40);
                               Some (qz 50)])) in
  ∃ k w',
    what_if_tab (Some "Revenue") (Some "Region") None ["Revenue"; "Units"] 0
      (Q2Qc 25) true sample_world = (Ok (Some k), w')
    ∧ length (kpi_items k) = length (kpi_items (kpi_data sample_world))
    ∧ page w'
      = page sample_world
        ++ [Subheader "Original Data (Sample):"; Dataframe (Pandas.head sample_sales);
            Subheader "Modified Data (Sample):"; Dataframe (Pandas.head df');
            Subheader "Updated KPIs:"]
        ++ imap (λ j kv, MetricCard j (whatif_label kv.1) kv.2) (kpi_items k).
Proof.
  apply (what_if_page sample_heap 0 empty_session
           (Some "Revenue") (Some "Region") None sample_world sample_sales
           ["Revenue"; "Units"] 0 "Revenue"
           [Some (qz 10); Some (qz 20); Some (qz 30); Some (qz 40); Some (qz 50)]
           (Q2Qc 25)).
  - vm_compute. reflexivity.
  - vm_compute. reflexivity.
  - discriminate.
  - reflexivity.
  - reflexivity.
Defined.

(** ** The trivia game (lines 425-491) *)

Section TriviaFacts.
Variable str_num : Qc → string.
Variable str_time : Z → string.
Variable df : DataFrame.
Variables numeric_columns categorical_columns : list string.

Abbreviation run_ := (trivia_run str_num str_time df numeric_columns categorical_columns).
Abbreviation play_ := (trivia_play str_num str_time df numeric_columns categorical_columns).
Abbreviation interaction_ :=
  (trivia_interaction str_num str_time df numeric_columns categorical_columns).
Abbreviation answer_ :=
  (answer_question str_num str_time numeric_columns categorical_columns).

Lemma answer_question_score (clicked : option string) (picked : nat)
    (k : TriviaKeys) (g : list nat) (pg : list Widget) :
  numeric_columns ≠ [] ∨ categorical_columns ≠ [] →
  existsb says_correct pg = false →
  let r := answer_ clicked picked k g pg in
  k_trivia_score (tr_keys r)
  = (k_trivia_score k + (if correct_shown r then 1 else 0))%nat
  ∧ (correct_shown r = true →
     clicked = Some "Submit Trivia Answer" ∧ tr_outcome r = Ok true).
Proof.
  intros Hcols Hpg. unfold answer_question, correct_shown.
  assert (Hnone : bool_decide (numeric_columns = [])
                  && bool_decide (categorical_columns = []) = false).
  { apply andb_false_iff. rewrite !bool_decide_eq_false. tauto. }
  rewrite Hnone.
  destruct (shown_question k) as [q|]; [|simpl; rewrite Hpg; split; [lia | done]].
  destruct (k_options k) as [o|]; [|simpl; rewrite existsb_app, Hpg; simpl; split; [lia|done]].
  cbv zeta. unfold button.
  destruct (bool_decide (clicked = Some "Submit Trivia Answer")) eqn:Hclick.
  - apply bool_decide_eq_true in Hclick.
    destruct (answer_matches _ _ _ _); simpl;
      rewrite !existsb_app, Hpg; simpl; split; (lia || done).
  - simpl. rewrite !existsb_app, Hpg. simpl. split; [lia | done].
Qed.

Lemma trivia_run_score (clicked : option string) (picked : nat)
    (k : TriviaKeys) (g : list nat) :
  numeric_columns ≠ [] ∨ categorical_columns ≠ [] →
  let r := run_ clicked picked k g in
  k_trivia_score (tr_keys r)
  = (k_trivia_score k + (if correct_shown r then 1 else 0))%nat
  ∧ (correct_shown r = true →
     clicked = Some "Submit Trivia Answer" ∧ tr_outcome r = Ok true).
Proof.
  intros Hcols. unfold trivia_run, ask_question.
  destruct (k_question_asked k); simpl.
  { by apply answer_question_score. }
  assert (Hsome : bool_decide (numeric_columns ≠ [])
                  || bool_decide (categorical_columns ≠ []) = true).
  { apply orb_true_iff. rewrite !bool_decide_eq_true. tauto. }
  rewrite Hsome.
  destruct (generate_trivia_question df numeric_columns categorical_columns g)
    as [[r g']|e]; simpl.
  - destruct r as [[[q a] o]|].
    + exact (answer_question_score clicked picked
               (mkTriviaKeys (k_trivia_score k) (Some q) (Some a) (Some o) true)
               g' [] Hcols eq_refl).
    + exact (answer_question_score clicked picked
               (mkTriviaKeys (k_trivia_score k) None None None true)
               g' [] Hcols eq_refl).
  - split; [lia | done].
Qed.

Lemma trivia_interaction_score (k : TriviaKeys) (g : list nat) (click : option string * nat) :
  numeric_columns ≠ [] ∨ categorical_columns ≠ [] →
  (k_trivia_score k ≤ k_trivia_score (tr_keys (interaction_ k g click))
   ≤ k_trivia_score k + 1)%nat.
Proof.
  intros Hcols. unfold trivia_interaction.
  destruct (trivia_run_score click.1 click.2 k g Hcols) as [H1 _].
  set (r := run_ click.1 click.2 k g) in *.
  assert (Hr : (k_trivia_score k ≤ k_trivia_score (tr_keys r) ≤ k_trivia_score k + 1)%nat)
    by (destruct (correct_shown r); lia).
  destruct (tr_outcome r) as [[|]|]; try done.
  destruct (trivia_run_score None click.2 (tr_keys r) (tr_rng r) Hcols) as [H2 H3].
  destruct (correct_shown (run_ None click.2 (tr_keys r) (tr_rng r))).
  - by destruct H3.
  - lia.
Qed.

Lemma trivia_play_score (clicks : list (option string * nat)) (k : TriviaKeys) (g : list nat) :
  numeric_columns ≠ [] ∨ categorical_columns ≠ [] →
  (k_trivia_score k ≤ k_trivia_score (play_ clicks k g).1
   ≤ k_trivia_score k + length clicks)%nat.
Proof.
  intros Hcols. revert k g. induction clicks as [|c clicks IH]; intros k g; simpl; [lia|].
  pose proof (trivia_interaction_score k g c Hcols).
  specialize (IH (tr_keys (interaction_ k g c)) (tr_rng (interaction_ k g c))). lia.
Qed.

(** From the keys of a run that stored no question, with a column to
    ask about: no run writes anything or changes a key. *)
Lemma trivia_run_stuck (clicked : option string) (picked : nat)
    (k : TriviaKeys) (g : list nat) :
  numeric_columns ≠ [] ∨ categorical_columns ≠ [] →
  k_question_asked k = true → k_current_question k = None →
  run_ clicked picked k g = mkTriviaRun (Ok false) k g [].
Proof.
  intros Hcols Hasked Hq. unfold trivia_run, ask_question. rewrite Hasked. simpl.
  unfold answer_question, shown_question. rewrite Hq.
  assert (Hnone : bool_decide (numeric_columns = [])
                  && bool_decide (categorical_columns = []) = false).
  { apply andb_false_iff. rewrite !bool_decide_eq_false. tauto. }
  by rewrite Hnone.
Qed.

Lemma trivia_play_stuck (clicks : list (option string * nat)) (k : TriviaKeys) (g : list nat) :
  numeric_columns ≠ [] ∨ categorical_columns ≠ [] →
  k_question_asked k = true → k_current_question k = None →
  play_ clicks k g = (k, g).
Proof.
  intros Hcols Hasked Hq. induction clicks as [|c clicks IH]; simpl; [done|].
  unfold trivia_interaction. rewrite trivia_run_stuck by done. simpl. exact IH.
Qed.

End TriviaFacts.

Lemma generate_no_question (df : DataFrame) (nums cats : list string) (r : nat) (g : list nat) :
  (nums = [] ∧ (r `mod` 2 = 0)%nat) ∨ (cats = [] ∧ (r `mod` 2 = 1)%nat) →
  nums ≠ [] ∨ cats ≠ [] →
  generate_trivia_question df nums cats (r :: g) = Ok (None, g).
Proof.
  intros Hdraw Hcols. unfold generate_trivia_question.
  assert (Hnone : bool_decide (nums = []) && bool_decide (cats = []) = false).
  { apply andb_false_iff. rewrite !bool_decide_eq_false. tauto. }
  rewrite Hnone.
  unfold Random.choice, Random.randbelow.
  change (length ["average"; "value_counts"]) with 2%nat.
  rewrite (bool_decide_eq_false_2 (2 = 0)%nat) by done.
  destruct Hdraw as [[-> Hr] | [-> Hr]]; rewrite Hr; reflexivity.
Qed.

(** X18.  Lines 440-491: while the table has a numeric or a categorical
    column, the score is never reset and never decreases; one run of the
    tab adds one to it exactly when it shows "Correct!", which it does
    only in a run started by the submit button, and a sequence of clicks
    adds at most one per click. *)
Theorem trivia_score_accounting (str_num : Qc → string) (str_time : Z → string)
    (df : DataFrame) (nums cats : list string) :
  nums ≠ [] ∨ cats ≠ [] →
  (∀ clicked picked k g,
     let r := trivia_run str_num str_time df nums cats clicked picked k g in
     k_trivia_score (tr_keys r)
     = (k_trivia_score k + (if correct_shown r then 1 else 0))%nat
     ∧ (correct_shown r = true →
        clicked = Some "Submit Trivia Answer" ∧ tr_outcome r = Ok true))
  ∧ (∀ clicks k g,
       (k_trivia_score k
        ≤ k_trivia_score (trivia_play str_num str_time df nums cats clicks k g).1
        ≤ k_trivia_score k + length clicks)%nat).
Proof.
  intros Hcols. split.
  - intros. by apply trivia_run_score.
  - intros. by apply trivia_play_score.
Qed.

(** X19.  Lines 440-470: when only one of the two column lists is empty
    and the generator draws the question type of the empty list, it
    returns no question, yet the tab records the question as asked.  That
    run shows nothing, and from then on no click shows a question or
    changes a key: the game cannot be played or reset in that session. *)
Theorem trivia_stuck (str_num : Qc → string) (str_time : Z → string)
    (df : DataFrame) (nums cats : list string) (k : TriviaKeys)
    (r : nat) (g : list nat) (clicked : option string) (picked : nat) :
  k_question_asked k = false →
  nums ≠ [] ∨ cats ≠ [] →
  (nums = [] ∧ (r `mod` 2 = 0)%nat) ∨ (cats = [] ∧ (r `mod` 2 = 1)%nat) →
  let stuck := mkTriviaKeys (k_trivia_score k) None None None true in
  trivia_run str_num str_time df nums cats clicked picked k (r :: g)
  = mkTriviaRun (Ok false) stuck g []
  ∧ ∀ clicks g',
      trivia_play str_num str_time df nums cats clicks stuck g' = (stuck, g').
Proof.
  intros Hasked Hcols Hdraw stuck. split.
  - unfold trivia_run, ask_question. rewrite Hasked. simpl.
    assert (Hsome : bool_decide (nums ≠ []) || bool_decide (cats ≠ []) = true).
    { apply orb_true_iff. rewrite !bool_decide_eq_true. tauto. }
    rewrite Hsome, generate_no_question by done. simpl.
    unfold answer_question, shown_question. simpl.
    assert (Hnone : bool_decide (nums = []) && bool_decide (cats = []) = false).
    { apply andb_false_iff. rewrite !bool_decide_eq_false. tauto. }
    by rewrite Hnone.
  - intros clicks g'. by apply trivia_play_stuck.
Qed.

Lemma values_timestamp (s : Series) (t : Z) :
  STime t ∈ Pandas.values s → ∃ v, s = DateCol v.
Proof.
  destruct s as [v|v|v]; simpl; [| |by eauto];
    intros (o & Ho & _)%list_elem_of_fmap; by destruct o.
Qed.

Lemma dropna_DateCol (v : list (option Z)) (x : scalar) :
  x ∈ dropna (DateCol v) → ∃ t, x = STime t.
Proof.
  unfold dropna. intros [Hx Hin]%list_elem_of_filter. simpl in Hin.
  apply list_elem_of_fmap in Hin as ([t|] & -> & _); [by eauto | done].
Qed.

(** A question whose answer is a timestamp is about a datetime column,
    and all of its options are timestamps. *)
Lemma generate_timestamp (df : DataFrame) (nums cats : list string) (g g' : list nat)
    (question : string) (t : Z) (options : list scalar) :
  generate_trivia_question df nums cats g = Ok (Some (question, STime t, options), g') →
  question ≠ "" ∧ ∀ x, x ∈ options → ∃ t', x = STime t'.
Proof.
  intros H. unfold generate_trivia_question in H.
  destruct (bool_decide (nums = []) && bool_decide (cats = [])); [done|].
  apply res_bind_inv in H as ([qt g1] & Hqt & H).
  destruct (bool_decide (qt = "average") && bool_decide (nums ≠ [])).
  { apply res_bind_inv in H as ([col g2] & Hcol & H).
    apply res_bind_inv in H as (s & Hs & H).
    apply res_bind_inv in H as (correct & Hmean & H).
    apply res_bind_inv in H as (s1 & Hs1 & H).
    apply res_bind_inv in H as (med & Hmed & H).
    apply res_bind_inv in H as (s2 & Hs2 & H).
    apply res_bind_inv in H as (lo & Hlo & H).
    apply res_bind_inv in H as (s3 & Hs3 & H).
    apply res_bind_inv in H as (hi & Hhi & H).
    destruct (Random.shuffle _ g2) as [opts g3]. by simplify_eq. }
  destruct (bool_decide (qt = "value_counts") && bool_decide (cats ≠ [])); [|done].
  apply res_bind_inv in H as ([col g2] & Hcol & H).
  apply res_bind_inv in H as (s & Hs & H).
  apply res_bind_inv in H as (top_value & Htop & H).
  apply res_bind_inv in H as (s1 & Hs1 & H).
  assert (s1 = s) as -> by congruence.
  apply res_bind_inv in H as (picked & Hpicked & H).
  pose proof (shuffle_perm picked g2) as Hp.
  destruct (Random.shuffle picked g2) as [opts g3]. simpl in Hp. simplify_eq.
  split; [done|].
  assert (Hin : STime t ∈ dropna s).
  { destruct (Pandas.empty s); simpl in Htop; [done|]. by apply mode_0_is_mode. }
  destruct (values_timestamp s t) as [v ->].
  { unfold dropna in Hin. by apply list_elem_of_filter in Hin as [_ ?]. }
  assert (Htop4 : ∀ x, x ∈ (nlargest 4 (value_counts (DateCol v))).*1 →
                       ∃ t', x = STime t').
  { intros x Hx. apply (dropna_DateCol v).
    apply elem_of_unique. rewrite <- value_counts_fst.
    unfold nlargest in Hx. apply list_elem_of_fmap in Hx as (p & -> & Hp').
    apply list_elem_of_fmap. exists p. split; [done|].
    rewrite <- (take_drop 4 (value_counts (DateCol v))). apply elem_of_app. by left. }
  intros x Hx. rewrite Hp in Hx.
  destruct (bool_decide (STime t ≠ not_applicable)
            && bool_decide (STime t ∉ (nlargest 4 (value_counts (DateCol v))).*1)).
  - apply set_last_inv in Hpicked as (kept & last & Hk & ->).
    apply elem_of_app in Hx as [Hx | ->%list_elem_of_singleton]; [|by eauto].
    apply Htop4. rewrite Hk. apply elem_of_app. by left.
  - simplify_eq. by apply Htop4.
Qed.

Lemma radio_elem_of (options : list scalar) (picked : nat) (x : scalar) :
  radio options picked = Some x → x ∈ options.
Proof.
  unfold radio. destruct (options !! picked) eqn:E.
  - intros; simplify_eq. by eapply list_elem_of_lookup_2.
  - intros. by eapply list_elem_of_lookup_2.
Qed.

(** X20.  Lines 454-483: a question about a datetime column (one that was
    classified as categorical and then converted) cannot be answered: its
    options and its answer are timestamps, the submitted option is
    compared with the text of the answer, and so every submission, the
    right option included, is reported as incorrect and leaves the score
    as it is. *)
Theorem trivia_timestamp_answer (str_num : Qc → string) (str_time : Z → string)
    (df : DataFrame) (nums cats : list string) (g g' : list nat)
    (question : string) (t : Z) (options : list scalar)
    (score picked : nat) (g2 : list nat) :
  generate_trivia_question df nums cats g = Ok (Some (question, STime t, options), g') →
  STime t ∈ options
  ∧ trivia_run str_num str_time df nums cats (Some "Submit Trivia Answer") picked
      (mkTriviaKeys score (Some question) (Some (STime t)) (Some options) true) g2
    = mkTriviaRun (Ok true)
        (mkTriviaKeys score None (Some (STime t)) (Some options) false) g2
        [Subheader question;
         StError ("Incorrect. The correct answer was: " +:+ str_time t)].
Proof.
  intros Hgen.
  destruct (generate_timestamp _ _ _ _ _ _ _ _ Hgen) as [Hq Hopts].
  split.
  { unfold generate_trivia_question in Hgen.
    destruct (bool_decide (nums = []) && bool_decide (cats = [])); [done|].
    apply res_bind_inv in Hgen as ([qt g1] & Hqt & H).
    destruct (bool_decide (qt = "average") && bool_decide (nums ≠ [])).
    { apply res_bind_inv in H as ([col g3] & Hcol & H).
      apply res_bind_inv in H as (s & Hs & H).
      apply res_bind_inv in H as (correct & Hmean & H).
      apply res_bind_inv in H as (s1 & Hs1 & H).
      apply res_bind_inv in H as (med & Hmed & H).
      apply res_bind_inv in H as (s2 & Hs2 & H).
      apply res_bind_inv in H as (lo & Hlo & H).
      apply res_bind_inv in H as (s3 & Hs3 & H).
      apply res_bind_inv in H as (hi & Hhi & H).
      destruct (Random.shuffle _ g3) as [opts g4]. by simplify_eq. }
    destruct (bool_decide (qt = "value_counts") && bool_decide (cats ≠ [])); [|done].
    apply res_bind_inv in H as ([col g3] & Hcol & H).
    apply res_bind_inv in H as (s & Hs & H).
    apply res_bind_inv in H as (top_value & Htop & H).
    apply res_bind_inv in H as (s1 & Hs1 & H).
    apply res_bind_inv in H as (picked' & Hpicked & H).
    pose proof (shuffle_perm picked' g3) as Hp.
    destruct (Random.shuffle picked' g3) as [opts g4]. simpl in Hp. simplify_eq.
    rewrite Hp.
    destruct (bool_decide (STime t ≠ not_applicable)
              && bool_decide (STime t ∉ (nlargest 4 (value_counts s1)).*1)) eqn:Hb.
    - apply set_last_inv in Hpicked as (kept & last & _ & ->). set_solver.
    - simplify_eq. apply andb_false_iff in Hb as [Hb|Hb]; apply bool_decide_eq_false in Hb.
      + exfalso. apply Hb. done.
      + by apply dec_stable. }
  unfold trivia_run, ask_question. simpl.
  unfold answer_question, shown_question. simpl.
  rewrite (bool_decide_eq_true_2 (question ≠ "")) by done.
  assert (Hno : answer_matches str_num str_time (radio options picked) (Some (STime t))
                = false).
  { unfold answer_matches. destruct (radio options picked) as [x|] eqn:Hx; [|done].
    apply radio_elem_of in Hx. destruct (Hopts x Hx) as [t' ->]. done. }
  rewrite Hno. done.
Qed.

(** ** The KPI cards and the KPI table of the PDF report *)

(** X21.  Lines 98-109, 270-283 and 406-418: the dashboard cards, the
    rows of the PDF table below its header and the what-if metrics list
    the same KPIs in the same order with the same values; the one
    difference is a date range without bounds (a date column without any
    date in the view), which the table and the what-if metrics show as
    "N/A" and for which no card is written.  The cards go to their own
    layout columns. *)
Theorem kpi_table_matches_cards (k : KpiData) :
  kpi_table_data k
  = ("KPI", CellText "Value")
    :: ((λ c : nat * string * Metric, (c.1.2, CellValue c.2)) <$> kpi_cards k)
    ++ match date_range k with
       | Some (Some _, Some _) | None => []
       | Some _ => [("Date Range", CellValue NotAvailable)]
       end
  ∧ (λ r : string * Cell, r.2) <$> tail (kpi_table_data k)
    = (λ i : string * Metric, CellValue i.2) <$> kpi_items k
  ∧ length (tail (kpi_table_data k)) = length (kpi_items k)
  ∧ NoDup ((λ c : nat * string * Metric, c.1.1) <$> kpi_cards k).
Proof.
  unfold kpi_table_data, kpi_cards, kpi_items.
  destruct k as [[ts|] tt [uc|] [[[a|] [b|]]|]]; simpl;
    repeat split; try done;
    repeat (apply NoDup_cons; split; [set_solver|]); apply NoDup_nil_2.
Qed.

Lemma generate_question_nonempty (df : DataFrame) (nums cats : list string)
    (g g' : list nat) (question : string) (answer : scalar) (options : list scalar) :
  generate_trivia_question df nums cats g = Ok (Some (question, answer, options), g') →
  question ≠ "".
Proof.
  intros H. unfold generate_trivia_question in H.
  destruct (bool_decide (nums = []) && bool_decide (cats = [])); [done|].
  apply res_bind_inv in H as ([qt g1] & Hqt & H).
  destruct (bool_decide (qt = "average") && bool_decide (nums ≠ [])).
  { apply res_bind_inv in H as ([col g2] & Hcol & H).
    apply res_bind_inv in H as (s & Hs & H).
    apply res_bind_inv in H as (correct & Hmean & H).
    apply res_bind_inv in H as (s1 & Hs1 & H).
    apply res_bind_inv in H as (med & Hmed & H).
    apply res_bind_inv in H as (s2 & Hs2 & H).
    apply res_bind_inv in H as (lo & Hlo & H).
    apply res_bind_inv in H as (s3 & Hs3 & H).
    apply res_bind_inv in H as (hi & Hhi & H).
    destruct (Random.shuffle _ g2) as [opts g3]. by simplify_eq. }
  destruct (bool_decide (qt = "value_counts") && bool_decide (cats ≠ [])); [|done].
  apply res_bind_inv in H as ([col g2] & Hcol & H).
  apply res_bind_inv in H as (s & Hs & H).
  apply res_bind_inv in H as (top_value & Htop & H).
  apply res_bind_inv in H as (s1 & Hs1 & H).
  apply res_bind_inv in H as (picked & Hpicked & H).
  destruct (Random.shuffle picked g2) as [opts g3]. by simplify_eq.
Qed.

(** X22.  Lines 472-486: for a question whose answer is a text (an
    average, formatted, or a value of a text column), a submission is
    judged by comparing the selected option with the answer: the run shows
    "Correct!" and adds one to the score when they are the same text, and
    otherwise shows the answer and leaves the score; in both cases the
    question is withdrawn and a rerun is asked for. *)
Theorem trivia_text_answer (str_num : Qc → string) (str_time : Z → string)
    (df : DataFrame) (nums cats : list string) (g g' : list nat)
    (question a : string) (options : list scalar)
    (score picked : nat) (g2 : list nat) :
  generate_trivia_question df nums cats g = Ok (Some (question, SStr a, options), g') →
  let k := mkTriviaKeys score (Some question) (Some (SStr a)) (Some options) true in
  let r := trivia_run str_num str_time df nums cats (Some "Submit Trivia Answer")
             picked k g2 in
  (radio options picked = Some (SStr a) →
   r = mkTriviaRun (Ok true)
         (mkTriviaKeys (score + 1) None (Some (SStr a)) (Some options) false) g2
         [Subheader question; StSuccess "Correct!"])
  ∧ (radio options picked ≠ Some (SStr a) →
     r = mkTriviaRun (Ok true)
           (mkTriviaKeys score None (Some (SStr a)) (Some options) false) g2
           [Subheader question;
            StError ("Incorrect. The correct answer was: " +:+ a)]).
Proof.
  intros Hgen k r.
  pose proof (generate_question_nonempty _ _ _ _ _ _ _ _ Hgen) as Hq.
  subst r k. unfold trivia_run, ask_question. simpl.
  unfold answer_question, shown_question. simpl.
  rewrite (bool_decide_eq_true_2 (question ≠ "")) by done.
  split; intros Hpick.
  - rewrite Hpick. simpl. rewrite bool_decide_eq_true_2 by done. done.
  - assert (Hno : answer_matches str_num str_time (radio options picked) (Some (SStr a))
                  = false).
    { unfold answer_matches. destruct (radio options picked) as [[| u | |]|]; try done.
      simpl. apply bool_decide_eq_false. congruence. }
    rewrite Hno. done.
Qed.


(** ** Instances of the further properties on the sample tables *)

Lemma sample_sales_columns : NoDup (Pandas.columns sample_sales).
Proof.
  apply (bool_decide_eq_true_1 (NoDup (Pandas.columns sample_sales))).
  vm_compute. reflexivity.
Defined.

Lemma columns_classified_witness :
  select_number sample_sales ++ select_not_number sample_sales
  ≡ₚ Pandas.columns sample_sales
  ∧ (∀ c, c ∈ select_datetime sample_sales → c ∈ select_not_number sample_sales)
  ∧ (∀ c, c ∈ select_number sample_sales → c ∉ select_not_number sample_sales).
Proof. apply (columns_classified sample_sales). exact sample_sales_columns. Defined.



(** The East rows of the sample table are rows 0, 2 and 4. *)
Lemma data_filtering_allowed_witness :
  let east := loc_mask sample_sales [true; false; true; false; true] in
  index east `sublist_of` index sample_sales
  ∧ ∀ c allowed, (c, allowed) ∈ [("Region", [SStr "East"])] →
      ∃ s, lookup_col c (data east) = Some s
           ∧ ∀ x, x ∈ Pandas.values s → x ∈ allowed.
Proof.
  intros east.
  apply (data_filtering_allowed [("Region", [SStr "East"])] sample_sales east).
  vm_compute. reflexivity.
Defined.

(** Days 1 to 2 of the dated table: its first two rows. *)
Lemma date_range_filter_within_witness :
  let out := loc_mask sample_dated [true; true; false; false] in
  ∃ v, lookup_col "Day" (data sample_dated) = Some (DateCol v)
       ∧ lookup_col "Day" (data out)
         = Some (DateCol (filter (λ o, in_date_range 1 2 o = true) v))
       ∧ index out = Pandas.select (in_date_range 1 2 <$> v) (index sample_dated)
       ∧ ((2 < 1)%Z → index out = []).
Proof.
  intros out.
  apply (date_range_filter_within "Day" 1 2 sample_dated out).
  vm_compute. reflexivity.
Defined.

Lemma filters_idempotent_witness :
  let F := mkFilterSet 0 0 [("Region", [SStr "East"])] in
  value_of (apply_filter_set None F sample_sales ≫= apply_filter_set None F)
  = value_of (apply_filter_set None F sample_sales)
  ∧ apply_filter_set None F (loc_mask sample_sales [true; false; true; false; true])
    = Ok (loc_mask sample_sales [true; false; true; false; true]).
Proof.
  intros F.
  destruct (filters_idempotent None F sample_sales) as [Htwice Hfix].
  split; [exact Htwice|]. apply Hfix. vm_compute. reflexivity.
Defined.



Lemma report_figures_fit_witness :
  ∃ slots,
    dynamic_report (λ _ _, None) ["Revenue"; "Units"] ["Region"; "Channel"] None
      (Some "Revenue") sample_sales = Ok slots
    ∧ ∀ s fig, s ∈ slots → slot_out s = PlotlyChart fig →
               figure_fits ["Revenue"; "Units"] ["Region"; "Channel"] None
                 (Some "Revenue") fig.
Proof.
  apply (report_figures_fit (λ _ _, None) ["Revenue"; "Units"] ["Region"; "Channel"] None
           (Some "Revenue") sample_sales).
Defined.

Lemma report_chart_types_witness :
  ∃ slots,
    dynamic_report (λ _ _, None) ["Revenue"; "Units"] ["Region"; "Channel"] None
      (Some "Revenue") sample_sales = Ok slots
    ∧ ∀ i s, slots !! i = Some s →
        slot_index s = i
        ∧ slot_chart_type s
          = (if Spec.precondition ["Revenue"; "Units"] ["Region"; "Channel"] None
                  (Some "Revenue") (i `mod` 7)
             then Some (rule_chart_type (i `mod` 7)) else None).
Proof.
  apply (report_chart_types (λ _ _, None) ["Revenue"; "Units"] ["Region"; "Channel"] None
           (Some "Revenue") sample_sales).
Defined.


Lemma story_steps_shape_witness :
  (story_steps (Some "Revenue") (Some "Region") None = []
   ↔ Some "Revenue" = None ∧ Some "Region" = None)
  ∧ (length (story_steps (Some "Revenue") (Some "Region") None) ≤ 4)%nat
  ∧ ∀ step, step ∈ story_steps (Some "Revenue") (Some "Region") None →
      ∃ fig,
        visualization_function step
          match step_args step with
          | Column c => [c]
          | Columns c1 c2 => [c1; c2]
          end = Ok fig.
Proof. apply (story_steps_shape (Some "Revenue") (Some "Region") None). Defined.

Lemma trivia_score_accounting_witness :
  (∀ clicked picked k g,
     let r := trivia_run (λ _, "") (λ _, "") sample_sales ["Revenue"] ["Region"]
                clicked picked k g in
     k_trivia_score (tr_keys r)
     = (k_trivia_score k + (if correct_shown r then 1 else 0))%nat
     ∧ (correct_shown r = true →
        clicked = Some "Submit Trivia Answer" ∧ tr_outcome r = Ok true))
  ∧ (∀ clicks k g,
       (k_trivia_score k
        ≤ k_trivia_score (trivia_play (λ _, "") (λ _, "") sample_sales ["Revenue"]
                            ["Region"] clicks k g).1
        ≤ k_trivia_score k + length clicks)%nat).
Proof.
  apply (trivia_score_accounting (λ _, "") (λ _, "") sample_sales ["Revenue"] ["Region"]).
  left. discriminate.
Defined.

(** The sample table without its number columns, the first draw being
    the "average" question. *)
Lemma trivia_stuck_witness :
  let stuck := mkTriviaKeys 0 None None None true in
  trivia_run (λ _, "") (λ _, "") sample_sales [] ["Region"] None 0
    (trivia_init empty_session) [0; 1]%nat
  = mkTriviaRun (Ok false) stuck [1%nat] []
  ∧ ∀ clicks g',
      trivia_play (λ _, "") (λ _, "") sample_sales [] ["Region"] clicks stuck g'
      = (stuck, g').
Proof.
  apply (trivia_stuck (λ _, "") (λ _, "") sample_sales [] ["Region"]
           (trivia_init empty_session) 0 [1%nat] None 0).
  - reflexivity.
  - right. discriminate.
  - left. split; reflexivity.
Defined.

(** The question on the Day column of the dated table: the answer is
    day 1, 00:00, and the first option, day 1, 06:00, is submitted. *)
Lemma trivia_timestamp_answer_witness :
  let options := [STime 108000000000000; STime 259200000000000; STime 86400000000000] in
  let question := "Which category appears most frequently in 'Day'?" in
  STime 86400000000000 ∈ options
  ∧ trivia_run (λ _, "") (λ _, "1970-01-02 00:00:00") sample_dated [] ["Day"]
      (Some "Submit Trivia Answer") 2
      (mkTriviaKeys 0 (Some question) (Some (STime 86400000000000)) (Some options) true) []
    = mkTriviaRun (Ok true)
        (mkTriviaKeys 0 None (Some (STime 86400000000000)) (Some options) false) []
        [Subheader question;
         StError "Incorrect. The correct answer was: 1970-01-02 00:00:00"].
Proof.
  intros options question.
  apply (trivia_timestamp_answer (λ _, "") (λ _, "1970-01-02 00:00:00") sample_dated
           [] ["Day"] [1; 0; 0; 0; 0]%nat [0%nat] question 86400000000000 options 0 2 []).
  vm_compute. reflexivity.
Defined.

(** The question on the Region column of the sample table, with its
    second option, "East", submitted. *)
Lemma trivia_text_answer_witness :
  let options := [SStr "West"; SStr "East"] in
  let question := "Which category appears most frequently in 'Region'?" in
  trivia_run (λ _, "") (λ _, "") sample_sales [] ["Region"]
    (Some "Submit Trivia Answer") 1
    (mkTriviaKeys 0 (Some question) (Some (SStr "East")) (Some options) true) []
  = mkTriviaRun (Ok true)
      (mkTriviaKeys (0 + 1) None (Some (SStr "East")) (Some options) false) []
      [Subheader question; StSuccess "Correct!"].
Proof.
  intros options question.
  apply (trivia_text_answer (λ _, "") (λ _, "") sample_sales [] ["Region"]
           [1; 0; 0; 0; 0]%nat [0; 0]%nat question "East" options 0 1 []).
  - vm_compute. reflexivity.
  - reflexivity.
Defined.


